(** * Package params: optional scalars with presence tracking

    A shallow embedding of bool.go, int.go, string.go and time.go.  Each Go
    method with a pointer receiver becomes a function from the receiver's
    state before the call to its state after it, paired with the returned
    error when the method has one.  The parts of the Go standard library the
    methods call (strings, strconv, unicode/utf8, encoding/json, time) are
    modelled in modules that carry the package names. *)

From Stdlib Require Import ZArith NArith List String Ascii Bool Lia Zbitwise.
Import ListNotations.
Local Open Scope string_scope.
Local Open Scope Z_scope.

(** ** Bytes and strings

    A Go [string] and a Go [[]byte] are both finite sequences of bytes; the
    conversions [string(data)] and [[]byte(param)] copy them unchanged. *)

Definition bytes := string.

Definition string_of_bytes (data : bytes) : string := data.

Definition bytes_of_string (s : string) : bytes := s.

Definition len (s : string) : nat := String.length s.

(** The byte value of a character. *)
Definition byteZ (c : ascii) : Z := Z.of_N (N_of_ascii c).

Definition byte_of_Z (z : Z) : ascii := ascii_of_N (Z.to_N z).

(** The double quote and the backslash. *)
Definition dq : ascii := "034"%char.

Definition bslash : ascii := "092"%char.

Definition isDigit (c : ascii) : bool := (48 <=? byteZ c) && (byteZ c <=? 57).

Definition digitVal (c : ascii) : Z := byteZ c - 48.

Definition digitChar (d : Z) : ascii := byte_of_Z (48 + d).

(** ** Errors

    The error values the methods can return.  [Errorf] is an error built by
    [fmt.Errorf] with its formatted message; the others are the error types
    of encoding/json, strconv and time, with the payload the code under
    study can tell apart. *)

Inductive numErr : Type :=
| ErrSyntax
| ErrRange.

Inductive error : Type :=
| Errorf (msg : string)
| JSONSyntaxError
| JSONUnmarshalTypeError (value : string)
| JSONInvalidNumberLiteral (item : string)
| NumError (func num : string) (err : numErr)
| TimeMarshalError (msg : string).

(** ** Package strings *)

Module strings.

(** [strings.ToLower] on the ASCII letters.  On input outside ASCII Go maps
    runes, which can only yield the letters i and k in addition (from U+0130
    and U+212A); neither occurs in the words the callers compare with. *)
Definition lower (c : ascii) : ascii :=
  if (65 <=? byteZ c) && (byteZ c <=? 90) then byte_of_Z (byteZ c + 32) else c.

Fixpoint ToLower (s : string) : string :=
  match s with
  | EmptyString => EmptyString
  | String c r => String (lower c) (ToLower r)
  end.

Fixpoint inCutset (cutset : string) (c : ascii) : bool :=
  match cutset with
  | EmptyString => false
  | String k r => Ascii.eqb k c || inCutset r c
  end.

Fixpoint TrimLeft (s cutset : string) : string :=
  match s with
  | EmptyString => EmptyString
  | String c r => if inCutset cutset c then TrimLeft r cutset else s
  end.

Fixpoint TrimRight (s cutset : string) : string :=
  match s with
  | EmptyString => EmptyString
  | String c r =>
      match TrimRight r cutset with
      | EmptyString => if inCutset cutset c then EmptyString else String c EmptyString
      | r' => String c r'
      end
  end.

(** [strings.Trim] for a cutset of ASCII characters: every leading and
    trailing byte of the cutset is removed. *)
Definition Trim (s cutset : string) : string :=
  TrimLeft (TrimRight s cutset) cutset.

End strings.

(** ** Package strconv *)

Module strconv.

Definition maxUint64 : Z := 2 ^ 64 - 1.

(** Conversion of an unsigned 64-bit value to int64 (two's complement). *)
Definition int64 (z : Z) : Z := (z + 2 ^ 63) mod 2 ^ 64 - 2 ^ 63.

Definition syntaxError (fn str : string) : error := NumError fn str ErrSyntax.

Definition rangeError (fn str : string) : error := NumError fn str ErrRange.

(** The loop of [ParseUint] for base 10 and bit size 64: [s0] is the whole
    argument (for the error), [s] what is left of it and [n] the value read
    so far.  A letter is a digit beyond the base and an underscore is only
    legal for base 0, so every byte that is no decimal digit is a syntax
    error. *)
Fixpoint parseUintLoop (s0 s : string) (n : Z) : Z * option error :=
  match s with
  | EmptyString => (n, None)
  | String c r =>
      if negb (isDigit c) then (0, Some (syntaxError "ParseUint" s0))
      else
        let d := digitVal c in
        if maxUint64 / 10 + 1 <=? n then
          (maxUint64, Some (rangeError "ParseUint" s0))
        else
          let n := n * 10 in
          let n1 := (n + d) mod 2 ^ 64 in
          if (n1 <? n) || (maxUint64 <? n1) then
            (maxUint64, Some (rangeError "ParseUint" s0))
          else parseUintLoop s0 r n1
  end.

Definition ParseUint (s : string) : Z * option error :=
  match s with
  | EmptyString => (0, Some (syntaxError "ParseUint" s))
  | _ => parseUintLoop s s 0
  end.

(** [strconv.ParseInt(s, 10, 64)]. *)
Definition ParseInt (s : string) : Z * option error :=
  match s with
  | EmptyString => (0, Some (syntaxError "ParseInt" s))
  | String c r =>
      let s0 := s in
      let neg := Ascii.eqb c "-" in
      let s := if Ascii.eqb c "+" || Ascii.eqb c "-" then r else s in
      let (un, err) := ParseUint s in
      match err with
      | Some (NumError _ _ ErrRange) | None =>
          let cutoff := 2 ^ 63 in
          if negb neg && (cutoff <=? un) then
            (cutoff - 1, Some (rangeError "ParseInt" s0))
          else if neg && (cutoff <? un) then
            (- cutoff, Some (rangeError "ParseInt" s0))
          else
            let n := int64 un in
            (if neg then int64 (- n) else n, None)
      | Some _ => (0, Some (syntaxError "ParseInt" s0))
      end
  end.

(** The [w] low-order decimal digits of [u], most significant first. *)
Fixpoint decimal (w : nat) (u : Z) : string :=
  match w with
  | O => EmptyString
  | S w' => decimal w' (u / 10) ++ String (digitChar (u mod 10)) EmptyString
  end.

(** The number of decimal digits of [u], one for zero: the count of the
    loop [for u >= 10 { u /= 10 }]. *)
Fixpoint ndigits_loop (fuel : nat) (u : Z) : nat :=
  match fuel with
  | O => 1%nat
  | S f => if u <? 10 then 1%nat else S (ndigits_loop f (u / 10))
  end.

Definition ndigits (u : Z) : nat := ndigits_loop 19 u.

(** [strconv.FormatInt(i, 10)], which is what the verb %d prints for an
    integer: a minus sign for a negative value, then the decimal digits of
    the magnitude without leading zeros. *)
Definition FormatInt (i : Z) : string :=
  let u := Z.abs i in
  (if i <? 0 then "-" else "") ++ decimal (ndigits u) u.

End strconv.

(** ** Package unicode/utf8 *)

Module utf8.

Definition RuneError : Z := 65533.

Definition MaxRune : Z := 1114111.

Definition RuneSelf : Z := 128.

(** The table [first] with [acceptRanges]: for a leading byte above ASCII,
    the length of the sequence it starts and the range its second byte must
    lie in; [None] for a byte that starts no sequence. *)
Definition first (p0 : Z) : option (Z * Z * Z) :=
  if p0 <? 194 then None
  else if p0 <? 224 then Some (2, 128, 191)
  else if p0 =? 224 then Some (3, 160, 191)
  else if p0 <? 237 then Some (3, 128, 191)
  else if p0 =? 237 then Some (3, 128, 159)
  else if p0 <? 240 then Some (3, 128, 191)
  else if p0 =? 240 then Some (4, 144, 191)
  else if p0 <? 244 then Some (4, 128, 191)
  else if p0 =? 244 then Some (4, 128, 143)
  else None.

Definition cont (b : Z) : bool := (128 <=? b) && (b <=? 191).

(** [utf8.DecodeRune]: the first rune of [s] and its width in bytes;
    [(RuneError, 1)] for an invalid or truncated sequence. *)
Definition DecodeRune (s : string) : Z * nat :=
  match s with
  | EmptyString => (RuneError, 0%nat)
  | String c0 r0 =>
      let p0 := byteZ c0 in
      if p0 <? RuneSelf then (p0, 1%nat)
      else
        match first p0, r0 with
        | None, _ => (RuneError, 1%nat)
        | Some _, EmptyString => (RuneError, 1%nat)
        | Some (sz, lo, hi), String c1 r1 =>
            let b1 := byteZ c1 in
            if (b1 <? lo) || (hi <? b1) then (RuneError, 1%nat)
            else if sz <=? 2 then
              (Z.lor (Z.shiftl (Z.land p0 31) 6) (Z.land b1 63), 2%nat)
            else
              match r1 with
              | EmptyString => (RuneError, 1%nat)
              | String c2 r2 =>
                  let b2 := byteZ c2 in
                  if negb (cont b2) then (RuneError, 1%nat)
                  else if sz <=? 3 then
                    (Z.lor (Z.lor (Z.shiftl (Z.land p0 15) 12)
                                  (Z.shiftl (Z.land b1 63) 6))
                           (Z.land b2 63), 3%nat)
                  else
                    match r2 with
                    | EmptyString => (RuneError, 1%nat)
                    | String c3 _ =>
                        let b3 := byteZ c3 in
                        if negb (cont b3) then (RuneError, 1%nat)
                        else
                          (Z.lor (Z.lor (Z.lor (Z.shiftl (Z.land p0 7) 18)
                                               (Z.shiftl (Z.land b1 63) 12))
                                        (Z.shiftl (Z.land b2 63) 6))
                                 (Z.land b3 63), 4%nat)
                    end
              end
        end
  end.

Definition enc3 (r : Z) : string :=
  String (byte_of_Z (Z.lor 224 (Z.shiftr r 12)))
    (String (byte_of_Z (Z.lor 128 (Z.land (Z.shiftr r 6) 63)))
       (String (byte_of_Z (Z.lor 128 (Z.land r 63))) EmptyString)).

(** [utf8.AppendRune] to an empty buffer: the UTF-8 encoding of [r], that
    of [RuneError] for a surrogate or a value beyond [MaxRune]. *)
Definition EncodeRune (r : Z) : string :=
  if (0 <=? r) && (r <=? 127) then String (byte_of_Z r) EmptyString
  else if (0 <=? r) && (r <=? 2047) then
    String (byte_of_Z (Z.lor 192 (Z.shiftr r 6)))
      (String (byte_of_Z (Z.lor 128 (Z.land r 63))) EmptyString)
  else if (r <? 0) || (MaxRune <? r) || ((55296 <=? r) && (r <=? 57343)) then
    enc3 RuneError
  else if r <=? 65535 then enc3 r
  else
    String (byte_of_Z (Z.lor 240 (Z.shiftr r 18)))
      (String (byte_of_Z (Z.lor 128 (Z.land (Z.shiftr r 12) 63)))
         (String (byte_of_Z (Z.lor 128 (Z.land (Z.shiftr r 6) 63)))
            (String (byte_of_Z (Z.lor 128 (Z.land r 63))) EmptyString))).

(** The first [n] bytes of [s], and what follows them. *)
Fixpoint take (n : nat) (s : string) : string :=
  match n, s with
  | S n', String c r => String c (take n' r)
  | _, _ => EmptyString
  end.

Fixpoint drop (n : nat) (s : string) : string :=
  match n, s with
  | S n', String _ r => drop n' r
  | _, _ => s
  end.

(** [utf8.ValidString]. *)
Fixpoint valid_loop (fuel : nat) (s : string) : bool :=
  match fuel with
  | O => true
  | S f =>
      match s with
      | EmptyString => true
      | String _ _ =>
          let (r, size) := DecodeRune s in
          if (r =? RuneError) && (size =? 1)%nat then false
          else valid_loop f (drop size s)
      end
  end.

Definition ValidString (s : string) : bool := valid_loop (len s) s.

End utf8.

(** ** Package encoding/json

    [json.Unmarshal] into a [string] and into a [json.Number], and
    [json.Marshal] of a [string]: the two targets and the one source the
    package under study uses. *)

Module json.

Definition isSpace (c : ascii) : bool :=
  let b := byteZ c in (b =? 32) || (b =? 9) || (b =? 13) || (b =? 10).

Fixpoint skipSpace (s : string) : string :=
  match s with
  | EmptyString => EmptyString
  | String c r => if isSpace c then skipSpace r else s
  end.

Fixpoint trimRightSpace (s : string) : string :=
  match s with
  | EmptyString => EmptyString
  | String c r =>
      match trimRightSpace r with
      | EmptyString => if isSpace c then EmptyString else String c EmptyString
      | r' => String c r'
      end
  end.

Fixpoint skipDigits (s : string) : string :=
  match s with
  | EmptyString => EmptyString
  | String c r => if isDigit c then skipDigits r else s
  end.

(** The exponent of a number, then its end. *)
Definition validExponent (s : string) : bool :=
  match s with
  | String e (String c r as s1) =>
      if Ascii.eqb e "e" || Ascii.eqb e "E" then
        if Ascii.eqb c "+" || Ascii.eqb c "-" then
          match r with
          | EmptyString => false
          | _ => (skipDigits r =? "")%string
          end
        else (skipDigits s1 =? "")%string
      else false
  | EmptyString => true
  | _ => false
  end.

(** The fraction of a number, then its exponent. *)
Definition validFraction (s : string) : bool :=
  match s with
  | String p (String d r) =>
      if Ascii.eqb p "." && isDigit d then validExponent (skipDigits r)
      else validExponent s
  | _ => validExponent s
  end.

(** [isValidNumber]: the grammar of JSON numbers. *)
Definition isValidNumber (s : string) : bool :=
  let s := match s with
           | String c r => if Ascii.eqb c "-" then r else s
           | EmptyString => s
           end in
  match s with
  | EmptyString => false
  | String c r =>
      if Ascii.eqb c "0" then validFraction r
      else if (49 <=? byteZ c) && (byteZ c <=? 57) then validFraction (skipDigits r)
      else false
  end.

Definition hexVal (c : ascii) : option Z :=
  let b := byteZ c in
  if (48 <=? b) && (b <=? 57) then Some (b - 48)
  else if (97 <=? b) && (b <=? 102) then Some (b - 97 + 10)
  else if (65 <=? b) && (b <=? 70) then Some (b - 65 + 10)
  else None.

(** [getu4]: the value of the escape that [s] starts with, a backslash, the
    letter u and four hexadecimal digits; [None] where Go returns -1. *)
Definition getu4 (s : string) : option Z :=
  match s with
  | String b (String u (String h1 (String h2 (String h3 (String h4 _))))) =>
      if Ascii.eqb b bslash && Ascii.eqb u "u" then
        match hexVal h1, hexVal h2, hexVal h3, hexVal h4 with
        | Some d1, Some d2, Some d3, Some d4 =>
            Some (((d1 * 16 + d2) * 16 + d3) * 16 + d4)
        | _, _, _, _ => None
        end
      else None
  | _ => None
  end.

(** [utf16.IsSurrogate] and [utf16.DecodeRune]. *)
Definition IsSurrogate (r : Z) : bool := (55296 <=? r) && (r <? 57344).

Definition utf16_DecodeRune (r1 r2 : Z) : Z :=
  if (55296 <=? r1) && (r1 <? 56320) && (56320 <=? r2) && (r2 <? 57344) then
    Z.lor (Z.shiftl (r1 - 55296) 10) (r2 - 56320) + 65536
  else utf8.RuneError.

Definition cons_fst (c : ascii) (o : option (string * string))
  : option (string * string) :=
  match o with
  | Some (t, rest) => Some (String c t, rest)
  | None => None
  end.

Definition app_fst (p : string) (o : option (string * string))
  : option (string * string) :=
  match o with
  | Some (t, rest) => Some (p ++ t, rest)
  | None => None
  end.

(** A string literal after its opening quote: the text it denotes and what
    follows its closing quote, or [None] when the scanner refuses it (an
    unknown escape, a control character, no closing quote).  The text is
    built as [unquoteBytes] builds it: escapes are replaced, and bytes that
    are not UTF-8 are replaced by the encoding of U+FFFD. *)
Fixpoint unquote (fuel : nat) (s : string) : option (string * string) :=
  match fuel with
  | O => None
  | S f =>
      match s with
      | EmptyString => None
      | String c r =>
          if Ascii.eqb c dq then Some (EmptyString, r)
          else if Ascii.eqb c bslash then
            match r with
            | EmptyString => None
            | String e r' =>
                if Ascii.eqb e dq || Ascii.eqb e bslash || Ascii.eqb e "/" then
                  cons_fst e (unquote f r')
                else if Ascii.eqb e "b" then cons_fst "008"%char (unquote f r')
                else if Ascii.eqb e "f" then cons_fst "012"%char (unquote f r')
                else if Ascii.eqb e "n" then cons_fst "010"%char (unquote f r')
                else if Ascii.eqb e "r" then cons_fst "013"%char (unquote f r')
                else if Ascii.eqb e "t" then cons_fst "009"%char (unquote f r')
                else if Ascii.eqb e "u" then
                  match getu4 s with
                  | None => None
                  | Some rr =>
                      let r6 := utf8.drop 6 s in
                      if IsSurrogate rr then
                        match getu4 r6 with
                        | Some rr1 =>
                            let dec := utf16_DecodeRune rr rr1 in
                            if negb (dec =? utf8.RuneError) then
                              app_fst (utf8.EncodeRune dec) (unquote f (utf8.drop 6 r6))
                            else
                              app_fst (utf8.EncodeRune utf8.RuneError) (unquote f r6)
                        | None =>
                            app_fst (utf8.EncodeRune utf8.RuneError) (unquote f r6)
                        end
                      else app_fst (utf8.EncodeRune rr) (unquote f r6)
                  end
                else None
            end
          else if byteZ c <? 32 then None
          else if byteZ c <? utf8.RuneSelf then cons_fst c (unquote f r)
          else
            let (rr, size) := utf8.DecodeRune s in
            app_fst (utf8.EncodeRune rr) (unquote f (utf8.drop size s))
      end
  end.

(** *** The scanner (scanner.go)

    [checkValid] runs the scanner over the text byte by byte and fails at
    the first byte the scanner refuses.  The scanner is kept as its step
    function and its stack of parse states, the innermost first; its flag
    [endTop] is set exactly when the step function is [stateEndTop]. *)

Inductive parseState : Type :=
| parseObjectKey
| parseObjectValue
| parseArrayValue.

Inductive stepFn : Type :=
| stateBeginValueOrEmpty
| stateBeginValue
| stateBeginStringOrEmpty
| stateBeginString
| stateEndValue
| stateEndTop
| stateInString
| stateInStringEsc
| stateInStringEscU
| stateInStringEscU1
| stateInStringEscU12
| stateInStringEscU123
| stateNeg
| state1
| state0
| stateDot
| stateDot0
| stateE
| stateESign
| stateE0
| stateT
| stateTr
| stateTru
| stateF
| stateFa
| stateFal
| stateFals
| stateN
| stateNu
| stateNul.

Definition scanner : Type := (stepFn * list parseState)%type.

Definition maxNestingDepth : Z := 10000.

(** [pushParseState]: an error when the nesting is deeper than
    [maxNestingDepth]. *)
Definition pushParseState (ps : list parseState) (newParseState : parseState)
  (next : stepFn) : option scanner :=
  if Z.of_nat (List.length (newParseState :: ps)) <=? maxNestingDepth
  then Some (next, newParseState :: ps)
  else None.

Definition popParseState (ps : list parseState) : scanner :=
  match ps with
  | _ :: (_ :: _) as rest => (stateEndValue, rest)
  | _ => (stateEndTop, [])
  end.

Definition isHex (c : ascii) : bool :=
  let b := byteZ c in
  ((48 <=? b) && (b <=? 57)) || ((97 <=? b) && (b <=? 102))
  || ((65 <=? b) && (b <=? 70)).

(** [stateEndValue], which the states of a number call as well when the
    number is over. *)
Definition endValue (ps : list parseState) (c : ascii) : option scanner :=
  match ps with
  | [] => if isSpace c then Some (stateEndTop, []) else None
  | top :: rest =>
      if isSpace c then Some (stateEndValue, ps)
      else
        match top with
        | parseObjectKey =>
            if Ascii.eqb c ":" then Some (stateBeginValue, parseObjectValue :: rest)
            else None
        | parseObjectValue =>
            if Ascii.eqb c "," then Some (stateBeginString, parseObjectKey :: rest)
            else if Ascii.eqb c "}" then Some (popParseState ps)
            else None
        | parseArrayValue =>
            if Ascii.eqb c "," then Some (stateBeginValue, ps)
            else if Ascii.eqb c "]" then Some (popParseState ps)
            else None
        end
  end.

(** [stateBeginValue]; white space leaves the step function [cur] that is
    in force. *)
Definition beginValue (cur : stepFn) (ps : list parseState) (c : ascii)
  : option scanner :=
  if isSpace c then Some (cur, ps)
  else if Ascii.eqb c "{" then pushParseState ps parseObjectKey stateBeginStringOrEmpty
  else if Ascii.eqb c "[" then pushParseState ps parseArrayValue stateBeginValueOrEmpty
  else if Ascii.eqb c dq then Some (stateInString, ps)
  else if Ascii.eqb c "-" then Some (stateNeg, ps)
  else if Ascii.eqb c "0" then Some (state0, ps)
  else if Ascii.eqb c "t" then Some (stateT, ps)
  else if Ascii.eqb c "f" then Some (stateF, ps)
  else if Ascii.eqb c "n" then Some (stateN, ps)
  else if (49 <=? byteZ c) && (byteZ c <=? 57) then Some (state1, ps)
  else None.

Definition beginString (cur : stepFn) (ps : list parseState) (c : ascii)
  : option scanner :=
  if isSpace c then Some (cur, ps)
  else if Ascii.eqb c dq then Some (stateInString, ps)
  else None.

Definition zero (ps : list parseState) (c : ascii) : option scanner :=
  if Ascii.eqb c "." then Some (stateDot, ps)
  else if Ascii.eqb c "e" || Ascii.eqb c "E" then Some (stateE, ps)
  else endValue ps c.

Definition eSign (ps : list parseState) (c : ascii) : option scanner :=
  if isDigit c then Some (stateE0, ps) else None.

(** The letter [l] moves on to [next]; anything else is an error. *)
Definition letter (l : ascii) (next : stepFn) (ps : list parseState) (c : ascii)
  : option scanner :=
  if Ascii.eqb c l then Some (next, ps) else None.

(** One call of [s.step(s, c)]; [None] is [scanError]. *)
Definition scanStep (s : scanner) (c : ascii) : option scanner :=
  let (fn, ps) := s in
  match fn with
  | stateBeginValueOrEmpty =>
      if isSpace c then Some s
      else if Ascii.eqb c "]" then endValue ps c
      else beginValue fn ps c
  | stateBeginValue => beginValue fn ps c
  | stateBeginStringOrEmpty =>
      if isSpace c then Some s
      else if Ascii.eqb c "}" then
        match ps with
        | _ :: rest => endValue (parseObjectValue :: rest) c
        | [] => None
        end
      else beginString fn ps c
  | stateBeginString => beginString fn ps c
  | stateEndValue => endValue ps c
  | stateEndTop => if isSpace c then Some s else None
  | stateInString =>
      if Ascii.eqb c dq then Some (stateEndValue, ps)
      else if Ascii.eqb c bslash then Some (stateInStringEsc, ps)
      else if byteZ c <? 32 then None
      else Some s
  | stateInStringEsc =>
      if Ascii.eqb c "b" || Ascii.eqb c "f" || Ascii.eqb c "n" || Ascii.eqb c "r"
         || Ascii.eqb c "t" || Ascii.eqb c bslash || Ascii.eqb c "/" || Ascii.eqb c dq
      then Some (stateInString, ps)
      else if Ascii.eqb c "u" then Some (stateInStringEscU, ps)
      else None
  | stateInStringEscU => if isHex c then Some (stateInStringEscU1, ps) else None
  | stateInStringEscU1 => if isHex c then Some (stateInStringEscU12, ps) else None
  | stateInStringEscU12 => if isHex c then Some (stateInStringEscU123, ps) else None
  | stateInStringEscU123 => if isHex c then Some (stateInString, ps) else None
  | stateNeg =>
      if Ascii.eqb c "0" then Some (state0, ps)
      else if (49 <=? byteZ c) && (byteZ c <=? 57) then Some (state1, ps)
      else None
  | state1 => if isDigit c then Some s else zero ps c
  | state0 => zero ps c
  | stateDot => if isDigit c then Some (stateDot0, ps) else None
  | stateDot0 =>
      if isDigit c then Some s
      else if Ascii.eqb c "e" || Ascii.eqb c "E" then Some (stateE, ps)
      else endValue ps c
  | stateE =>
      if Ascii.eqb c "+" || Ascii.eqb c "-" then Some (stateESign, ps)
      else eSign ps c
  | stateESign => eSign ps c
  | stateE0 => if isDigit c then Some s else endValue ps c
  | stateT => letter "r" stateTr ps c
  | stateTr => letter "u" stateTru ps c
  | stateTru => letter "e" stateEndValue ps c
  | stateF => letter "a" stateFa ps c
  | stateFa => letter "l" stateFal ps c
  | stateFal => letter "s" stateFals ps c
  | stateFals => letter "e" stateEndValue ps c
  | stateN => letter "u" stateNu ps c
  | stateNu => letter "l" stateNul ps c
  | stateNul => letter "l" stateEndValue ps c
  end.

(** The loop of [checkValid] over the bytes of the text. *)
Fixpoint steps (s : scanner) (data : string) : option scanner :=
  match data with
  | EmptyString => Some s
  | String c r =>
      match scanStep s c with
      | Some s' => steps s' r
      | None => None
      end
  end.

(** [scan.eof()]: the text is over; a value that is not closed yet (a
    number at top level) is given a last space. *)
Definition eof (s : scanner) : bool :=
  match fst s with
  | stateEndTop => true
  | _ =>
      match scanStep s " " with
      | Some (stateEndTop, _) => true
      | _ => false
      end
  end.

(** [checkValid]: [false] stands for a [*SyntaxError]. *)
Definition checkValid (data : string) : bool :=
  match steps (stateBeginValue, []) data with
  | Some s => eof s
  | None => false
  end.

(** What a JSON text holds at top level. *)
Inductive item : Type :=
| ItemNull
| ItemBool (b : bool)
| ItemNumber (lit : string)
| ItemString (s : string)
| ItemArray
| ItemObject.

(** The scan of a whole JSON text (white space around the value allowed):
    [None] for text that is no JSON value.  A scalar is read directly; for a
    text that opens an array or an object the scanner decides whether it is
    a JSON value. *)
Definition scan (data : bytes) : option item :=
  match skipSpace (string_of_bytes data) with
  | EmptyString => None
  | String c r as s =>
      if Ascii.eqb c dq then
        match unquote (S (len r)) r with
        | Some (t, rest) =>
            match skipSpace rest with
            | EmptyString => Some (ItemString t)
            | _ => None
            end
        | None => None
        end
      else if Ascii.eqb c "{" || Ascii.eqb c "[" then
        if checkValid (string_of_bytes data) then
          Some (if Ascii.eqb c "{" then ItemObject else ItemArray)
        else None
      else
        let lit := trimRightSpace s in
        if (lit =? "null")%string then Some ItemNull
        else if (lit =? "true")%string then Some (ItemBool true)
        else if (lit =? "false")%string then Some (ItemBool false)
        else if isValidNumber lit then Some (ItemNumber lit)
        else None
  end.

(** [json.Unmarshal(data, &v)] for [v] of type [json.Number]: the value of
    [v] after the call, and the error.  A null leaves [v] as it was. *)
Definition Unmarshal_Number (v : string) (data : bytes) : string * option error :=
  match scan data with
  | None => (v, Some JSONSyntaxError)
  | Some ItemNull => (v, None)
  | Some (ItemBool _) => (v, Some (JSONUnmarshalTypeError "bool"))
  | Some (ItemNumber lit) => (lit, None)
  | Some (ItemString s) =>
      if isValidNumber s then (s, None)
      else (v, Some (JSONInvalidNumberLiteral s))
  | Some ItemArray => (v, Some (JSONUnmarshalTypeError "array"))
  | Some ItemObject => (v, Some (JSONUnmarshalTypeError "object"))
  end.

(** [json.Unmarshal(data, &v)] for [v] of type [string]. *)
Definition Unmarshal_string (v : string) (data : bytes) : string * option error :=
  match scan data with
  | None => (v, Some JSONSyntaxError)
  | Some ItemNull => (v, None)
  | Some (ItemBool _) => (v, Some (JSONUnmarshalTypeError "bool"))
  | Some (ItemNumber _) => (v, Some (JSONUnmarshalTypeError "number"))
  | Some (ItemString s) => (s, None)
  | Some ItemArray => (v, Some (JSONUnmarshalTypeError "array"))
  | Some ItemObject => (v, Some (JSONUnmarshalTypeError "object"))
  end.

(** [json.Number.Int64]. *)
Definition Number_Int64 (n : string) : Z * option error := strconv.ParseInt n.

Definition hex (d : Z) : ascii :=
  if d <? 10 then byte_of_Z (48 + d) else byte_of_Z (97 + d - 10).

(** [htmlSafeSet]: the ASCII bytes written as they are. *)
Definition htmlSafe (b : Z) : bool :=
  (32 <=? b) && (b <? 128)
  && negb ((b =? 34) || (b =? 92) || (b =? 60) || (b =? 62) || (b =? 38)).

(** The escape written for an ASCII byte outside [htmlSafeSet]. *)
Definition escapeByte (c : ascii) : string :=
  let b := byteZ c in
  if (b =? 92) || (b =? 34) then String bslash (String c EmptyString)
  else if b =? 8 then String bslash "b"
  else if b =? 12 then String bslash "f"
  else if b =? 10 then String bslash "n"
  else if b =? 13 then String bslash "r"
  else if b =? 9 then String bslash "t"
  else
    String bslash
      (String "u" (String "0" (String "0"
         (String (hex (Z.shiftr b 4)) (String (hex (Z.land b 15)) EmptyString))))).

(** The loop of [appendString] with HTML escaping on, between the quotes. *)
Fixpoint appendString_loop (fuel : nat) (src : string) : string :=
  match fuel with
  | O => EmptyString
  | S f =>
      match src with
      | EmptyString => EmptyString
      | String c r =>
          let b := byteZ c in
          if b <? utf8.RuneSelf then
            if htmlSafe b then String c (appendString_loop f r)
            else escapeByte c ++ appendString_loop f r
          else
            let (rn, size) := utf8.DecodeRune src in
            if (rn =? utf8.RuneError) && (size =? 1)%nat then
              String bslash "ufffd" ++ appendString_loop f r
            else if (rn =? 8232) || (rn =? 8233) then
              String bslash "u202"
              ++ String (hex (Z.land rn 15)) (appendString_loop f (utf8.drop size src))
            else
              utf8.take size src ++ appendString_loop f (utf8.drop size src)
      end
  end.

Definition appendString (src : string) : string :=
  String dq (appendString_loop (len src) src ++ String dq EmptyString).

(** [json.Marshal] of a [string]: it has no error case. *)
Definition Marshal_string (s : string) : bytes * option error :=
  (appendString s, None).

End json.

(** ** Package time

    A [time.Time] is modelled by what it shows in its own zone: the civil
    date and clock reading, the nanoseconds and the zone offset in seconds
    east of UTC.  Go stores an instant and a location and computes these
    from them; the monotonic clock reading and the location's name are not
    modelled. *)

Module time.

Record Time : Type := mkTime {
  year : Z;
  month : Z;
  day : Z;
  hour : Z;
  minute : Z;
  second : Z;
  nsec : Z;
  offset : Z
}.

(** [time.Time{}]: January 1 of year 1, 00:00:00 UTC. *)
Definition zeroTime : Time := mkTime 1 1 1 0 0 0 0 0.

Definition isLeap (y : Z) : bool :=
  (Z.rem y 4 =? 0) && (negb (Z.rem y 100 =? 0) || (Z.rem y 400 =? 0)).

Definition daysIn (m y : Z) : Z :=
  if (m =? 2) && isLeap y then 29
  else if m =? 2 then 28
  else if (m =? 4) || (m =? 6) || (m =? 9) || (m =? 11) then 30
  else 31.

(** The readings a Go time can show. *)
Definition wf (t : Time) : bool :=
  (1 <=? month t) && (month t <=? 12)
  && (1 <=? day t) && (day t <=? daysIn (month t) (year t))
  && (0 <=? hour t) && (hour t <? 24)
  && (0 <=? minute t) && (minute t <? 60)
  && (0 <=? second t) && (second t <? 60)
  && (0 <=? nsec t) && (nsec t <? 1000000000).

(** *** Layouts

    A layout is kept as the sequence of chunks [nextStdChunk] cuts it into:
    the reference elements and the literal text between them. *)

Inductive chunk : Type :=
| stdLongYear
| stdZeroMonth
| stdZeroDay
| stdHour
| stdZeroMinute
| stdZeroSecond
| stdISO8601ColonTZ
| stdTZ
| lit (text : string).

Definition layout := list chunk.

Definition chunkString (c : chunk) : string :=
  match c with
  | stdLongYear => "2006"
  | stdZeroMonth => "01"
  | stdZeroDay => "02"
  | stdHour => "15"
  | stdZeroMinute => "04"
  | stdZeroSecond => "05"
  | stdISO8601ColonTZ => "Z07:00"
  | stdTZ => "MST"
  | lit text => text
  end.

(** The layout as the Go source writes it. *)
Definition layoutString (l : layout) : string :=
  fold_right (fun c acc => chunkString c ++ acc) "" l.

Definition dateTimeT : layout :=
  [stdLongYear; lit "-"; stdZeroMonth; lit "-"; stdZeroDay; lit "T";
   stdHour; lit ":"; stdZeroMinute; lit ":"; stdZeroSecond].

Definition RFC3339 : layout := (dateTimeT ++ [stdISO8601ColonTZ])%list.

(** *** Formatting *)

(** [appendInt]: a minus sign for a negative value, then the decimal digits
    of the magnitude, padded with zeros on the left to [width] digits. *)
Definition appendInt (x : Z) (width : nat) : string :=
  let u := Z.abs x in
  (if x <? 0 then "-" else "")
  ++ strconv.decimal (Nat.max width (strconv.ndigits u)) u.

Fixpoint cutLastSeparator (b : string) : string :=
  match b with
  | EmptyString => EmptyString
  | String c EmptyString =>
      if Ascii.eqb c "." || Ascii.eqb c "," then EmptyString else b
  | String c r => String c (cutLastSeparator r)
  end.

(** [appendNano] for the element [.999999999]: nothing for zero, else the
    period and nine digits with the trailing zeros cut. *)
Definition appendNano (nanosec : Z) : string :=
  if nanosec =? 0 then ""
  else cutLastSeparator (strings.TrimRight ("." ++ appendInt nanosec 9) "0").

(** The zone of the RFC 3339 form: Z for the offset zero, else the sign,
    hours and minutes of the offset, its seconds dropped. *)
Definition appendZone (offset : Z) : string :=
  if offset =? 0 then "Z"
  else
    let zone := Z.quot offset 60 in
    (if zone <? 0 then "-" else "+")
    ++ appendInt (Z.abs zone / 60) 2 ++ ":" ++ appendInt (Z.abs zone mod 60) 2.

(** [appendFormatRFC3339] with nanoseconds. *)
Definition appendFormatRFC3339 (t : Time) : string :=
  appendInt (year t) 4 ++ "-" ++ appendInt (month t) 2 ++ "-"
  ++ appendInt (day t) 2 ++ "T" ++ appendInt (hour t) 2 ++ ":"
  ++ appendInt (minute t) 2 ++ ":" ++ appendInt (second t) 2
  ++ appendNano (nsec t)
  ++ appendZone (offset t).

(** [Time.MarshalJSON]: the quoted RFC 3339 form, and an error for a time
    that has none (a year outside 0..9999, a zone offset of 24 hours or
    more); Go finds the two cases by looking at the formatted text. *)
Definition MarshalJSON (t : Time) : bytes * option error :=
  if (year t <? 0) || (9999 <? year t) then
    ("", Some (TimeMarshalError "Time.MarshalJSON: year outside of range [0,9999]"))
  else if negb (offset t =? 0) && (24 <=? Z.abs (Z.quot (offset t) 60) / 60) then
    ("", Some (TimeMarshalError "Time.MarshalJSON: timezone hour outside of range [0,23]"))
  else (String dq (appendFormatRFC3339 t ++ String dq ""), None).

(** *** Parsing *)

Fixpoint cutspace (s : string) : string :=
  match s with
  | String c r => if Ascii.eqb c " " then cutspace r else s
  | EmptyString => EmptyString
  end.

(** [skip]: [value] without the literal [prefix]; a space in the prefix
    stands for any run of spaces. *)
Fixpoint skip_loop (fuel : nat) (value prefix : string) : option string :=
  match fuel with
  | O => None
  | S f =>
      match prefix with
      | EmptyString => Some value
      | String p pr =>
          if Ascii.eqb p " " then
            match value with
            | String v _ =>
                if negb (Ascii.eqb v " ") then None
                else skip_loop f (cutspace value) (cutspace prefix)
            | EmptyString => skip_loop f (cutspace value) (cutspace prefix)
            end
          else
            match value with
            | String v vr => if Ascii.eqb v p then skip_loop f vr pr else None
            | EmptyString => None
            end
      end
  end.

Definition skip (value prefix : string) : option string :=
  skip_loop (S (len prefix)) value prefix.

(** [getnum]: a number of one or two digits, of two when [fixed]. *)
Definition getnum (s : string) (fixed : bool) : option (Z * string) :=
  match s with
  | String c0 r0 =>
      if negb (isDigit c0) then None
      else
        match r0 with
        | String c1 r1 =>
            if isDigit c1 then Some (digitVal c0 * 10 + digitVal c1, r1)
            else if fixed then None else Some (digitVal c0, r0)
        | EmptyString => if fixed then None else Some (digitVal c0, r0)
        end
  | EmptyString => None
  end.

(** [leadingInt]: the digits [s] starts with and the rest; [None] on
    overflow. *)
Fixpoint leadingInt_loop (s : string) (x : Z) : option (Z * string) :=
  match s with
  | EmptyString => Some (x, EmptyString)
  | String c r =>
      if negb (isDigit c) then Some (x, s)
      else if 2 ^ 63 / 10 <? x then None
      else
        let x := x * 10 + digitVal c in
        if 2 ^ 63 <? x then None else leadingInt_loop r x
  end.

Definition leadingInt (s : string) : option (Z * string) := leadingInt_loop s 0.

Definition atoi (s : string) : option Z :=
  let neg := match s with String c _ => Ascii.eqb c "-" | EmptyString => false end in
  let s := match s with
           | String c r => if Ascii.eqb c "-" || Ascii.eqb c "+" then r else s
           | EmptyString => s
           end in
  match leadingInt s with
  | Some (x, EmptyString) => Some (if neg then - x else x)
  | _ => None
  end.

Definition commaOrPeriod (c : ascii) : bool := Ascii.eqb c "." || Ascii.eqb c ",".

(** The number of leading digits of [s]. *)
Fixpoint countDigits (s : string) : nat :=
  match s with
  | String c r => if isDigit c then S (countDigits r) else O
  | EmptyString => O
  end.

(** [parseNanoseconds]: [value] starts with a separator and [nbytes] counts
    it and the digits after it. *)
Definition parseNanoseconds (value : string) (nbytes : nat) : option Z :=
  match value with
  | String c _ =>
      if negb (commaOrPeriod c) then None
      else
        let nbytes := Nat.min nbytes 10 in
        match atoi (utf8.drop 1 (utf8.take nbytes value)) with
        | Some ns =>
            if ns <? 0 then None
            else Some (ns * 10 ^ Z.of_nat (10 - nbytes))
        | None => None
        end
  | EmptyString => None
  end.

(** [parseSignedOffset], [parseGMT] and [parseTimeZone]: the length of the
    zone abbreviation [value] starts with. *)
Definition parseSignedOffset (value : string) : nat :=
  match value with
  | String sign r =>
      if negb (Ascii.eqb sign "-" || Ascii.eqb sign "+") then O
      else
        match leadingInt r with
        | Some (x, rem) =>
            if (len rem =? len r)%nat then O
            else if 23 <? x then O
            else (len value - len rem)%nat
        | None => O
        end
  | EmptyString => O
  end.

Definition parseGMT (value : string) : nat :=
  match utf8.drop 3 value with
  | EmptyString => 3%nat
  | r => (3 + parseSignedOffset r)%nat
  end.

Definition isUpper (c : ascii) : bool := (65 <=? byteZ c) && (byteZ c <=? 90).

Fixpoint countUpper (n : nat) (s : string) : nat :=
  match n, s with
  | S n', String c r => if isUpper c then S (countUpper n' r) else O
  | _, _ => O
  end.

Definition parseTimeZone (value : string) : option nat :=
  if (len value <? 3)%nat then None
  else if (utf8.take 4 value =? "ChST")%string || (utf8.take 4 value =? "MeST")%string
  then Some 4%nat
  else if (utf8.take 3 value =? "GMT")%string then Some (parseGMT value)
  else if (utf8.take 1 value =? "+")%string || (utf8.take 1 value =? "-")%string then
    match parseSignedOffset value with
    | O => None
    | n => Some n
    end
  else
    match countUpper 6 value with
    | 5%nat => if (utf8.take 1 (utf8.drop 4 value) =? "T")%string then Some 5%nat else None
    | 4%nat =>
        if (utf8.take 1 (utf8.drop 3 value) =? "T")%string
           || (utf8.take 4 value =? "WITA")%string
        then Some 4%nat else None
    | 3%nat => Some 3%nat
    | _ => None
    end.

(** What [Parse] has read so far. *)
Record fields : Type := mkFields {
  f_year : Z;
  f_month : Z;
  f_day : Z;
  f_hour : Z;
  f_min : Z;
  f_sec : Z;
  f_nsec : Z;
  f_utc : bool;
  f_zoneOffset : Z;
  f_zoneName : string
}.

Definition noFields : fields := mkFields 0 (-1) (-1) 0 0 0 0 false (-1) "".

(** One reference element read off [value]: the fields after it and the
    rest of the value; [None] for a value that does not fit or is out of
    range. *)
Definition parseStd (c : chunk) (value : string) (st : fields)
  : option (fields * string) :=
  match c with
  | lit text =>
      match skip value text with
      | Some v => Some (st, v)
      | None => None
      end
  | stdLongYear =>
      match value with
      | String c0 _ =>
          if (len value <? 4)%nat || negb (isDigit c0) then None
          else
            match atoi (utf8.take 4 value) with
            | Some y =>
                Some (mkFields y (f_month st) (f_day st) (f_hour st) (f_min st)
                        (f_sec st) (f_nsec st) (f_utc st) (f_zoneOffset st)
                        (f_zoneName st), utf8.drop 4 value)
            | None => None
            end
      | EmptyString => None
      end
  | stdZeroMonth =>
      match getnum value true with
      | Some (m, v) =>
          if (m <=? 0) || (12 <? m) then None
          else
            Some (mkFields (f_year st) m (f_day st) (f_hour st) (f_min st)
                    (f_sec st) (f_nsec st) (f_utc st) (f_zoneOffset st)
                    (f_zoneName st), v)
      | None => None
      end
  | stdZeroDay =>
      match getnum value true with
      | Some (d, v) =>
          Some (mkFields (f_year st) (f_month st) d (f_hour st) (f_min st)
                  (f_sec st) (f_nsec st) (f_utc st) (f_zoneOffset st)
                  (f_zoneName st), v)
      | None => None
      end
  | stdHour =>
      match getnum value false with
      | Some (h, v) =>
          if (h <? 0) || (24 <=? h) then None
          else
            Some (mkFields (f_year st) (f_month st) (f_day st) h (f_min st)
                    (f_sec st) (f_nsec st) (f_utc st) (f_zoneOffset st)
                    (f_zoneName st), v)
      | None => None
      end
  | stdZeroMinute =>
      match getnum value true with
      | Some (m, v) =>
          if (m <? 0) || (60 <=? m) then None
          else
            Some (mkFields (f_year st) (f_month st) (f_day st) (f_hour st) m
                    (f_sec st) (f_nsec st) (f_utc st) (f_zoneOffset st)
                    (f_zoneName st), v)
      | None => None
      end
  | stdZeroSecond =>
      match getnum value true with
      | Some (sec, v) =>
          if (sec <? 0) || (60 <=? sec) then None
          else
            let st1 := mkFields (f_year st) (f_month st) (f_day st) (f_hour st)
                         (f_min st) sec (f_nsec st) (f_utc st) (f_zoneOffset st)
                         (f_zoneName st) in
            match v with
            | String p (String d _) =>
                if commaOrPeriod p && isDigit d then
                  (* a fractional second the layout does not name *)
                  let n := S (countDigits (utf8.drop 1 v)) in
                  match parseNanoseconds v n with
                  | Some ns =>
                      Some (mkFields (f_year st) (f_month st) (f_day st)
                              (f_hour st) (f_min st) sec ns (f_utc st)
                              (f_zoneOffset st) (f_zoneName st), utf8.drop n v)
                  | None => None
                  end
                else Some (st1, v)
            | _ => Some (st1, v)
            end
      | None => None
      end
  | stdISO8601ColonTZ =>
      match value with
      | String z r =>
          if Ascii.eqb z "Z" then
            Some (mkFields (f_year st) (f_month st) (f_day st) (f_hour st)
                    (f_min st) (f_sec st) (f_nsec st) true (f_zoneOffset st)
                    (f_zoneName st), r)
          else if (len value <? 6)%nat then None
          else if negb (utf8.take 1 (utf8.drop 3 value) =? ":")%string then None
          else
            match getnum (utf8.take 2 (utf8.drop 1 value)) true,
                  getnum (utf8.take 2 (utf8.drop 4 value)) true with
            | Some (hr, _), Some (mm, _) =>
                if (24 <? hr) || (60 <? mm) then None
                else
                  let zoneOffset := (hr * 60 + mm) * 60 in
                  if Ascii.eqb z "+" then
                    Some (mkFields (f_year st) (f_month st) (f_day st) (f_hour st)
                            (f_min st) (f_sec st) (f_nsec st) (f_utc st)
                            zoneOffset (f_zoneName st), utf8.drop 6 value)
                  else if Ascii.eqb z "-" then
                    Some (mkFields (f_year st) (f_month st) (f_day st) (f_hour st)
                            (f_min st) (f_sec st) (f_nsec st) (f_utc st)
                            (- zoneOffset) (f_zoneName st), utf8.drop 6 value)
                  else None
            | _, _ => None
            end
      | EmptyString => None
      end
  | stdTZ =>
      if (utf8.take 3 value =? "UTC")%string then
        Some (mkFields (f_year st) (f_month st) (f_day st) (f_hour st)
                (f_min st) (f_sec st) (f_nsec st) true (f_zoneOffset st)
                (f_zoneName st), utf8.drop 3 value)
      else
        match parseTimeZone value with
        | Some n =>
            Some (mkFields (f_year st) (f_month st) (f_day st) (f_hour st)
                    (f_min st) (f_sec st) (f_nsec st) (f_utc st)
                    (f_zoneOffset st) (utf8.take n value), utf8.drop n value)
        | None => None
        end
  end.

(** The loop of [Parse] over the chunks of the layout; text left over after
    the last chunk is an error. *)
Fixpoint parseChunks (l : layout) (value : string) (st : fields) : option fields :=
  match l with
  | [] =>
      match value with
      | EmptyString => Some st
      | _ => None
      end
  | c :: l' =>
      match parseStd c value st with
      | Some (st', v) => parseChunks l' v st'
      | None => None
      end
  end.

(** *** The instant of a reading *)

(** The table [daysBefore]: the days of a year that is no leap year before
    the month [m] starts. *)
Definition daysBefore (m : Z) : Z :=
  match m with
  | 1 => 0
  | 2 => 31
  | 3 => 59
  | 4 => 90
  | 5 => 120
  | 6 => 151
  | 7 => 181
  | 8 => 212
  | 9 => 243
  | 10 => 273
  | 11 => 304
  | 12 => 334
  | _ => 365
  end.

(** [daysSinceEpoch], counted from January 1 of year 1 (Go counts from a
    year that is 1 modulo 400 and far in the past, so that the count is
    never negative): the days in whole cycles of 400, 100 and 4 years and in
    the years left. *)
Definition daysSinceEpoch (year : Z) : Z :=
  let y := year - 1 in
  let n400 := y / 400 in
  let y := y - 400 * n400 in
  let n100 := y / 100 in
  let y := y - 100 * n100 in
  let n4 := y / 4 in
  let y := y - 4 * n4 in
  146097 * n400 + 36524 * n100 + 1461 * n4 + 365 * y.

(** [t.sec()]: the seconds from January 1 of year 1, 00:00:00 UTC to the
    instant that shows the reading [t] in a zone [offset t] seconds east of
    UTC, as [Date] computes them. *)
Definition sec (t : Time) : Z :=
  let d := daysSinceEpoch (year t) + daysBefore (month t)
           + (if isLeap (year t) && (3 <=? month t) then 1 else 0)
           + (day t - 1) in
  d * 86400 + hour t * 3600 + minute t * 60 + second t - offset t.

(** [Time.IsZero]: the instant is January 1 of year 1, 00:00:00 UTC. *)
Definition IsZero (t : Time) : bool := (sec t =? 0) && (nsec t =? 0).

(** [Time.Equal]: the same instant, whatever the zones. *)
Definition Equal (t u : Time) : bool := (sec t =? sec u) && (nsec t =? nsec u).

Section Host.

(** [zoneTime name t]: the time [Parse] returns for the reading [t] that a
    zone abbreviation [name] other than UTC follows.  Go looks the
    abbreviation up in the zone database of the host ([time.Local]) and
    makes up a zone when it is not known there, so the result is the
    host's to give. *)
Variable zoneTime : string -> Time -> Time.

(** [time.Parse(layout, value)]; [None] stands for a [*time.ParseError]. *)
Definition Parse (l : layout) (value : string) : option Time :=
  match parseChunks l value noFields with
  | None => None
  | Some st =>
      let month := if f_month st <? 0 then 1 else f_month st in
      let day := if f_day st <? 0 then 1 else f_day st in
      if (day <? 1) || (daysIn month (f_year st) <? day) then None
      else
        let civil := mkTime (f_year st) month day (f_hour st) (f_min st)
                       (f_sec st) (f_nsec st) 0 in
        if f_utc st then Some civil
        else if negb (f_zoneOffset st =? -1) then
          Some (mkTime (f_year st) month day (f_hour st) (f_min st)
                  (f_sec st) (f_nsec st) (f_zoneOffset st))
        else if negb (f_zoneName st =? "")%string then
          Some (zoneTime (f_zoneName st) civil)
        else Some civil
  end.

End Host.

End time.

(** ** Bool (bool.go) *)

Record params_Bool : Type := mkBool {
  Bool_value : bool;
  Bool_present : bool
}.

Definition Bool_UnmarshalJSON (b : params_Bool) (data : bytes)
  : params_Bool * option error :=
  let b := {| Bool_value := Bool_value b; Bool_present := false |} in
  if (len data =? 0)%nat || (string_of_bytes data =? "null")%string then
    ({| Bool_value := false; Bool_present := Bool_present b |}, None)
  else
    let str := strings.ToLower (strings.Trim (string_of_bytes data) (String dq "")) in
    if (str =? "true")%string then
      ({| Bool_value := true; Bool_present := true |}, None)
    else if (str =? "false")%string then
      ({| Bool_value := false; Bool_present := true |}, None)
    else
      (b, Some (Errorf ("invalid boolean format: " ++ string_of_bytes data))).

Definition Bool_UnmarshalText (b : params_Bool) (text : bytes)
  : params_Bool * option error :=
  Bool_UnmarshalJSON b text.

Definition Bool_UnmarshalParam (b : params_Bool) (param : string)
  : params_Bool * option error :=
  Bool_UnmarshalJSON b (bytes_of_string param).

Definition Bool_Set (b : params_Bool) (value : bool) : params_Bool :=
  {| Bool_value := value; Bool_present := true |}.

Definition Bool_Value (b : params_Bool) : bool :=
  if negb (Bool_present b) then false else Bool_value b.

Definition Bool_Present (b : params_Bool) : bool := Bool_present b.

Definition Bool_MarshalJSON (b : params_Bool) : bytes * option error :=
  if negb (Bool_present b) then ("null", None)
  else if Bool_value b then ("true", None)
  else ("false", None).

(** ** Int (int.go) *)

Record params_Int : Type := mkInt {
  Int_Value : Z;
  Int_Present : bool
}.

(** [int(vv)] for [vv] of type int64, on a platform whose [int] is 64 bits
    wide. *)
Definition int_of_int64 (vv : Z) : Z := vv.

(** The [json.Decoder] the method builds first is never used and is left
    out. *)
Definition Int_UnmarshalJSON (i : params_Int) (data : bytes)
  : params_Int * option error :=
  if (len data =? 0)%nat || (string_of_bytes data =? "null")%string then
    ({| Int_Value := 0; Int_Present := false |}, None)
  else
    match json.Unmarshal_Number "" data with
    | (_, Some err) => ({| Int_Value := 0; Int_Present := false |}, Some err)
    | (v, None) =>
        match json.Number_Int64 v with
        | (_, Some err) => ({| Int_Value := 0; Int_Present := false |}, Some err)
        | (vv, None) =>
            ({| Int_Value := int_of_int64 vv; Int_Present := true |}, None)
        end
    end.

Definition Int_Set (i : params_Int) (value : Z) : params_Int :=
  {| Int_Value := value; Int_Present := true |}.

Definition Int_Get (i : params_Int) : Z :=
  if negb (Int_Present i) then 0 else Int_Value i.

Definition Int_MarshalJSON (i : params_Int) : bytes * option error :=
  (strconv.FormatInt (Int_Get i), None).

(** ** String (string.go) *)

Record params_String : Type := mkString {
  String_value : string;
  String_present : bool
}.

Definition String_UnmarshalJSON (s : params_String) (data : bytes)
  : params_String * option error :=
  if (len data =? 0)%nat || (string_of_bytes data =? "null")%string then
    ({| String_value := ""; String_present := false |}, None)
  else
    match json.Unmarshal_string (String_value s) data with
    | (_, Some err) => ({| String_value := ""; String_present := false |}, Some err)
    | (v, None) => ({| String_value := v; String_present := true |}, None)
    end.

Definition String_Set (s : params_String) (value : string) : params_String :=
  {| String_value := value; String_present := true |}.

Definition String_Present (s : params_String) : bool := String_present s.

Definition String_Value (s : params_String) : string :=
  if negb (String_present s) then "" else String_value s.

Definition String_MarshalJSON (s : params_String) : bytes * option error :=
  json.Marshal_string (String_Value s).

Definition String_GetJSON (s : params_String) : string :=
  match json.Marshal_string (String_value s) with
  | (b, None) => string_of_bytes b
  | (_, Some _) => ""
  end.

(** ** Time (time.go) *)

Definition timeLayouts : list time.layout :=
  [ time.RFC3339;
    (time.dateTimeT ++ [time.lit " "; time.stdTZ])%list;
    [time.stdLongYear; time.lit "-"; time.stdZeroMonth; time.lit "-";
     time.stdZeroDay; time.lit " "; time.stdHour; time.lit ":";
     time.stdZeroMinute; time.lit ":"; time.stdZeroSecond];
    time.dateTimeT ].

Record params_Time : Type := mkTimeParam {
  Time_value : time.Time;
  Time_present : bool
}.

Section TimeKind.

Variable zoneTime : string -> time.Time -> time.Time.

(** The loop over [timeLayouts]: the result of the first layout that
    parses [value]. *)
Fixpoint parseFirst (layouts : list time.layout) (value : string)
  : option time.Time :=
  match layouts with
  | [] => None
  | l :: rest =>
      match time.Parse zoneTime l value with
      | Some t => Some t
      | None => parseFirst rest value
      end
  end.

Definition Time_UnmarshalJSON (dst : params_Time) (data : bytes)
  : params_Time * option error :=
  let dst := {| Time_value := time.zeroTime; Time_present := Time_present dst |} in
  if (len data =? 0)%nat || (string_of_bytes data =? "null")%string then
    ({| Time_value := Time_value dst; Time_present := false |}, None)
  else if (string_of_bytes data =? String dq (String dq ""))%string then
    ({| Time_value := Time_value dst; Time_present := true |}, None)
  else
    let dst := {| Time_value := Time_value dst; Time_present := true |} in
    match parseFirst timeLayouts
            (strings.Trim (string_of_bytes data) (String dq "")) with
    | Some t => ({| Time_value := t; Time_present := Time_present dst |}, None)
    | None =>
        (dst, Some (Errorf ("invalid time format: " ++ string_of_bytes data)))
    end.

Definition Time_UnmarshalText (dst : params_Time) (text : bytes)
  : params_Time * option error :=
  Time_UnmarshalJSON dst text.

Definition Time_UnmarshalParam (dst : params_Time) (param : string)
  : params_Time * option error :=
  Time_UnmarshalJSON dst (bytes_of_string param).

End TimeKind.

Definition Time_MarshalJSON (dst : params_Time) : bytes * option error :=
  if negb (Time_present dst) then ("null", None)
  else time.MarshalJSON (Time_value dst).

Definition Time_Set (dst : params_Time) (value : time.Time) : params_Time :=
  {| Time_value := value; Time_present := true |}.

Definition Time_Present (dst : params_Time) : bool := Time_present dst.

Definition Time_Value (dst : params_Time) : time.Time :=
  if negb (Time_present dst) then time.zeroTime else Time_value dst.

Definition Time_IsZero (dst : params_Time) : bool :=
  negb (Time_present dst) || time.IsZero (Time_value dst).

(** ** Time, the earlier version in time.go

    The second version of the type that time.go holds: its fields are
    exported, and UnmarshalJSON has no case of its own for the empty string
    literal. *)

Module earlier.

Record params_Time : Type := mkTimeParam {
  Time_Value : time.Time;
  Time_Present : bool
}.

Section TimeKind.

Variable zoneTime : string -> time.Time -> time.Time.

Definition Time_UnmarshalJSON (dst : params_Time) (data : bytes)
  : params_Time * option error :=
  let dst := {| Time_Value := time.zeroTime; Time_Present := Time_Present dst |} in
  if (len data =? 0)%nat || (string_of_bytes data =? "null")%string then
    ({| Time_Value := Time_Value dst; Time_Present := false |}, None)
  else
    let dst := {| Time_Value := Time_Value dst; Time_Present := true |} in
    match parseFirst zoneTime timeLayouts
            (strings.Trim (string_of_bytes data) (String dq "")) with
    | Some t => ({| Time_Value := t; Time_Present := Time_Present dst |}, None)
    | None =>
        (dst, Some (Errorf ("invalid time format: " ++ string_of_bytes data)))
    end.

End TimeKind.

Definition Time_MarshalJSON (dst : params_Time) : bytes * option error :=
  if negb (Time_Present dst) then ("null", None)
  else time.MarshalJSON (Time_Value dst).

Definition Time_IsZero (dst : params_Time) : bool :=
  negb (Time_Present dst) || time.IsZero (Time_Value dst).

End earlier.

(** ** The four kinds under one interface

    The four types follow one contract; the claims that speak of "every
    kind K" are stated over this index. *)

Inductive Kind : Type :=
| KString
| KBool
| KInt
| KTimestamp.

Definition instance (K : Kind) : Type :=
  match K with
  | KString => params_String
  | KBool => params_Bool
  | KInt => params_Int
  | KTimestamp => params_Time
  end.

Definition payload (K : Kind) : Type :=
  match K with
  | KString => string
  | KBool => bool
  | KInt => Z
  | KTimestamp => time.Time
  end.

(** The zero value of the kind's payload. *)
Definition zeroValue (K : Kind) : payload K :=
  match K with
  | KString => ""
  | KBool => false
  | KInt => 0
  | KTimestamp => time.zeroTime
  end.

(** An instance from its two fields. *)
Definition mkInstance (K : Kind) : payload K -> bool -> instance K :=
  match K with
  | KString => mkString
  | KBool => mkBool
  | KInt => mkInt
  | KTimestamp => mkTimeParam
  end.

(** The zero value of the struct: zero payload, not present. *)
Definition absent (K : Kind) : instance K := mkInstance K (zeroValue K) false.

(** The stored value field, whatever the presence flag says. *)
Definition Stored (K : Kind) : instance K -> payload K :=
  match K with
  | KString => String_value
  | KBool => Bool_value
  | KInt => Int_Value
  | KTimestamp => Time_value
  end.

(** [Present()], for Int the exported field. *)
Definition PresentFlag (K : Kind) : instance K -> bool :=
  match K with
  | KString => String_Present
  | KBool => Bool_Present
  | KInt => Int_Present
  | KTimestamp => Time_Present
  end.

(** [Value()], for Int [Get()]. *)
Definition Accessor (K : Kind) : instance K -> payload K :=
  match K with
  | KString => String_Value
  | KBool => Bool_Value
  | KInt => Int_Get
  | KTimestamp => Time_Value
  end.

Definition SetValue (K : Kind) : instance K -> payload K -> instance K :=
  match K with
  | KString => String_Set
  | KBool => Bool_Set
  | KInt => Int_Set
  | KTimestamp => Time_Set
  end.

(** [MarshalJSON]. *)
Definition Encode (K : Kind) : instance K -> bytes * option error :=
  match K with
  | KString => String_MarshalJSON
  | KBool => Bool_MarshalJSON
  | KInt => Int_MarshalJSON
  | KTimestamp => Time_MarshalJSON
  end.

(** A host on which every zone abbreviation stands for the offset zero. *)
Definition zoneZero : string -> time.Time -> time.Time := fun _ t => t.

(** A text between double quotes. *)
Definition quoted (s : string) : string := String dq (s ++ String dq "").

(** The integer literals among the JSON numbers: no fraction and no
    exponent. *)
Definition isIntegerLiteral (s : string) : bool :=
  json.isValidNumber s
  && match s with
     | String c r =>
         (if Ascii.eqb c "-" then (json.skipDigits r =? "")%string
          else (json.skipDigits s =? "")%string)
     | EmptyString => false
     end.

(** A JSON string literal: a quote, text the scanner accepts, a quote. *)
Definition isStringLiteral (tok : string) : bool :=
  match tok with
  | String c r =>
      Ascii.eqb c dq
      && match json.unquote (S (len r)) r with
         | Some (_, EmptyString) => true
         | _ => false
         end
  | EmptyString => false
  end.

(** The syntax of RFC 3339, section 5.6, for a date-time written with the
    capital letters T and Z:

      date-time = full-date "T" partial-time time-offset
      full-date = 4DIGIT "-" 2DIGIT "-" 2DIGIT
      partial-time = 2DIGIT ":" 2DIGIT ":" 2DIGIT [ "." 1*DIGIT ]
      time-offset = "Z" / ( "+" / "-" ) 2DIGIT ":" 2DIGIT

    with the month in 01..12, the day in 01 up to the length of the month,
    the hour in 00..23, the minute and the second in 00..59 (the second 60
    of a leap second, which Go never writes, is left out). *)
Module rfc3339.

(** [nDigits n acc s]: exactly [n] digits at the head of [s], read as a
    number after [acc]; the number and the rest of the text. *)
Fixpoint nDigits (n : nat) (acc : Z) (s : string) : option (Z * string) :=
  match n with
  | O => Some (acc, s)
  | S n' =>
      match s with
      | String c r => if isDigit c then nDigits n' (10 * acc + digitVal c) r else None
      | EmptyString => None
      end
  end.

(** The character [c] at the head of [s]; the rest of the text. *)
Definition expect (c : ascii) (s : string) : option string :=
  match s with
  | String a r => if Ascii.eqb a c then Some r else None
  | EmptyString => None
  end.

(** One or more digits; the rest of the text. *)
Definition someDigits (s : string) : option string :=
  match s with
  | String d r => if isDigit d then Some (json.skipDigits r) else None
  | EmptyString => None
  end.

Definition fullDate (s : string) : option string :=
  match nDigits 4 0 s with
  | None => None
  | Some (y, s1) =>
      match expect "-" s1 with
      | None => None
      | Some s2 =>
          match nDigits 2 0 s2 with
          | None => None
          | Some (mo, s3) =>
              match expect "-" s3 with
              | None => None
              | Some s4 =>
                  match nDigits 2 0 s4 with
                  | None => None
                  | Some (d, s5) =>
                      if (1 <=? mo) && (mo <=? 12) && (1 <=? d)
                         && (d <=? time.daysIn mo y)
                      then Some s5 else None
                  end
              end
          end
      end
  end.

Definition partialTime (s : string) : option string :=
  match nDigits 2 0 s with
  | None => None
  | Some (h, s1) =>
      match expect ":" s1 with
      | None => None
      | Some s2 =>
          match nDigits 2 0 s2 with
          | None => None
          | Some (mi, s3) =>
              match expect ":" s3 with
              | None => None
              | Some s4 =>
                  match nDigits 2 0 s4 with
                  | None => None
                  | Some (sc, s5) =>
                      if (h <=? 23) && (mi <=? 59) && (sc <=? 59) then
                        match expect "." s5 with
                        | Some s6 => someDigits s6
                        | None => Some s5
                        end
                      else None
                  end
              end
          end
      end
  end.

(** The zone offset, which ends the text. *)
Definition timeOffset (s : string) : bool :=
  match s with
  | EmptyString => false
  | String c r =>
      if Ascii.eqb c "Z" then (r =? "")%string
      else if Ascii.eqb c "+" || Ascii.eqb c "-" then
        match nDigits 2 0 r with
        | None => false
        | Some (h, r1) =>
            match expect ":" r1 with
            | None => false
            | Some r2 =>
                match nDigits 2 0 r2 with
                | None => false
                | Some (mi, r3) => (h <=? 23) && (mi <=? 59) && (r3 =? "")%string
                end
            end
        end
      else false
  end.

Definition dateTime (s : string) : bool :=
  match fullDate s with
  | None => false
  | Some s1 =>
      match expect "T" s1 with
      | None => false
      | Some s2 =>
          match partialTime s2 with
          | None => false
          | Some s3 => timeOffset s3
          end
      end
  end.

End rfc3339.

(** The text between the first byte of a token and a double quote that
    ends the token. *)
Fixpoint beforeLastQuote (r : string) : option string :=
  match r with
  | EmptyString => None
  | String c EmptyString => if Ascii.eqb c dq then Some EmptyString else None
  | String c r' =>
      match beforeLastQuote r' with
      | Some b => Some (String c b)
      | None => None
      end
  end.

(** A quoted RFC 3339 timestamp: a double quote, a date-time of RFC 3339, a
    double quote. *)
Definition isTimestampLiteral (tok : string) : bool :=
  match tok with
  | String c r =>
      Ascii.eqb c dq
      && match beforeLastQuote r with
         | Some body => rfc3339.dateTime body
         | None => false
         end
  | EmptyString => false
  end.

(** A syntactically valid token of the kind: true or false, an integer
    literal, a string literal in UTF-8, a quoted date-time of RFC 3339. *)
Definition validToken (K : Kind) (tok : bytes) : bool :=
  match K with
  | KString => isStringLiteral tok && utf8.ValidString tok
  | KBool => (tok =? "true")%string || (tok =? "false")%string
  | KInt => isIntegerLiteral tok
  | KTimestamp => isTimestampLiteral tok
  end.

(** What [MarshalJSON] writes for an instance that is not present. *)
Definition absentToken (K : Kind) : bytes :=
  match K with
  | KString => quoted ""
  | KBool => "null"
  | KInt => "0"
  | KTimestamp => "null"
  end.

(** The times [Time.MarshalJSON] can write. *)
Definition representable (t : time.Time) : bool :=
  (0 <=? time.year t) && (time.year t <=? 9999)
  && ((time.offset t =? 0) || (Z.abs (Z.quot (time.offset t) 60) / 60 <? 24)).

(** The values a Go variable of the payload type can hold: an [int] of 64
    bits, a time with a reading in range. *)
Definition inRange (K : Kind) : payload K -> bool :=
  match K with
  | KString => fun _ => true
  | KBool => fun _ => true
  | KInt => fun v => (- 2 ^ 63 <=? v) && (v <? 2 ^ 63)
  | KTimestamp => time.wf
  end.

(** The values that have a JSON form of their own: text in UTF-8, and a
    time RFC 3339 can write with its zone offset in whole minutes. *)
Definition validValue (K : Kind) : payload K -> bool :=
  match K with
  | KString => utf8.ValidString
  | KBool => fun _ => true
  | KInt => fun v => (- 2 ^ 63 <=? v) && (v <? 2 ^ 63)
  | KTimestamp => fun t =>
      time.wf t && representable t && (Z.rem (time.offset t) 60 =? 0)
  end.

Section Kinds.

Variable zoneTime : string -> time.Time -> time.Time.

(** [UnmarshalJSON]. *)
Definition Decode (K : Kind) : instance K -> bytes -> instance K * option error :=
  match K with
  | KString => String_UnmarshalJSON
  | KBool => Bool_UnmarshalJSON
  | KInt => Int_UnmarshalJSON
  | KTimestamp => Time_UnmarshalJSON zoneTime
  end.

(** The operations that change an instance. *)
Inductive op (K : Kind) : Type :=
| OpDecode (data : bytes)
| OpSet (v : payload K).

Definition step (K : Kind) (x : instance K) (o : op K) : instance K :=
  match o with
  | OpDecode _ data => fst (Decode K x data)
  | OpSet _ v => SetValue K x v
  end.

(** An operation sequence, applied from left to right. *)
Definition run (K : Kind) (ops : list (op K)) (x : instance K) : instance K :=
  fold_left (step K) ops x.

End Kinds.

(** ** Predicates and values the statements use *)

(** Every byte of [s] satisfies [p]. *)
Fixpoint allChars (p : ascii -> bool) (s : string) : bool :=
  match s with
  | EmptyString => true
  | String c r => p c && allChars p r
  end.

(** The bytes a JSON number is made of. *)
Definition numChar (c : ascii) : bool :=
  isDigit c || Ascii.eqb c "-" || Ascii.eqb c "+" || Ascii.eqb c "."
  || Ascii.eqb c "e" || Ascii.eqb c "E".

(** The ASCII bytes a string literal holds as they are. *)
Definition plainChar (c : ascii) : bool :=
  negb (Ascii.eqb c dq) && negb (Ascii.eqb c bslash)
  && (32 <=? byteZ c) && (byteZ c <? 128).

(** The bytes of an RFC 3339 form. *)
Definition timeChar (c : ascii) : bool :=
  isDigit c || Ascii.eqb c "-" || Ascii.eqb c "+" || Ascii.eqb c ":"
  || Ascii.eqb c "." || Ascii.eqb c "T" || Ascii.eqb c "Z".

(** The field a failed decode leaves: the zero value, written on the error
    path of String, Int and Time; for Bool what the field held before the
    call, since the error path of [Bool.UnmarshalJSON] does not write it. *)
Definition fieldAfterFailure (K : Kind) : instance K -> payload K :=
  match K with
  | KString => fun _ => zeroValue KString
  | KBool => fun b => Bool_value b
  | KInt => fun _ => zeroValue KInt
  | KTimestamp => fun _ => zeroValue KTimestamp
  end.

(** The time that reading back the RFC 3339 form gives: the same reading,
    with the zone offset cut to whole minutes. *)
Definition wholeMinutes (t : time.Time) : time.Time :=
  time.mkTime (time.year t) (time.month t) (time.day t) (time.hour t)
    (time.minute t) (time.second t) (time.nsec t)
    (60 * Z.quot (time.offset t) 60).

(** The value as its token shows it: a time loses the seconds of its zone
    offset, the other kinds lose nothing. *)
Definition asWritten (K : Kind) : payload K -> payload K :=
  match K with
  | KString => fun v => v
  | KBool => fun v => v
  | KInt => fun v => v
  | KTimestamp => wholeMinutes
  end.

(** A host on which every zone abbreviation stands for the offset [off]:
    the reading is kept and shown in that zone. *)
Definition zoneFixed (off : Z) : string -> time.Time -> time.Time :=
  fun _ t =>
    time.mkTime (time.year t) (time.month t) (time.day t) (time.hour t)
      (time.minute t) (time.second t) (time.nsec t) off.

(** The values [MarshalJSON] has a token for: every value but a time
    outside RFC 3339. *)
Definition encodable (K : Kind) : payload K -> bool :=
  match K with
  | KTimestamp => representable
  | _ => fun _ => true
  end.

(** The date and the clock reading of [t] as the layouts of [timeLayouts]
    write them, with [sep] between the two and the fraction of the second
    that [.999999999] writes: the RFC 3339 form without its zone. *)
Definition dateTimeText (sep : string) (t : time.Time) : string :=
  time.appendInt (time.year t) 4 ++ "-" ++ time.appendInt (time.month t) 2 ++ "-"
  ++ time.appendInt (time.day t) 2 ++ sep ++ time.appendInt (time.hour t) 2 ++ ":"
  ++ time.appendInt (time.minute t) 2 ++ ":" ++ time.appendInt (time.second t) 2
  ++ time.appendNano (time.nsec t).

(** The times [Parse] returns for the layouts of [timeLayouts] when no zone
    abbreviation is involved: a reading a Go time can show, with a year of
    four digits and a zone offset of whole minutes, 25 hours at most. *)
Definition timeInRange (t : time.Time) : bool :=
  time.wf t && (0 <=? time.year t) && (time.year t <=? 9999)
  && (Z.rem (time.offset t) 60 =? 0) && (Z.abs (time.offset t) <=? 90000).

(** What a decoded time is: a reading in range, or, when the text named a
    zone abbreviation other than UTC, what the host makes of a reading in
    range and that abbreviation. *)
Definition decodedReading (zoneTime : string -> time.Time -> time.Time)
  (v : time.Time) : Prop :=
  exists c : time.Time,
    timeInRange c = true
    /\ (v = c
        \/ exists name : string,
             name <> ""%string /\ time.offset c = 0 /\ v = zoneTime name c).

(** The same for what [Parse] has read so far: [-1] stands for a month or a
    zone offset not read yet. *)
Definition fieldsInRange (st : time.fields) : bool :=
  (0 <=? time.f_year st) && (time.f_year st <=? 9999)
  && ((time.f_month st =? -1)
      || ((1 <=? time.f_month st) && (time.f_month st <=? 12)))
  && (0 <=? time.f_hour st) && (time.f_hour st <? 24)
  && (0 <=? time.f_min st) && (time.f_min st <? 60)
  && (0 <=? time.f_sec st) && (time.f_sec st <? 60)
  && (0 <=? time.f_nsec st) && (time.f_nsec st <? 1000000000)
  && ((time.f_zoneOffset st =? -1)
      || ((Z.rem (time.f_zoneOffset st) 60 =? 0)
          && (Z.abs (time.f_zoneOffset st) <=? 90000))).

(** No error. *)
Definition isNil (e : option error) : bool :=
  match e with
  | None => true
  | Some _ => false
  end.

(** The bytes a string literal can hold as they are: no double quote, no
    backslash, no control character. *)
Definition rawChar (c : ascii) : bool :=
  negb (Ascii.eqb c dq) && negb (Ascii.eqb c bslash) && (32 <=? byteZ c).

(** The scanner is inside an array or an object, or it has closed the
    value at top level. *)
Definition closedOrNested (s : json.scanner) : Prop :=
  fst s = json.stateEndTop \/ snd s <> [].

(** A run of double quotes, and a run of the white space of JSON. *)
Definition quotes (s : string) : bool :=
  allChars (strings.inCutset (String dq "")) s.

Definition spaces (s : string) : bool := allChars json.isSpace s.

(** What a caller can see of a call of UnmarshalJSON: the value and the
    presence the accessors return afterwards, and whether the call returned
    an error. *)
Definition observe (K : Kind) (r : instance K * option error)
  : payload K * bool * bool :=
  (Accessor K (fst r), PresentFlag K (fst r), isNil (snd r)).

(** ** The tables of the tests

    The cases of TestTime_UnmarshalJSON and TestTime_MarshalJSON, and the
    check each test runs on a case. *)

(** A case: data, wantErr, present, result. *)
Definition TestTime_UnmarshalJSON_tests : list (string * bool * bool * time.Time) :=
  [ ("null", false, false, time.zeroTime);
    (quoted "2023-10-05T14:48:00Z", false, true, time.mkTime 2023 10 5 14 48 0 0 0);
    (quoted "invalid-time", true, true, time.zeroTime);
    ("", false, false, time.zeroTime);
    ("2023-10-05T14:48:00Z", false, true, time.mkTime 2023 10 5 14 48 0 0 0);
    ("  " ++ quoted "2023-10-05T14:48:00Z" ++ "  ", true, true, time.zeroTime);
    (quoted "2023-10-05T14:48:00.123Z", false, true,
     time.mkTime 2023 10 5 14 48 0 123000000 0);
    (quoted "2023-10-05T14:48:00+02:00", false, true,
     time.mkTime 2023 10 5 14 48 0 0 (2 * 60 * 60));
    (quoted "2023-10-05 14:48:00", false, true, time.mkTime 2023 10 5 14 48 0 0 0);
    (quoted "2023-10-05T14:48:00 UTC", false, true, time.mkTime 2023 10 5 14 48 0 0 0);
    (quoted "05-10-2023T14:48:00Z", true, true, time.zeroTime);
    (quoted "2023-10-05T14:48:00.123456Z", false, true,
     time.mkTime 2023 10 5 14 48 0 123456000 0);
    (quoted "2023-10-05", true, true, time.zeroTime);
    (quoted "2023-10-05T14:48:00.123456789Z", false, true,
     time.mkTime 2023 10 5 14 48 0 123456789 0) ].

Definition TestTime_UnmarshalJSON_run
  (zoneTime : string -> time.Time -> time.Time)
  (tt : string * bool * bool * time.Time) : bool :=
  let '(data, wantErr, present, result) := tt in
  let (dst, gotErr) := Time_UnmarshalJSON zoneTime (absent KTimestamp) data in
  if wantErr then
    negb (isNil gotErr) && Bool.eqb present (Time_Present dst)
  else
    isNil gotErr && Bool.eqb present (Time_Present dst)
    && time.Equal (Time_Value dst) result.

(** A case: the value set, and the text wanted. *)
Definition TestTime_MarshalJSON_tests : list (time.Time * string) :=
  [ (time.mkTime 2023 10 5 14 48 0 0 0, quoted "2023-10-05T14:48:00Z");
    (time.zeroTime, quoted "0001-01-01T00:00:00Z");
    (time.mkTime 2023 10 5 14 48 0 123000000 0, quoted "2023-10-05T14:48:00.123Z");
    (time.mkTime 2023 10 5 14 48 0 123456789 0,
     quoted "2023-10-05T14:48:00.123456789Z");
    (time.mkTime 2023 10 5 14 48 0 0 (2 * 60 * 60), quoted "2023-10-05T14:48:00+02:00");
    (time.mkTime 3000 1 1 0 0 0 0 0, quoted "3000-01-01T00:00:00Z");
    (time.mkTime 1000 1 1 0 0 0 0 0, quoted "1000-01-01T00:00:00Z");
    (time.mkTime 2020 2 29 12 0 0 0 0, quoted "2020-02-29T12:00:00Z");
    (time.mkTime 2023 12 31 23 59 59 999999999 0,
     quoted "2023-12-31T23:59:59.999999999Z");
    (time.mkTime 2023 1 1 0 0 0 0 0, quoted "2023-01-01T00:00:00Z") ].

(** The test calls [json.Marshal (&dst)], which calls MarshalJSON and
    compacts what it wrote; that text has no white space outside its string
    and none of the bytes [json.Marshal] would escape, so it is returned as
    it is. *)
Definition TestTime_MarshalJSON_run (tt : time.Time * string) : bool :=
  let (value, want) := tt in
  let dst := Time_Set (absent KTimestamp) value in
  match Time_MarshalJSON dst with
  | (got, None) => (want =? got)%string
  | (_, Some _) => false
  end.

(** * Properties *)

(** ** Examples *)

(** The smallest and the largest int64 are decoded, and encoded back to the
    same text; one more is out of range. *)
Example Int_boundary :
  Int_UnmarshalJSON (absent KInt) "-9223372036854775808"
  = (mkInt (-9223372036854775808) true, None)
  /\ Int_UnmarshalJSON (absent KInt) "9223372036854775807"
     = (mkInt 9223372036854775807 true, None)
  /\ Int_MarshalJSON (mkInt (-9223372036854775808) true)
     = ("-9223372036854775808", None)
  /\ Int_MarshalJSON (mkInt 9223372036854775807 true)
     = ("9223372036854775807", None)
  /\ Int_UnmarshalJSON (absent KInt) "9223372036854775808"
     = (mkInt 0 false, Some (NumError "ParseInt" "9223372036854775808" ErrRange)).
Proof. repeat split; vm_compute; reflexivity. Qed.

(** The cases of TestInt and TestBool, token by token. *)
Example Int_tokens :
  Int_UnmarshalJSON (absent KInt) "123" = (mkInt 123 true, None)
  /\ Int_UnmarshalJSON (absent KInt) (quoted "456") = (mkInt 456 true, None)
  /\ Int_UnmarshalJSON (absent KInt) (quoted "abc")
     = (mkInt 0 false, Some (JSONInvalidNumberLiteral "abc"))
  /\ Int_MarshalJSON (mkInt 456 true) = ("456", None).
Proof. repeat split; vm_compute; reflexivity. Qed.

Example Bool_tokens :
  Bool_UnmarshalJSON (absent KBool) "true" = (mkBool true true, None)
  /\ Bool_UnmarshalJSON (absent KBool) (quoted "true") = (mkBool true true, None)
  /\ Bool_UnmarshalJSON (absent KBool) "null" = (mkBool false false, None)
  /\ Bool_UnmarshalJSON (absent KBool) "123"
     = (mkBool false false, Some (Errorf "invalid boolean format: 123"))
  /\ Bool_MarshalJSON (mkBool false true) = ("false", None).
Proof. repeat split; vm_compute; reflexivity. Qed.

(** The first case of TestString: an escaped quote inside the text. *)
Example String_tokens :
  String_UnmarshalJSON (absent KString)
    (quoted ("test" ++ String bslash (String dq "Field")))
  = (mkString ("test" ++ String dq "Field") true, None)
  /\ String_MarshalJSON (mkString ("test" ++ String dq "Field") true)
     = (quoted ("test" ++ String bslash (String dq "Field")), None).
Proof. repeat split; vm_compute; reflexivity. Qed.

Example Bool_quoted_upper :
  Bool_UnmarshalJSON (mkBool false false) (String dq ("TRUE" ++ String dq ""))
  = (mkBool true true, None).
Proof. reflexivity. Qed.

Example Bool_stale_field :
  Bool_UnmarshalJSON (mkBool true true) "yes"
  = (mkBool true false, Some (Errorf "invalid boolean format: yes")).
Proof. reflexivity. Qed.

(** ** Decode entry points *)

(** C10: for Bool and Time, UnmarshalText(b) and UnmarshalParam(string(b))
    return the same error and leave the same state as UnmarshalJSON(b). *)
Theorem C10_entry_points_agree :
  forall (zoneTime : string -> time.Time -> time.Time)
         (b : params_Bool) (t : params_Time) (text : bytes),
    Bool_UnmarshalText b text = Bool_UnmarshalJSON b text
    /\ Bool_UnmarshalParam b (string_of_bytes text) = Bool_UnmarshalJSON b text
    /\ Time_UnmarshalText zoneTime t text = Time_UnmarshalJSON zoneTime t text
    /\ Time_UnmarshalParam zoneTime t (string_of_bytes text)
       = Time_UnmarshalJSON zoneTime t text.
Proof.
  intros zoneTime b t text.
  unfold Bool_UnmarshalText, Bool_UnmarshalParam, Time_UnmarshalText,
    Time_UnmarshalParam, bytes_of_string, string_of_bytes.
  repeat split.
Qed.

(** ** Null and empty input *)

Lemma null_or_empty_guard :
  forall data : bytes,
    data = "" \/ data = "null" ->
    ((len data =? 0)%nat || (string_of_bytes data =? "null")%string) = true.
Proof.
  intros data [-> | ->]; reflexivity.
Qed.

(** C4: for every kind, decoding the empty input or the literal null gives
    present == false, the zero value and no error. *)
Theorem C4_null_or_empty_decodes_absent :
  forall (zoneTime : string -> time.Time -> time.Time)
         (K : Kind) (x : instance K) (data : bytes),
    data = "" \/ data = "null" ->
    Decode zoneTime K x data = (absent K, None).
Proof.
  intros zoneTime K x data H.
  apply null_or_empty_guard in H.
  destruct K; simpl;
    unfold String_UnmarshalJSON, Bool_UnmarshalJSON, Int_UnmarshalJSON,
      Time_UnmarshalJSON; simpl; rewrite H; reflexivity.
Qed.

Lemma C4_null_or_empty_decodes_absent_witness :
  Decode zoneZero KTimestamp
    (mkTimeParam (time.mkTime 2023 10 5 14 48 0 0 0) true) "null"
  = (absent KTimestamp, None).
Proof.
  apply (C4_null_or_empty_decodes_absent zoneZero KTimestamp).
  right; reflexivity.
Defined.

(** ** State after a failed decode *)

Lemma Bool_failed_decode :
  forall (b b' : params_Bool) (data : bytes) (e : error),
    Bool_UnmarshalJSON b data = (b', Some e) ->
    b' = mkBool (Bool_value b) false.
Proof.
  intros b b' data e. unfold Bool_UnmarshalJSON. simpl.
  destruct ((len data =? 0)%nat || (string_of_bytes data =? "null")%string);
    [ discriminate | ].
  repeat match goal with
         | |- context [if ?c then _ else _] => destruct c; [ discriminate | ]
         end.
  intros H; inversion H; reflexivity.
Qed.

Lemma Int_failed_decode :
  forall (i i' : params_Int) (data : bytes) (e : error),
    Int_UnmarshalJSON i data = (i', Some e) -> i' = mkInt 0 false.
Proof.
  intros i i' data e. unfold Int_UnmarshalJSON.
  destruct ((len data =? 0)%nat || (string_of_bytes data =? "null")%string);
    [ discriminate | ].
  destruct (json.Unmarshal_Number "" data) as [v [err | ]].
  - intros H; inversion H; reflexivity.
  - destruct (json.Number_Int64 v) as [vv [err | ]].
    + intros H; inversion H; reflexivity.
    + discriminate.
Qed.

Lemma String_failed_decode :
  forall (s s' : params_String) (data : bytes) (e : error),
    String_UnmarshalJSON s data = (s', Some e) -> s' = mkString "" false.
Proof.
  intros s s' data e. unfold String_UnmarshalJSON.
  destruct ((len data =? 0)%nat || (string_of_bytes data =? "null")%string);
    [ discriminate | ].
  destruct (json.Unmarshal_string (String_value s) data) as [v [err | ]].
  - intros H; inversion H; reflexivity.
  - discriminate.
Qed.

Lemma Time_failed_decode :
  forall (zoneTime : string -> time.Time -> time.Time)
         (t t' : params_Time) (data : bytes) (e : error),
    Time_UnmarshalJSON zoneTime t data = (t', Some e) ->
    t' = mkTimeParam time.zeroTime true
    /\ e = Errorf ("invalid time format: " ++ string_of_bytes data).
Proof.
  intros zoneTime t t' data e. unfold Time_UnmarshalJSON.
  cbn [Time_value Time_present].
  destruct ((len data =? 0)%nat || (string_of_bytes data =? "null")%string);
    [ discriminate | ].
  destruct (string_of_bytes data =? String dq (String dq ""))%string;
    [ discriminate | ].
  match goal with
  | |- context [parseFirst ?z ?l ?v] => destruct (parseFirst z l v)
  end.
  - discriminate.
  - intros H; inversion H; split; reflexivity.
Qed.

(** C1, as the code has it: after a failed decode the accessor of every
    kind returns the zero value, so nothing of an earlier decode shows; the
    presence flag is false for String, Bool and Int and true for Timestamp;
    the stored field is the zero value for String, Int and Timestamp, and
    for Bool it is what it was before the call, neither reset nor
    overwritten, behind the false flag. *)
Theorem C1_failed_decode_state :
  forall (zoneTime : string -> time.Time -> time.Time)
         (K : Kind) (x x' : instance K) (data : bytes) (e : error),
    Decode zoneTime K x data = (x', Some e) ->
    Accessor K x' = zeroValue K
    /\ PresentFlag K x' = match K with KTimestamp => true | _ => false end
    /\ Stored K x' = fieldAfterFailure K x.
Proof.
  intros zoneTime K x x' data e H. destruct K; simpl in *.
  - apply String_failed_decode in H. subst x'. repeat split.
  - apply Bool_failed_decode in H. subst x'. repeat split.
  - apply Int_failed_decode in H. subst x'. repeat split.
  - apply Time_failed_decode in H. destruct H as [-> _]. repeat split.
Qed.

Lemma C1_failed_decode_state_witness :
  Accessor KBool (mkBool true false) = zeroValue KBool
  /\ PresentFlag KBool (mkBool true false) = false
  /\ Stored KBool (mkBool true false) = fieldAfterFailure KBool (mkBool true true).
Proof.
  apply (C1_failed_decode_state zoneZero KBool (mkBool true true)
           (mkBool true false) "yes" (Errorf "invalid boolean format: yes")).
  reflexivity.
Defined.

(** C1 as stated fails for Timestamp: the test's input "invalid-time" in
    quotes is refused with an error and leaves present == true. *)
Lemma C1_counterexample_time_present_after_error :
  Decode zoneZero KTimestamp (absent KTimestamp) (quoted "invalid-time")
  = (mkTimeParam time.zeroTime true,
     Some (Errorf ("invalid time format: " ++ quoted "invalid-time")))
  /\ PresentFlag KTimestamp
       (fst (Decode zoneZero KTimestamp (absent KTimestamp) (quoted "invalid-time")))
     = true.
Proof.
  split; vm_compute; reflexivity.
Qed.

(** ** The accessor of an instance that is not present *)

Lemma accessor_of_absent :
  forall (K : Kind) (x : instance K),
    PresentFlag K x = false -> Accessor K x = zeroValue K.
Proof.
  intros K x H. destruct K; simpl in *;
    unfold String_Value, String_Present, Bool_Value, Bool_Present, Int_Get,
      Time_Value, Time_Present in *; rewrite H; reflexivity.
Qed.

(** C8: after every sequence of decodes and sets, starting from the zero
    instance, an instance whose presence flag is false has an accessor that
    returns the kind's zero value. *)
Theorem C8_absent_reads_zero :
  forall (zoneTime : string -> time.Time -> time.Time)
         (K : Kind) (ops : list (op K)),
    PresentFlag K (run zoneTime K ops (absent K)) = false ->
    Accessor K (run zoneTime K ops (absent K)) = zeroValue K.
Proof.
  intros zoneTime K ops. apply accessor_of_absent.
Qed.

Lemma C8_absent_reads_zero_witness :
  Bool_value (run zoneZero KBool [OpDecode KBool "true"; OpDecode KBool "yes"]
                (absent KBool)) = true
  /\ Accessor KBool
       (run zoneZero KBool [OpDecode KBool "true"; OpDecode KBool "yes"]
          (absent KBool)) = zeroValue KBool.
Proof.
  split.
  - reflexivity.
  - apply (C8_absent_reads_zero zoneZero KBool
             [OpDecode KBool "true"; OpDecode KBool "yes"]).
    reflexivity.
Defined.

(** ** Errors of the encoders *)

Lemma time_MarshalJSON_ok :
  forall t : time.Time,
    snd (time.MarshalJSON t) = None <-> representable t = true.
Proof.
  intros t. unfold time.MarshalJSON, representable.
  destruct (time.year t <? 0) eqn:E1; simpl.
  - split; [ discriminate | ]. intros H.
    apply andb_prop in H as [H _]. apply andb_prop in H as [H _]. lia.
  - destruct (9999 <? time.year t) eqn:E2; simpl.
    + split; [ discriminate | ]. intros H.
      apply andb_prop in H as [H _]. apply andb_prop in H as [_ H]. lia.
    + assert (Hy : (0 <=? time.year t) && (time.year t <=? 9999) = true)
        by (apply andb_true_intro; split; lia).
      rewrite Hy. simpl.
      destruct (time.offset t =? 0); simpl.
      * split; reflexivity.
      * destruct (24 <=? Z.abs (Z.quot (time.offset t) 60) / 60) eqn:E3; simpl.
        -- split; [ discriminate | lia ].
        -- split; [ lia | reflexivity ].
Qed.

(** C7, as the code has it: encoding a Bool or an Int never returns an
    error; encoding a Time returns none exactly when the instance is not
    present or its time has an RFC 3339 form (year within 0..9999, zone
    offset below 24 hours), and otherwise hands on the error of
    time.Time.MarshalJSON. *)
Theorem C7_encode_errors :
  (forall b : params_Bool, snd (Bool_MarshalJSON b) = None)
  /\ (forall i : params_Int, snd (Int_MarshalJSON i) = None)
  /\ (forall t : params_Time,
        snd (Time_MarshalJSON t) = None
        <-> Time_present t = false \/ representable (Time_value t) = true).
Proof.
  split; [ | split ].
  - intros b. unfold Bool_MarshalJSON.
    destruct (Bool_present b), (Bool_value b); reflexivity.
  - intros i. reflexivity.
  - intros t. unfold Time_MarshalJSON. destruct (Time_present t); simpl.
    + split.
      * intros H. right. now apply time_MarshalJSON_ok.
      * intros [H | H]; [ discriminate | now apply time_MarshalJSON_ok ].
    + split; [ intros _; now left | reflexivity ].
Qed.

(** C7 as stated fails for Timestamp: a present time of the year 10000 is
    encoded to an error. *)
Lemma C7_counterexample_year_10000 :
  Time_MarshalJSON (Time_Set (absent KTimestamp) (time.mkTime 10000 1 1 0 0 0 0 0))
  = ("", Some (TimeMarshalError "Time.MarshalJSON: year outside of range [0,9999]")).
Proof. reflexivity. Qed.

(** ** The order of the layouts *)

Lemma eqb_false_of_neq :
  forall a b : string, a <> b -> (a =? b)%string = false.
Proof. intros a b H. now apply String.eqb_neq. Qed.

Lemma len_zero_false :
  forall s : string, s <> "" -> (len s =? 0)%nat = false.
Proof. intros [ | c r] H; [ now elim H | reflexivity ]. Qed.

(** C3, as the code has it: for input other than the empty input, null and
    the token of two quotes, the four layouts are tried on the input without
    its surrounding quotes in the order RFC 3339, T with zone abbreviation,
    space, T without zone; the first that parses gives the value, with
    present == true and no error; if none parses the error is "invalid time
    format: " followed by the raw input. *)
Theorem C3_layouts_tried_in_order :
  forall (zoneTime : string -> time.Time -> time.Time)
         (dst : params_Time) (data : bytes),
    data <> "" -> data <> "null" -> data <> quoted "" ->
    let value := strings.Trim (string_of_bytes data) (String dq "") in
    let try := fun k : nat => time.Parse zoneTime (nth k timeLayouts []) value in
    map time.layoutString timeLayouts
    = ["2006-01-02T15:04:05Z07:00"; "2006-01-02T15:04:05 MST";
       "2006-01-02 15:04:05"; "2006-01-02T15:04:05"]
    /\ Time_UnmarshalJSON zoneTime dst data
       = match try 0%nat, try 1%nat, try 2%nat, try 3%nat with
         | Some t, _, _, _ => (mkTimeParam t true, None)
         | None, Some t, _, _ => (mkTimeParam t true, None)
         | None, None, Some t, _ => (mkTimeParam t true, None)
         | None, None, None, Some t => (mkTimeParam t true, None)
         | None, None, None, None =>
             (mkTimeParam time.zeroTime true,
              Some (Errorf ("invalid time format: " ++ string_of_bytes data)))
         end.
Proof.
  intros zoneTime dst data H1 H2 H3 value try.
  split; [ reflexivity | ].
  unfold Time_UnmarshalJSON. simpl Time_value. simpl Time_present.
  unfold string_of_bytes in *.
  rewrite (len_zero_false _ H1), (eqb_false_of_neq _ _ H2). simpl orb.
  rewrite (eqb_false_of_neq data (String dq (String dq "")) H3).
  fold value. unfold parseFirst, timeLayouts.
  unfold try, timeLayouts, nth.
  destruct (time.Parse zoneTime time.RFC3339 value); [ reflexivity | ].
  destruct (time.Parse zoneTime _ value); [ reflexivity | ].
  destruct (time.Parse zoneTime _ value); [ reflexivity | ].
  destruct (time.Parse zoneTime time.dateTimeT value); reflexivity.
Qed.

Lemma C3_layouts_tried_in_order_witness :
  Time_UnmarshalJSON zoneZero (absent KTimestamp) (quoted "2023-10-05 14:48:00")
  = (mkTimeParam (time.mkTime 2023 10 5 14 48 0 0 0) true, None).
Proof.
  destruct (C3_layouts_tried_in_order zoneZero (absent KTimestamp)
              (quoted "2023-10-05 14:48:00")) as [_ H];
    [ discriminate | discriminate | discriminate | ].
  rewrite H. vm_compute. reflexivity.
Defined.

(** C3 as stated fails at the token of two quotes: it is neither empty nor
    null, none of the four layouts parses what is left of it without its
    quotes, and the decode returns no error (and present == true). *)
Lemma C3_counterexample_empty_quotes :
  quoted "" <> "" /\ quoted "" <> "null"
  /\ (forall l : time.layout,
        In l timeLayouts ->
        time.Parse zoneZero l (strings.Trim (quoted "") (String dq "")) = None)
  /\ Time_UnmarshalJSON zoneZero (absent KTimestamp) (quoted "")
     = (mkTimeParam time.zeroTime true, None).
Proof.
  repeat split; try discriminate.
  intros l [<- | [<- | [<- | [<- | []]]]]; reflexivity.
Qed.

(** ** Strings *)

Lemma append_assoc :
  forall a b c : string, ((a ++ b) ++ c = a ++ (b ++ c))%string.
Proof.
  induction a as [ | x a IH]; intros b c; simpl; [ | rewrite IH ]; reflexivity.
Qed.

Lemma append_nil_r : forall a : string, (a ++ "")%string = a.
Proof.
  induction a as [ | x a IH]; simpl; [ | rewrite IH ]; reflexivity.
Qed.

Lemma len_append :
  forall a b : string, len (a ++ b) = (len a + len b)%nat.
Proof.
  induction a as [ | x a IH]; intros b; simpl; [ | unfold len in *; simpl; rewrite IH ];
    reflexivity.
Qed.

Lemma allChars_append :
  forall p a b, allChars p (a ++ b) = allChars p a && allChars p b.
Proof.
  induction a as [ | x a IH]; intros b; simpl; [ | rewrite IH, andb_assoc ];
    reflexivity.
Qed.

Lemma allChars_impl :
  forall (p p' : ascii -> bool),
    (forall c, p c = true -> p' c = true) ->
    forall s, allChars p s = true -> allChars p' s = true.
Proof.
  intros p p' H. induction s as [ | c r IH]; simpl; [ reflexivity | ].
  intros E. apply andb_prop in E as [E1 E2]. now rewrite (H c E1), IH.
Qed.

(** A fact about every byte, settled by running over the 256 of them. *)
Ltac by_all_bytes c :=
  destruct c as [[ | ] [ | ] [ | ] [ | ] [ | ] [ | ] [ | ] [ | ]];
  vm_compute; (reflexivity || discriminate || tauto).

(** ** JSON numbers *)

Lemma skipDigits_empty_digits :
  forall s, json.skipDigits s = "" -> allChars isDigit s = true.
Proof.
  induction s as [ | c r IH]; simpl; [ reflexivity | ].
  destruct (isDigit c); [ exact IH | discriminate ].
Qed.

Lemma digits_skipDigits_empty :
  forall s, allChars isDigit s = true -> json.skipDigits s = "".
Proof.
  induction s as [ | c r IH]; simpl; [ reflexivity | ].
  destruct (isDigit c); [ exact IH | discriminate ].
Qed.

Lemma isDigit_numChar : forall c, isDigit c = true -> numChar c = true.
Proof. intros c H. unfold numChar. now rewrite H. Qed.

Lemma skipDigits_numChars :
  forall s, allChars numChar (json.skipDigits s) = true -> allChars numChar s = true.
Proof.
  induction s as [ | c r IH]; simpl; [ reflexivity | ].
  destruct (isDigit c) eqn:E; simpl.
  - intros H. rewrite (isDigit_numChar _ E). now apply IH.
  - exact (fun H => H).
Qed.

Lemma eqb_empty_numChars :
  forall s, (json.skipDigits s =? "")%string = true -> allChars numChar s = true.
Proof.
  intros s H. apply String.eqb_eq in H.
  apply allChars_impl with (p := isDigit); [ exact isDigit_numChar | ].
  now apply skipDigits_empty_digits.
Qed.

Lemma validExponent_numChars :
  forall s, json.validExponent s = true -> allChars numChar s = true.
Proof.
  intros [ | e [ | c r]]; unfold json.validExponent;
    try discriminate; [ reflexivity | ].
  destruct (Ascii.eqb e "e" || Ascii.eqb e "E") eqn:Ee; [ | discriminate ].
  assert (He : numChar e = true).
  { unfold numChar. apply orb_prop in Ee as [-> | ->];
      now rewrite ?orb_true_r. }
  change (allChars numChar (String e (String c r)))
    with (numChar e && allChars numChar (String c r)).
  rewrite He. cbn [andb].
  destruct (Ascii.eqb c "+" || Ascii.eqb c "-") eqn:Ec.
  - assert (Hc : numChar c = true).
    { unfold numChar. apply orb_prop in Ec as [-> | ->];
        now rewrite ?orb_true_r. }
    cbn [allChars]. rewrite Hc. cbn [andb]. destruct r as [ | d r]; [ discriminate | ].
    apply eqb_empty_numChars.
  - apply eqb_empty_numChars.
Qed.

Lemma validFraction_numChars :
  forall s, json.validFraction s = true -> allChars numChar s = true.
Proof.
  intros s. unfold json.validFraction.
  destruct s as [ | p [ | d r]]; try apply validExponent_numChars.
  destruct (Ascii.eqb p "." && isDigit d) eqn:E;
    [ | apply validExponent_numChars ].
  apply andb_prop in E as [Ep Ed]. intros H.
  apply validExponent_numChars, skipDigits_numChars in H.
  simpl. rewrite H, (isDigit_numChar _ Ed).
  unfold numChar. rewrite Ep. now rewrite ?orb_true_r.
Qed.

(** A valid number starts with a minus sign or a digit and holds only
    bytes of numbers. *)
Lemma isValidNumber_shape :
  forall s,
    json.isValidNumber s = true ->
    exists c r, s = String c r
                /\ (Ascii.eqb c "-" || isDigit c) = true
                /\ allChars numChar s = true.
Proof.
  intros [ | c r]; [ discriminate | ]. unfold json.isValidNumber.
  intros H. exists c, r. split; [ reflexivity | ].
  assert (tail :
    forall c' r',
      (if Ascii.eqb c' "0" then json.validFraction r'
       else if (49 <=? byteZ c') && (byteZ c' <=? 57)
            then json.validFraction (json.skipDigits r') else false) = true ->
      isDigit c' = true /\ allChars numChar r' = true).
  { intros c' r' E. destruct (Ascii.eqb c' "0") eqn:E0.
    - apply Ascii.eqb_eq in E0. subst c'. split; [ reflexivity | ].
      now apply validFraction_numChars.
    - destruct ((49 <=? byteZ c') && (byteZ c' <=? 57)) eqn:E1; [ | discriminate ].
      split.
      + unfold isDigit. apply andb_prop in E1 as [A B].
        apply andb_true_intro; split; lia.
      + now apply skipDigits_numChars, validFraction_numChars. }
  destruct (Ascii.eqb c "-") eqn:Em.
  - split; [ reflexivity | ]. simpl.
    assert (Hc : numChar c = true) by (unfold numChar; rewrite Em; now rewrite ?orb_true_r).
    rewrite Hc. simpl. destruct r as [ | c' r']; [ discriminate | ].
    apply tail in H as [Hd Hr]. simpl. now rewrite (isDigit_numChar _ Hd), Hr.
  - apply tail in H as [Hd Hr]. rewrite Hd. split; [ reflexivity | ].
    simpl. now rewrite (isDigit_numChar _ Hd), Hr.
Qed.

Lemma numChar_not_space : forall c, numChar c = true -> json.isSpace c = false.
Proof. intros c; by_all_bytes c. Qed.

Lemma skipSpace_id :
  forall c r, json.isSpace c = false -> json.skipSpace (String c r) = String c r.
Proof. intros c r H. simpl. now rewrite H. Qed.

Lemma trimRightSpace_id :
  forall s,
    allChars (fun c => negb (json.isSpace c)) s = true ->
    json.trimRightSpace s = s.
Proof.
  induction s as [ | c r IH]; simpl; [ reflexivity | ].
  intros H. apply andb_prop in H as [Hc Hr]. rewrite (IH Hr).
  destruct r; [ | reflexivity ].
  destruct (json.isSpace c); [ discriminate | reflexivity ].
Qed.

(** The scan of a bare number. *)
Lemma scan_number :
  forall lit, json.isValidNumber lit = true -> json.scan lit = Some (json.ItemNumber lit).
Proof.
  intros lit H. destruct (isValidNumber_shape lit H) as (c & r & -> & Hc & Hall).
  unfold json.scan, string_of_bytes.
  assert (Hn : numChar c = true) by (simpl in Hall; now apply andb_prop in Hall as [A _]).
  rewrite (skipSpace_id c r (numChar_not_space c Hn)).
  assert (Hq : Ascii.eqb c dq = false
               /\ (Ascii.eqb c "{" || Ascii.eqb c "[") = false
               /\ Ascii.eqb c "n" = false /\ Ascii.eqb c "t" = false
               /\ Ascii.eqb c "f" = false).
  { clear - Hc. revert Hc. by_all_bytes c. }
  destruct Hq as (Q1 & Q2 & Q3 & Q4 & Q5). rewrite Q1, Q2.
  rewrite trimRightSpace_id.
  2:{ apply allChars_impl with (p := numChar); [ | exact Hall ].
      intros x Hx. now rewrite (numChar_not_space x Hx). }
  simpl String.eqb. rewrite Q3, Q4, Q5, H. reflexivity.
Qed.

(** ** String literals without escapes *)

Lemma unquote_plain_step :
  forall c f r,
    plainChar c = true ->
    json.unquote (S f) (String c r) = json.cons_fst c (json.unquote f r).
Proof.
  intros c f r H. cbn [json.unquote].
  assert (E : Ascii.eqb c dq = false /\ Ascii.eqb c bslash = false
              /\ (byteZ c <? 32) = false /\ (byteZ c <? utf8.RuneSelf) = true).
  { revert H. clear. by_all_bytes c. }
  destruct E as (E1 & E2 & E3 & E4). now rewrite E1, E2, E3, E4.
Qed.

Lemma unquote_plain :
  forall s fuel rest,
    allChars plainChar s = true ->
    (len s < fuel)%nat ->
    json.unquote fuel (s ++ String dq rest) = Some (s, rest).
Proof.
  induction s as [ | c r IH]; intros fuel rest H L.
  - destruct fuel as [ | f]; [ inversion L | ]. reflexivity.
  - destruct fuel as [ | f]; [ inversion L | ].
    cbn [allChars] in H. apply andb_prop in H as [Hc Hr].
    cbn [append]. rewrite (unquote_plain_step c f _ Hc).
    rewrite (IH f rest Hr); [ reflexivity | ].
    unfold len in *. simpl in L. lia.
Qed.

Lemma numChar_plain : forall c, numChar c = true -> plainChar c = true.
Proof. intros c; by_all_bytes c. Qed.

(** The scan of a number between quotes. *)
Lemma scan_quoted_number :
  forall lit,
    json.isValidNumber lit = true ->
    json.scan (quoted lit) = Some (json.ItemString lit).
Proof.
  intros lit H. destruct (isValidNumber_shape lit H) as (c & r & E & _ & Hall).
  unfold json.scan, string_of_bytes, quoted.
  cbn [json.skipSpace]. change (json.isSpace dq) with false. cbv iota.
  change (Ascii.eqb dq dq) with true. cbv iota.
  rewrite unquote_plain.
  - reflexivity.
  - apply allChars_impl with (p := numChar); [ exact numChar_plain | exact Hall ].
  - rewrite len_append. unfold len. simpl. lia.
Qed.

(** ** Int: quoted and bare numbers, rejected numbers *)

Lemma Int_decode_number :
  forall (i : params_Int) (lit : string),
    json.isValidNumber lit = true ->
    Int_UnmarshalJSON i lit
    = match json.Number_Int64 lit with
      | (_, Some err) => (mkInt 0 false, Some err)
      | (vv, None) => (mkInt (int_of_int64 vv) true, None)
      end.
Proof.
  intros i lit H. unfold Int_UnmarshalJSON, json.Unmarshal_Number.
  rewrite (scan_number lit H).
  destruct (isValidNumber_shape lit H) as (c & r & -> & Hc & _).
  assert (Q : Ascii.eqb c "n" = false) by (revert Hc; clear; by_all_bytes c).
  unfold string_of_bytes. cbn [len String.length Nat.eqb String.eqb orb].
  rewrite Q. reflexivity.
Qed.

Lemma Int_decode_quoted_number :
  forall (i : params_Int) (lit : string),
    json.isValidNumber lit = true ->
    Int_UnmarshalJSON i (quoted lit)
    = match json.Number_Int64 lit with
      | (_, Some err) => (mkInt 0 false, Some err)
      | (vv, None) => (mkInt (int_of_int64 vv) true, None)
      end.
Proof.
  intros i lit H. unfold Int_UnmarshalJSON, json.Unmarshal_Number.
  rewrite (scan_quoted_number lit H), H. reflexivity.
Qed.

(** C6: decoding the quoted token "true" (resp. "false") into a Bool gives
    the same state and error as decoding the bare token; decoding a quoted
    JSON number into an Int, an integer literal such as "123" among them,
    gives the same state and error as decoding the bare number. *)
Theorem C6_quoted_equals_bare :
  forall (b : params_Bool) (i : params_Int) (lit : string),
    json.isValidNumber lit = true ->
    Bool_UnmarshalJSON b (quoted "true") = Bool_UnmarshalJSON b "true"
    /\ Bool_UnmarshalJSON b (quoted "false") = Bool_UnmarshalJSON b "false"
    /\ Int_UnmarshalJSON i (quoted lit) = Int_UnmarshalJSON i lit.
Proof.
  intros b i lit H. repeat split.
  now rewrite Int_decode_quoted_number, Int_decode_number.
Qed.

Lemma C6_quoted_equals_bare_witness :
  Bool_UnmarshalJSON (mkBool false false) (quoted "true")
  = Bool_UnmarshalJSON (mkBool false false) "true"
  /\ Bool_UnmarshalJSON (mkBool false false) (quoted "false")
     = Bool_UnmarshalJSON (mkBool false false) "false"
  /\ Int_UnmarshalJSON (mkInt 7 true) (quoted "123")
     = Int_UnmarshalJSON (mkInt 7 true) "123".
Proof.
  apply (C6_quoted_equals_bare (mkBool false false) (mkInt 7 true) "123").
  reflexivity.
Defined.

Example Int_quoted_123 :
  Int_UnmarshalJSON (mkInt 7 true) (quoted "123") = (mkInt 123 true, None).
Proof. reflexivity. Qed.

Ltac split_if :=
  match goal with
  | |- context [if ?g then _ else _] => destruct g eqn:?
  end.

Lemma parseUintLoop_ok_digits :
  forall s0 s n v,
    strconv.parseUintLoop s0 s n = (v, None) -> json.skipDigits s = "".
Proof.
  intros s0. induction s as [ | c r IH]; intros n v;
    cbn [strconv.parseUintLoop json.skipDigits]; [ reflexivity | ].
  destruct (isDigit c); cbn [negb]; [ | discriminate ].
  split_if; [ discriminate | ].
  split_if; [ discriminate | ].
  apply IH.
Qed.

Lemma ParseUint_ok_digits :
  forall s v, strconv.ParseUint s = (v, None) -> json.skipDigits s = "".
Proof.
  intros [ | c r] v; [ discriminate | ]. unfold strconv.ParseUint.
  apply parseUintLoop_ok_digits.
Qed.

Lemma parseUintLoop_error_shape :
  forall s0 s n v e,
    strconv.parseUintLoop s0 s n = (v, Some e) ->
    e = NumError "ParseUint" s0 ErrSyntax
    \/ (e = NumError "ParseUint" s0 ErrRange /\ v = strconv.maxUint64).
Proof.
  intros s0. induction s as [ | c r IH]; intros n v e;
    cbn [strconv.parseUintLoop]; [ discriminate | ].
  destruct (isDigit c); cbn [negb].
  - split_if; [ intros H; inversion H; right; now split | ].
    split_if; [ intros H; inversion H; right; now split | ].
    apply IH.
  - intros H; inversion H. now left.
Qed.

Lemma ParseUint_error_shape :
  forall s v e,
    strconv.ParseUint s = (v, Some e) ->
    e = NumError "ParseUint" s ErrSyntax
    \/ (e = NumError "ParseUint" s ErrRange /\ v = strconv.maxUint64).
Proof.
  intros [ | c r] v e.
  - intros H; inversion H. now left.
  - apply parseUintLoop_error_shape.
Qed.

(** [ParseInt] accepts only an optional sign followed by digits, and its
    errors name the function and the whole argument. *)
Lemma ParseInt_cases :
  forall s,
    (exists v, strconv.ParseInt s = (v, None)
               /\ exists c r, s = String c r
                  /\ (if Ascii.eqb c "+" || Ascii.eqb c "-"
                      then json.skipDigits r else json.skipDigits s) = "")
    \/ (exists v k, strconv.ParseInt s = (v, Some (NumError "ParseInt" s k))).
Proof.
  intros [ | c r].
  - right. exists 0, ErrSyntax. reflexivity.
  - unfold strconv.ParseInt.
    set (s' := if Ascii.eqb c "+" || Ascii.eqb c "-" then r else String c r).
    destruct (strconv.ParseUint s') as [un err] eqn:E.
    destruct err as [e | ].
    + destruct (ParseUint_error_shape _ _ _ E) as [-> | [-> ->]].
      * right. exists 0, ErrSyntax. reflexivity.
      * right. destruct (Ascii.eqb c "-"); eexists; exists ErrRange; reflexivity.
    + apply ParseUint_ok_digits in E.
      destruct (negb (Ascii.eqb c "-") && (2 ^ 63 <=? un)).
      * right. eexists; exists ErrRange. reflexivity.
      * destruct (Ascii.eqb c "-" && (2 ^ 63 <? un)).
        -- right. eexists; exists ErrRange. reflexivity.
        -- left. eexists. split; [ reflexivity | ].
           exists c, r. split; [ reflexivity | ].
           subst s'. destruct (Ascii.eqb c "+" || Ascii.eqb c "-"); exact E.
Qed.

(** C9: a numeric token that is not an integer literal (it has a fraction or
    an exponent, as 1.5 has) is refused by Int's UnmarshalJSON with the
    parse error of strconv.ParseInt, and the instance is left not present
    with value 0. *)
Theorem C9_int_rejects_non_integral :
  forall (i : params_Int) (data : bytes),
    json.isValidNumber data = true ->
    isIntegerLiteral data = false ->
    exists k : numErr,
      Int_UnmarshalJSON i data
      = (mkInt 0 false, Some (NumError "ParseInt" data k)).
Proof.
  intros i data Hv Hi. rewrite (Int_decode_number i data Hv).
  unfold json.Number_Int64.
  destruct (ParseInt_cases data) as [(v & _ & c & r & -> & Hd) | (v & k & ->)].
  - exfalso. unfold isIntegerLiteral in Hi. rewrite Hv in Hi. cbn [andb] in Hi.
    destruct (isValidNumber_shape _ Hv) as (c' & r' & E & Hc & _).
    inversion E; subst c' r'.
    destruct (Ascii.eqb c "-") eqn:Em.
    + rewrite orb_true_r in Hd. rewrite Hd in Hi. discriminate.
    + assert (Ep : Ascii.eqb c "+" = false).
      { cbn [orb] in Hc. revert Hc. clear. by_all_bytes c. }
      rewrite Ep in Hd. cbn [orb] in Hd. rewrite Hd in Hi. discriminate.
  - exists k. reflexivity.
Qed.

Lemma C9_int_rejects_non_integral_witness :
  exists k : numErr,
    Int_UnmarshalJSON (mkInt 7 true) "1.5"
    = (mkInt 0 false, Some (NumError "ParseInt" "1.5" k)).
Proof.
  apply (C9_int_rejects_non_integral (mkInt 7 true) "1.5"); reflexivity.
Defined.

(** ** Decimal digits *)

Lemma digit_cases :
  forall d, 0 <= d < 10 ->
            d = 0 \/ d = 1 \/ d = 2 \/ d = 3 \/ d = 4 \/ d = 5 \/ d = 6
            \/ d = 7 \/ d = 8 \/ d = 9.
Proof. intros d H. lia. Qed.

Lemma digitChar_spec :
  forall d, 0 <= d < 10 ->
            isDigit (digitChar d) = true /\ digitVal (digitChar d) = d
            /\ byteZ (digitChar d) = 48 + d.
Proof.
  intros d H.
  destruct (digit_cases d H) as [-> | [-> | [-> | [-> | [-> | [-> | [-> | [-> | [-> | ->]]]]]]]]];
    repeat split.
Qed.

Lemma mod10_bound : forall u, 0 <= u mod 10 < 10.
Proof. intros u. apply Z.mod_pos_bound. lia. Qed.

Lemma decimal_digits :
  forall w u, allChars isDigit (strconv.decimal w u) = true.
Proof.
  induction w as [ | w IH]; intros u; cbn [strconv.decimal]; [ reflexivity | ].
  rewrite allChars_append, IH. cbn [allChars andb].
  now rewrite (proj1 (digitChar_spec _ (mod10_bound u))).
Qed.

Lemma len_decimal : forall w u, len (strconv.decimal w u) = w.
Proof.
  induction w as [ | w IH]; intros u; cbn [strconv.decimal]; [ reflexivity | ].
  rewrite len_append, IH. unfold len. simpl. lia.
Qed.

Lemma pow10_succ : forall k : nat, 10 ^ Z.of_nat (S k) = 10 * 10 ^ Z.of_nat k.
Proof. intros k. rewrite Nat2Z.inj_succ, Z.pow_succ_r; lia. Qed.

Lemma pow10_pos : forall k : nat, 0 < 10 ^ Z.of_nat k.
Proof. intros k. apply Z.pow_pos_nonneg; lia. Qed.

(** The leading digit of a decimal of at least one digit. *)
Lemma decimal_head :
  forall w u,
    exists r,
      strconv.decimal (S w) u
      = String (digitChar ((u / 10 ^ Z.of_nat w) mod 10)) r
      /\ allChars isDigit r = true.
Proof.
  induction w as [ | w IH]; intros u.
  - exists "". cbn [strconv.decimal append]. change (10 ^ Z.of_nat 0) with 1.
    rewrite Z.div_1_r. split; reflexivity.
  - destruct (IH (u / 10)) as (r & E & Hr).
    exists (r ++ String (digitChar (u mod 10)) "")%string.
    change (strconv.decimal (S (S w)) u)
      with (strconv.decimal (S w) (u / 10) ++ String (digitChar (u mod 10)) "")%string.
    rewrite E. cbn [append]. split.
    + f_equal. f_equal. f_equal. rewrite pow10_succ.
      rewrite Z.div_div; [ reflexivity | lia | apply pow10_pos ].
    + rewrite allChars_append, Hr. cbn [allChars andb].
      now rewrite (proj1 (digitChar_spec _ (mod10_bound u))).
Qed.

Lemma ndigits_loop_upper :
  forall f u,
    0 <= u < 10 ^ Z.of_nat (S f) ->
    u < 10 ^ Z.of_nat (strconv.ndigits_loop f u).
Proof.
  induction f as [ | f IH]; intros u H; cbn [strconv.ndigits_loop].
  - exact (proj2 H).
  - destruct (u <? 10) eqn:E.
    + change (10 ^ Z.of_nat 1) with 10. lia.
    + rewrite pow10_succ. rewrite pow10_succ in H.
      assert (B : u / 10 < 10 ^ Z.of_nat (strconv.ndigits_loop f (u / 10))).
      { apply IH. split; [ apply Z.div_pos; lia | ].
        apply Z.div_lt_upper_bound; lia. }
      pose proof (Z.div_mod u 10 ltac:(lia)). pose proof (mod10_bound u). lia.
Qed.

Lemma ndigits_loop_lower :
  forall f u,
    0 < u -> 10 ^ (Z.of_nat (strconv.ndigits_loop f u) - 1) <= u.
Proof.
  induction f as [ | f IH]; intros u H; cbn [strconv.ndigits_loop].
  - change (10 ^ (Z.of_nat 1 - 1)) with 1. lia.
  - destruct (u <? 10) eqn:E.
    + change (10 ^ (Z.of_nat 1 - 1)) with 1. lia.
    + assert (P : 0 < u / 10) by (apply Z.div_str_pos; lia).
      specialize (IH (u / 10) P).
      assert (N : (1 <= strconv.ndigits_loop f (u / 10))%nat)
        by (destruct f; cbn [strconv.ndigits_loop]; [ lia | destruct (u / 10 <? 10); lia ]).
      replace (Z.of_nat (S (strconv.ndigits_loop f (u / 10))) - 1)
        with (Z.succ (Z.of_nat (strconv.ndigits_loop f (u / 10)) - 1)) by lia.
      rewrite Z.pow_succ_r by lia.
      pose proof (Z.div_mod u 10 ltac:(lia)). pose proof (mod10_bound u). lia.
Qed.

Lemma ndigits_positive : forall u, exists n, strconv.ndigits u = S n.
Proof.
  intros u. unfold strconv.ndigits. cbn [strconv.ndigits_loop].
  destruct (u <? 10); eexists; reflexivity.
Qed.

(** The digits of an unsigned 64-bit value give it back. *)
Lemma parseUintLoop_decimal :
  forall k m s0 rest a,
    0 <= a -> 0 <= m < 10 ^ Z.of_nat k ->
    a * 10 ^ Z.of_nat k + m <= strconv.maxUint64 ->
    strconv.parseUintLoop s0 (strconv.decimal k m ++ rest) a
    = strconv.parseUintLoop s0 rest (a * 10 ^ Z.of_nat k + m).
Proof.
  induction k as [ | k IH]; intros m s0 rest a Ha Hm Hmax.
  - change (10 ^ Z.of_nat 0) with 1 in *. cbn [strconv.decimal append].
    f_equal. lia.
  - rewrite pow10_succ in *. pose proof (pow10_pos k) as Pk.
    pose proof (Z.div_mod m 10 ltac:(lia)) as Dm. pose proof (mod10_bound m) as Bm.
    cbn [strconv.decimal]. rewrite append_assoc. cbn [append].
    assert (Hq : 0 <= m / 10 < 10 ^ Z.of_nat k).
    { split; [ apply Z.div_pos; lia | apply Z.div_lt_upper_bound; lia ]. }
    rewrite (IH (m / 10) s0 _ a Ha Hq) by nia.
    cbn [strconv.parseUintLoop].
    destruct (digitChar_spec _ Bm) as (D1 & D2 & _). rewrite D1, D2. cbn [negb].
    set (n := a * 10 ^ Z.of_nat k + m / 10).
    assert (Hn : n * 10 + m mod 10 = a * (10 * 10 ^ Z.of_nat k) + m) by (unfold n; lia).
    unfold strconv.maxUint64 in *.
    change (2 ^ 64 - 1) with 18446744073709551615 in *.
    change (2 ^ 64) with 18446744073709551616.
    change (18446744073709551615 / 10 + 1) with 1844674407370955162.
    assert (Hn0 : 0 <= n) by (unfold n; nia).
    destruct (1844674407370955162 <=? n) eqn:E1; [ lia | ].
    rewrite Z.mod_small by lia.
    destruct ((n * 10 + m mod 10 <? n * 10)
              || (18446744073709551615 <? n * 10 + m mod 10)) eqn:E2.
    + apply orb_prop in E2 as [E2 | E2]; lia.
    + now rewrite Hn.
Qed.

Lemma int64_small : forall z, - 2 ^ 63 <= z < 2 ^ 63 -> strconv.int64 z = z.
Proof.
  intros z H. unfold strconv.int64.
  change (2 ^ 63) with 9223372036854775808 in *.
  change (2 ^ 64) with 18446744073709551616.
  rewrite Z.mod_small; lia.
Qed.

Lemma int64_min : strconv.int64 (2 ^ 63) = - 2 ^ 63.
Proof. reflexivity. Qed.

Lemma ndigits_upper :
  forall u, 0 <= u <= 2 ^ 64 -> u < 10 ^ Z.of_nat (strconv.ndigits u).
Proof.
  intros u H. apply ndigits_loop_upper.
  change (10 ^ Z.of_nat 20) with 100000000000000000000.
  change (2 ^ 64) with 18446744073709551616 in H. lia.
Qed.

(** Printing an int64 with %d and reading it back with ParseInt. *)
Lemma ParseInt_FormatInt :
  forall v, - 2 ^ 63 <= v < 2 ^ 63 ->
            strconv.ParseInt (strconv.FormatInt v) = (v, None).
Proof.
  intros v H. unfold strconv.FormatInt.
  set (u := Z.abs v).
  assert (Hu : 0 <= u <= 2 ^ 63) by (unfold u; lia).
  assert (Hu64 : 0 <= u <= 2 ^ 64).
  { change (2 ^ 63) with 9223372036854775808 in Hu.
    change (2 ^ 64) with 18446744073709551616. lia. }
  pose proof (ndigits_upper u Hu64) as Hup.
  destruct (ndigits_positive u) as [n En]. rewrite En in *.
  destruct (decimal_head n u) as (r & E & Hr).
  assert (Loop :
    strconv.parseUintLoop (strconv.decimal (S n) u) (strconv.decimal (S n) u) 0
    = (u, None)).
  { rewrite <- (append_nil_r (strconv.decimal (S n) u)) at 2.
    rewrite parseUintLoop_decimal.
    - cbn [strconv.parseUintLoop]. f_equal; lia.
    - lia.
    - lia.
    - unfold strconv.maxUint64. change (2 ^ 63) with 9223372036854775808 in Hu.
      change (2 ^ 64 - 1) with 18446744073709551615. lia. }
  assert (PU : strconv.ParseUint (strconv.decimal (S n) u) = (u, None)).
  { unfold strconv.ParseUint. rewrite E at 1. exact Loop. }
  assert (Hd : isDigit (digitChar ((u / 10 ^ Z.of_nat n) mod 10)) = true)
    by apply (digitChar_spec _ (mod10_bound _)).
  destruct (v <? 0) eqn:Neg.
  - cbn [append]. unfold strconv.ParseInt.
    change (Ascii.eqb "-" "-") with true. change (Ascii.eqb "-" "+") with false.
    cbn [orb negb andb]. rewrite PU.
    assert (C : (2 ^ 63 <? u) = false) by lia. rewrite C. cbv iota.
    f_equal. destruct (Z.eq_dec u (2 ^ 63)) as [Eu | Nu].
    + rewrite Eu. unfold u in Eu. rewrite int64_min.
      replace (- - 2 ^ 63) with (2 ^ 63) by lia. rewrite int64_min. lia.
    + rewrite (int64_small u) by lia. rewrite int64_small; unfold u in *; lia.
  - cbn [append]. rewrite E in PU |- *. unfold strconv.ParseInt.
    set (c := digitChar ((u / 10 ^ Z.of_nat n) mod 10)) in *.
    assert (Q : Ascii.eqb c "-" = false /\ Ascii.eqb c "+" = false).
    { revert Hd. clear. by_all_bytes c. }
    destruct Q as [Q1 Q2]. rewrite Q1, Q2. cbn [orb negb andb]. rewrite PU.
    assert (C : (2 ^ 63 <=? u) = false) by (unfold u in *; lia). rewrite C.
    f_equal. rewrite int64_small; unfold u in *; lia.
Qed.

(** What %d prints is an integer literal of JSON. *)
Lemma FormatInt_integer_literal :
  forall v, - 2 ^ 63 <= v < 2 ^ 63 ->
            isIntegerLiteral (strconv.FormatInt v) = true.
Proof.
  intros v H. destruct (Z.eq_dec v 0) as [-> | Nz]; [ reflexivity | ].
  unfold strconv.FormatInt. set (u := Z.abs v).
  assert (Hu : 0 < u <= 2 ^ 63) by (unfold u; lia).
  assert (Hu64 : 0 <= u <= 2 ^ 64).
  { change (2 ^ 63) with 9223372036854775808 in Hu.
    change (2 ^ 64) with 18446744073709551616. lia. }
  pose proof (ndigits_upper u Hu64) as Hup.
  pose proof (ndigits_loop_lower 19 u (proj1 Hu)) as Hlo.
  fold (strconv.ndigits u) in Hlo.
  destruct (ndigits_positive u) as [n En]. rewrite En in *.
  replace (Z.of_nat (S n) - 1) with (Z.of_nat n) in Hlo by lia.
  rewrite pow10_succ in Hup. pose proof (pow10_pos n) as Pn.
  destruct (decimal_head n u) as (r & E & Hr). rewrite E.
  set (h := u / 10 ^ Z.of_nat n).
  assert (Hh : 1 <= h < 10).
  { unfold h. split.
    - apply Z.div_le_lower_bound; lia.
    - apply Z.div_lt_upper_bound; lia. }
  fold h. rewrite (Z.mod_small h 10) by lia.
  destruct (digitChar_spec h ltac:(lia)) as (D1 & _ & D3).
  set (c := digitChar h) in *. clearbody c.
  assert (Q : Ascii.eqb c "-" = false /\ Ascii.eqb c "0" = false
              /\ (49 <=? byteZ c) && (byteZ c <=? 57) = true).
  { repeat split.
    - revert D1. clear. by_all_bytes c.
    - apply Ascii.eqb_neq. intros Ec. rewrite Ec in D3.
      change (byteZ "0"%char) with 48 in D3. lia.
    - apply andb_true_intro. split; lia. }
  destruct Q as (Q1 & Q2 & Q3).
  assert (Sk : json.skipDigits r = "") by now apply digits_skipDigits_empty.
  assert (V : json.isValidNumber (String c r) = true).
  { unfold json.isValidNumber. rewrite Q1, Q2, Q3, Sk. reflexivity. }
  destruct (v <? 0); cbn [append].
  - unfold isIntegerLiteral.
    assert (V' : json.isValidNumber (String "-" (String c r)) = true).
    { unfold json.isValidNumber. change (Ascii.eqb "-" "-") with true. cbv iota.
      rewrite Q2, Q3, Sk. reflexivity. }
    rewrite V'. change (Ascii.eqb "-" "-") with true. cbn [json.skipDigits andb].
    now rewrite D1, Sk.
  - unfold isIntegerLiteral. rewrite V, Q1. cbn [json.skipDigits andb].
    now rewrite D1, Sk.
Qed.

Lemma integer_literal_valid :
  forall s, isIntegerLiteral s = true -> json.isValidNumber s = true.
Proof. intros s H. unfold isIntegerLiteral in H. now apply andb_prop in H as [A _]. Qed.

(** Int: the round trip through MarshalJSON and UnmarshalJSON. *)
Lemma Int_round_trip :
  forall (i y : params_Int) (v : Z),
    - 2 ^ 63 <= v < 2 ^ 63 ->
    Int_UnmarshalJSON y (fst (Int_MarshalJSON (Int_Set i v))) = (mkInt v true, None).
Proof.
  intros i y v H. unfold Int_MarshalJSON, Int_Set, Int_Get. cbn [Int_Present Int_Value negb fst].
  rewrite Int_decode_number
    by (apply integer_literal_valid, FormatInt_integer_literal; exact H).
  unfold json.Number_Int64. now rewrite ParseInt_FormatInt.
Qed.

(** ** Bytes and bit operations *)

Lemma byteZ_range : forall c, 0 <= byteZ c < 256.
Proof.
  intros c. unfold byteZ. pose proof (N_ascii_bounded c). lia.
Qed.

Lemma byte_of_Z_byteZ : forall c, byte_of_Z (byteZ c) = c.
Proof.
  intros c. unfold byte_of_Z, byteZ. rewrite N2Z.id. apply ascii_N_embedding.
Qed.

Lemma land_mul_pow2_low :
  forall a b n, 0 <= n -> 0 <= b < 2 ^ n -> Z.land (a * 2 ^ n) b = 0.
Proof.
  intros a b n Hn Hb. rewrite <- Z.shiftl_mul_pow2 by assumption.
  apply Z.bits_inj'. intros i Hi.
  rewrite Z.land_spec, Z.bits_0.
  destruct (Z.lt_ge_cases i n) as [L | G].
  - now rewrite Z.shiftl_spec_low.
  - destruct (Z.eq_dec b 0) as [-> | Nz].
    + rewrite Z.bits_0. apply andb_false_r.
    + rewrite (Z.bits_above_log2 b i); [ apply andb_false_r | lia | ].
      apply Z.log2_lt_pow2; try lia.
      apply Z.lt_le_trans with (2 ^ n); [ lia | apply Z.pow_le_mono_r; lia ].
Qed.

(** Or-ing bits below a multiple of a power of two adds them. *)
Lemma lor_disjoint_add :
  forall x b a n, x = a * 2 ^ n -> 0 <= n -> 0 <= b < 2 ^ n -> Z.lor x b = x + b.
Proof.
  intros x b a n -> Hn Hb. pose proof (Z.add_lor_land (a * 2 ^ n) b) as H.
  rewrite land_mul_pow2_low in H by assumption. lia.
Qed.

Ltac pow2_consts :=
  change (2 ^ 3) with 8 in *; change (2 ^ 4) with 16 in *;
  change (2 ^ 5) with 32 in *; change (2 ^ 6) with 64 in *;
  change (2 ^ 12) with 4096 in *; change (2 ^ 18) with 262144 in *.

Ltac divmod := pow2_consts; Z.div_mod_to_equations; lia.

(** ** UTF-8: encoding what was decoded *)

Lemma decoded2 :
  forall p0 b1,
    194 <= p0 <= 223 -> 128 <= b1 <= 191 ->
    Z.lor (Z.shiftl (Z.land p0 31) 6) (Z.land b1 63)
    = (p0 - 192) * 64 + (b1 - 128).
Proof.
  intros p0 b1 H0 H1.
  change 31 with (Z.ones 5). change 63 with (Z.ones 6).
  rewrite !Z.land_ones by lia.
  assert (E0 : p0 mod 2 ^ 5 = p0 - 192) by divmod.
  assert (E1 : b1 mod 2 ^ 6 = b1 - 128) by divmod.
  rewrite E0, E1, Z.shiftl_mul_pow2 by lia.
  rewrite (lor_disjoint_add _ (b1 - 128) (p0 - 192) 6); pow2_consts; lia.
Qed.

Lemma decoded3 :
  forall p0 b1 b2,
    224 <= p0 <= 239 -> 128 <= b1 <= 191 -> 128 <= b2 <= 191 ->
    Z.lor (Z.lor (Z.shiftl (Z.land p0 15) 12) (Z.shiftl (Z.land b1 63) 6))
          (Z.land b2 63)
    = (p0 - 224) * 4096 + (b1 - 128) * 64 + (b2 - 128).
Proof.
  intros p0 b1 b2 H0 H1 H2.
  change 15 with (Z.ones 4). change 63 with (Z.ones 6).
  rewrite !Z.land_ones by lia.
  assert (E0 : p0 mod 2 ^ 4 = p0 - 224) by divmod.
  assert (E1 : b1 mod 2 ^ 6 = b1 - 128) by divmod.
  assert (E2 : b2 mod 2 ^ 6 = b2 - 128) by divmod.
  rewrite E0, E1, E2, !Z.shiftl_mul_pow2 by lia.
  rewrite (lor_disjoint_add _ ((b1 - 128) * 2 ^ 6) (p0 - 224) 12)
    by (pow2_consts; lia).
  rewrite (lor_disjoint_add _ (b2 - 128) ((p0 - 224) * 64 + (b1 - 128)) 6);
    pow2_consts; lia.
Qed.

Lemma decoded4 :
  forall p0 b1 b2 b3,
    240 <= p0 <= 244 -> 128 <= b1 <= 191 -> 128 <= b2 <= 191 ->
    128 <= b3 <= 191 ->
    Z.lor (Z.lor (Z.lor (Z.shiftl (Z.land p0 7) 18) (Z.shiftl (Z.land b1 63) 12))
                 (Z.shiftl (Z.land b2 63) 6))
          (Z.land b3 63)
    = (p0 - 240) * 262144 + (b1 - 128) * 4096 + (b2 - 128) * 64 + (b3 - 128).
Proof.
  intros p0 b1 b2 b3 H0 H1 H2 H3.
  change 7 with (Z.ones 3). change 63 with (Z.ones 6).
  rewrite !Z.land_ones by lia.
  assert (E0 : p0 mod 2 ^ 3 = p0 - 240) by divmod.
  assert (E1 : b1 mod 2 ^ 6 = b1 - 128) by divmod.
  assert (E2 : b2 mod 2 ^ 6 = b2 - 128) by divmod.
  assert (E3 : b3 mod 2 ^ 6 = b3 - 128) by divmod.
  rewrite E0, E1, E2, E3, !Z.shiftl_mul_pow2 by lia.
  rewrite (lor_disjoint_add _ ((b1 - 128) * 2 ^ 12) (p0 - 240) 18)
    by (pow2_consts; lia).
  rewrite (lor_disjoint_add _ ((b2 - 128) * 2 ^ 6)
             ((p0 - 240) * 64 + (b1 - 128)) 12) by (pow2_consts; lia).
  rewrite (lor_disjoint_add _ (b3 - 128)
             ((p0 - 240) * 4096 + (b1 - 128) * 64 + (b2 - 128)) 6);
    pow2_consts; lia.
Qed.

(** The continuation byte that holds the six bits of [r] from bit [k]. *)
Lemma cont_byte :
  forall r k, 0 <= r -> 0 <= k ->
              Z.lor 128 (Z.land (Z.shiftr r k) 63) = 128 + (r / 2 ^ k) mod 64.
Proof.
  intros r k Hr Hk. rewrite Z.shiftr_div_pow2 by lia.
  change 63 with (Z.ones 6). rewrite Z.land_ones by lia.
  apply (lor_disjoint_add 128 _ 2 6); [ reflexivity | lia | ].
  apply Z.mod_pos_bound. lia.
Qed.

Lemma cont_byte0 :
  forall r, 0 <= r -> Z.lor 128 (Z.land r 63) = 128 + r mod 64.
Proof.
  intros r Hr. change 63 with (Z.ones 6). rewrite Z.land_ones by lia.
  apply (lor_disjoint_add 128 _ 2 6); [ reflexivity | lia | ].
  apply Z.mod_pos_bound. lia.
Qed.

Lemma lead_byte :
  forall lead a n r k,
    lead = a * 2 ^ n -> 0 <= n -> 0 <= k -> 0 <= r < 2 ^ (n + k) ->
    Z.lor lead (Z.shiftr r k) = lead + r / 2 ^ k.
Proof.
  intros lead a n r k E Hn Hk Hr. rewrite Z.shiftr_div_pow2 by lia.
  apply (lor_disjoint_add lead _ a n E Hn). split.
  - apply Z.div_pos; [ lia | apply Z.pow_pos_nonneg; lia ].
  - apply Z.div_lt_upper_bound; [ apply Z.pow_pos_nonneg; lia | ].
    rewrite <- Z.pow_add_r by lia. now rewrite Z.add_comm.
Qed.

Lemma EncodeRune_decoded2 :
  forall p0 b1,
    194 <= p0 <= 223 -> 128 <= b1 <= 191 ->
    utf8.EncodeRune (Z.lor (Z.shiftl (Z.land p0 31) 6) (Z.land b1 63))
    = String (byte_of_Z p0) (String (byte_of_Z b1) "").
Proof.
  intros p0 b1 H0 H1. rewrite (decoded2 p0 b1 H0 H1).
  set (r := (p0 - 192) * 64 + (b1 - 128)).
  assert (Hr : 128 <= r <= 2047) by (unfold r; lia).
  unfold utf8.EncodeRune.
  assert (C1 : (0 <=? r) && (r <=? 127) = false) by lia.
  assert (C2 : (0 <=? r) && (r <=? 2047) = true) by lia.
  rewrite C1, C2.
  rewrite (lead_byte 192 3 6 r 6) by (pow2_consts; try reflexivity; lia).
  rewrite cont_byte0 by lia.
  f_equal; [ | f_equal ]; f_equal; unfold r; divmod.
Qed.

Lemma enc3_bytes :
  forall r p0 b1 b2,
    224 <= p0 <= 239 -> 128 <= b1 <= 191 -> 128 <= b2 <= 191 ->
    r = (p0 - 224) * 4096 + (b1 - 128) * 64 + (b2 - 128) ->
    utf8.enc3 r = String (byte_of_Z p0) (String (byte_of_Z b1) (String (byte_of_Z b2) "")).
Proof.
  intros r p0 b1 b2 H0 H1 H2 E. unfold utf8.enc3.
  rewrite (lead_byte 224 14 4 r 12) by (pow2_consts; try reflexivity; lia).
  rewrite cont_byte, cont_byte0 by lia.
  f_equal; [ | f_equal; [ | f_equal ] ]; f_equal; divmod.
Qed.

Lemma EncodeRune_decoded3 :
  forall p0 b1 b2,
    224 <= p0 <= 239 -> 128 <= b1 <= 191 -> 128 <= b2 <= 191 ->
    (p0 = 224 -> 160 <= b1) -> (p0 = 237 -> b1 <= 159) ->
    utf8.EncodeRune
      (Z.lor (Z.lor (Z.shiftl (Z.land p0 15) 12) (Z.shiftl (Z.land b1 63) 6))
             (Z.land b2 63))
    = String (byte_of_Z p0) (String (byte_of_Z b1) (String (byte_of_Z b2) "")).
Proof.
  intros p0 b1 b2 H0 H1 H2 Hlo Hhi. rewrite (decoded3 p0 b1 b2 H0 H1 H2).
  set (r := (p0 - 224) * 4096 + (b1 - 128) * 64 + (b2 - 128)).
  assert (Hr : 2048 <= r <= 65535 /\ (r < 55296 \/ 57343 < r)) by (unfold r; lia).
  unfold utf8.EncodeRune, utf8.MaxRune.
  assert (C1 : (0 <=? r) && (r <=? 127) = false) by lia.
  assert (C2 : (0 <=? r) && (r <=? 2047) = false) by lia.
  assert (C3 : (r <? 0) || (1114111 <? r) || ((55296 <=? r) && (r <=? 57343)) = false)
    by lia.
  assert (C4 : (r <=? 65535) = true) by lia.
  rewrite C1, C2, C3, C4. now apply enc3_bytes.
Qed.

Lemma EncodeRune_decoded4 :
  forall p0 b1 b2 b3,
    240 <= p0 <= 244 -> 128 <= b1 <= 191 -> 128 <= b2 <= 191 ->
    128 <= b3 <= 191 ->
    (p0 = 240 -> 144 <= b1) -> (p0 = 244 -> b1 <= 143) ->
    utf8.EncodeRune
      (Z.lor (Z.lor (Z.lor (Z.shiftl (Z.land p0 7) 18) (Z.shiftl (Z.land b1 63) 12))
                    (Z.shiftl (Z.land b2 63) 6))
             (Z.land b3 63))
    = String (byte_of_Z p0)
        (String (byte_of_Z b1) (String (byte_of_Z b2) (String (byte_of_Z b3) ""))).
Proof.
  intros p0 b1 b2 b3 H0 H1 H2 H3 Hlo Hhi.
  rewrite (decoded4 p0 b1 b2 b3 H0 H1 H2 H3).
  set (r := (p0 - 240) * 262144 + (b1 - 128) * 4096 + (b2 - 128) * 64 + (b3 - 128)).
  assert (Hr : 65536 <= r <= 1114111) by (unfold r; lia).
  unfold utf8.EncodeRune, utf8.MaxRune.
  assert (C1 : (0 <=? r) && (r <=? 127) = false) by lia.
  assert (C2 : (0 <=? r) && (r <=? 2047) = false) by lia.
  assert (C3 : (r <? 0) || (1114111 <? r) || ((55296 <=? r) && (r <=? 57343)) = false)
    by lia.
  assert (C4 : (r <=? 65535) = false) by lia.
  rewrite C1, C2, C3, C4.
  rewrite (lead_byte 240 30 3 r 18)
    by (pow2_consts; try reflexivity; change (2 ^ (3 + 18)) with 2097152; lia).
  rewrite !cont_byte, cont_byte0 by lia.
  f_equal; [ | f_equal; [ | f_equal; [ | f_equal ] ] ]; f_equal; unfold r; divmod.
Qed.

Lemma take_append :
  forall cs rest, utf8.take (len cs) (cs ++ rest) = cs.
Proof.
  induction cs as [ | c cs IH]; intros rest.
  - destruct rest; reflexivity.
  - unfold len in *. cbn [String.length utf8.take append]. now rewrite IH.
Qed.

Lemma drop_append :
  forall cs rest, utf8.drop (len cs) (cs ++ rest) = rest.
Proof.
  induction cs as [ | c cs IH]; intros rest.
  - destruct rest; reflexivity.
  - unfold len in *. cbn [String.length utf8.drop append]. now rewrite IH.
Qed.

Lemma first_spec :
  forall p0 sz lo hi,
    utf8.first p0 = Some (sz, lo, hi) ->
    (sz = 2 /\ 194 <= p0 <= 223 /\ lo = 128 /\ hi = 191)
    \/ (sz = 3 /\ 224 <= p0 <= 239 /\ 128 <= lo /\ hi <= 191
        /\ (p0 = 224 -> lo = 160) /\ (p0 = 237 -> hi = 159))
    \/ (sz = 4 /\ 240 <= p0 <= 244 /\ 128 <= lo /\ hi <= 191
        /\ (p0 = 240 -> lo = 144) /\ (p0 = 244 -> hi = 143)).
Proof.
  intros p0 sz lo hi. unfold utf8.first.
  repeat split_if; intros H; inversion H; subst;
    first [ left; lia | right; left; lia | right; right; lia ].
Qed.

(** A leading byte above ASCII either starts no rune, or starts a rune of
    two to four bytes that [EncodeRune] writes back as it was read. *)
Lemma DecodeRune_nonascii :
  forall c0 r0,
    128 <= byteZ c0 ->
    utf8.DecodeRune (String c0 r0) = (utf8.RuneError, 1%nat)
    \/ exists cs rest r,
         String c0 r0 = (cs ++ rest)%string
         /\ (2 <= len cs)%nat
         /\ (forall rest', utf8.DecodeRune (cs ++ rest') = (r, len cs))
         /\ utf8.EncodeRune r = cs
         /\ (exists t, cs = String c0 t).
Proof.
  intros c0 r0 Hp.
  assert (HP : (byteZ c0 <? utf8.RuneSelf) = false) by (unfold utf8.RuneSelf; lia).
  unfold utf8.DecodeRune at 1. rewrite HP.
  destruct (utf8.first (byteZ c0)) as [[[sz lo] hi] | ] eqn:F; [ | now left ].
  destruct r0 as [ | c1 r1]; [ now left | ].
  destruct ((byteZ c1 <? lo) || (hi <? byteZ c1)) eqn:E1; [ now left | ].
  apply orb_false_elim in E1 as [E1a E1b].
  pose proof (first_spec _ _ _ _ F) as S.
  destruct (sz <=? 2) eqn:E2.
  { right. exists (String c0 (String c1 "")), r1. eexists.
    destruct S as [S | [S | S]]; [ | lia | lia ].
    split; [ reflexivity | ]. split; [ unfold len; simpl; lia | ].
    split; [ | split; [ | eexists; reflexivity ] ].
    - intros rest'. unfold utf8.DecodeRune. cbn [append].
      rewrite HP, F. replace ((byteZ c1 <? lo) || (hi <? byteZ c1)) with false by lia.
      rewrite E2. reflexivity.
    - rewrite EncodeRune_decoded2 by lia. now rewrite !byte_of_Z_byteZ. }
  destruct r1 as [ | c2 r2]; [ now left | ].
  destruct (utf8.cont (byteZ c2)) eqn:E3; [ | now left ].
  cbn [negb].
  assert (B2 : 128 <= byteZ c2 <= 191) by (unfold utf8.cont in E3; lia).
  destruct (sz <=? 3) eqn:E4.
  { right. exists (String c0 (String c1 (String c2 ""))), r2. eexists.
    destruct S as [S | [S | S]]; [ lia | | lia ].
    split; [ reflexivity | ]. split; [ unfold len; simpl; lia | ].
    split; [ | split; [ | eexists; reflexivity ] ].
    - intros rest'. unfold utf8.DecodeRune. cbn [append].
      rewrite HP, F. replace ((byteZ c1 <? lo) || (hi <? byteZ c1)) with false by lia.
      rewrite E2, E3, E4. reflexivity.
    - rewrite EncodeRune_decoded3 by lia. now rewrite !byte_of_Z_byteZ. }
  destruct r2 as [ | c3 r3]; [ now left | ].
  destruct (utf8.cont (byteZ c3)) eqn:E5; [ | now left ].
  cbn [negb].
  assert (B3 : 128 <= byteZ c3 <= 191) by (unfold utf8.cont in E5; lia).
  right. exists (String c0 (String c1 (String c2 (String c3 "")))), r3. eexists.
  destruct S as [S | [S | S]]; [ lia | lia | ].
  split; [ reflexivity | ]. split; [ unfold len; simpl; lia | ].
  split; [ | split; [ | eexists; reflexivity ] ].
  - intros rest'. unfold utf8.DecodeRune. cbn [append].
    rewrite HP, F. replace ((byteZ c1 <? lo) || (hi <? byteZ c1)) with false by lia.
    rewrite E2, E3, E4, E5. reflexivity.
  - rewrite EncodeRune_decoded4 by lia. now rewrite !byte_of_Z_byteZ.
Qed.

(** ** String literals: reading what appendString wrote *)

Lemma htmlSafe_plain :
  forall c, byteZ c < 128 -> json.htmlSafe (byteZ c) = true -> plainChar c = true.
Proof.
  intros c H. assert (H' : (byteZ c <? 128) = true) by lia. clear H.
  revert H'. by_all_bytes c.
Qed.

Lemma unquote_escape_step :
  forall c f rest,
    (byteZ c <? 128) = true -> json.htmlSafe (byteZ c) = false ->
    json.unquote (S f) (json.escapeByte c ++ rest)
    = json.cons_fst c (json.unquote f rest).
Proof.
  intros c f rest H1 H2.
  destruct c as [[ | ] [ | ] [ | ] [ | ] [ | ] [ | ] [ | ] [ | ]];
    try (vm_compute in H1; discriminate);
    try (vm_compute in H2; discriminate);
    reflexivity.
Qed.

Lemma unquote_fffd_step :
  forall f rest,
    json.unquote (S f) (String bslash "ufffd" ++ rest)
    = json.app_fst (utf8.EncodeRune utf8.RuneError) (json.unquote f rest).
Proof. intros f rest. reflexivity. Qed.

Lemma unquote_u202x_step :
  forall rn f rest,
    rn = 8232 \/ rn = 8233 ->
    json.unquote (S f)
      (String bslash
         (String "u" (String "2" (String "0" (String "2"
            (String (json.hex (Z.land rn 15)) rest))))))
    = json.app_fst (utf8.EncodeRune rn) (json.unquote f rest).
Proof. intros rn f rest [-> | ->]; reflexivity. Qed.

Lemma nonascii_byte :
  forall c, 128 <= byteZ c ->
            Ascii.eqb c dq = false /\ Ascii.eqb c bslash = false
            /\ (byteZ c <? 32) = false /\ (byteZ c <? utf8.RuneSelf) = false.
Proof.
  intros c H. assert (H' : (128 <=? byteZ c) = true) by lia. clear H.
  revert H'. by_all_bytes c.
Qed.

Lemma unquote_rune_step :
  forall c0 y f,
    128 <= byteZ c0 ->
    json.unquote (S f) (String c0 y)
    = (let (rr, size) := utf8.DecodeRune (String c0 y) in
       json.app_fst (utf8.EncodeRune rr)
         (json.unquote f (utf8.drop size (String c0 y)))).
Proof.
  intros c0 y f H. destruct (nonascii_byte c0 H) as (E1 & E2 & E3 & E4).
  cbn [json.unquote]. now rewrite E1, E2, E3, E4.
Qed.

Lemma ascii_DecodeRune :
  forall c r, byteZ c < 128 -> utf8.DecodeRune (String c r) = (byteZ c, 1%nat).
Proof.
  intros c r H. unfold utf8.DecodeRune.
  replace (byteZ c <? utf8.RuneSelf) with true by (unfold utf8.RuneSelf; lia).
  reflexivity.
Qed.

Lemma valid_loop_ascii :
  forall fv c r,
    byteZ c < 128 -> utf8.valid_loop (S fv) (String c r) = utf8.valid_loop fv r.
Proof.
  intros fv c r H. cbn [utf8.valid_loop]. rewrite (ascii_DecodeRune c r H).
  replace (byteZ c =? utf8.RuneError) with false by (unfold utf8.RuneError; lia).
  reflexivity.
Qed.

Lemma escapeByte_len : forall c, (1 <= len (json.escapeByte c))%nat.
Proof.
  intros c. unfold json.escapeByte. repeat split_if; unfold len; simpl; lia.
Qed.

(** The text between the quotes that [appendString] writes is read back by
    the scanner, and for input in UTF-8 it is read back as it was. *)
Lemma unquote_appendString_loop :
  forall n s fe fd rest,
    (len s <= n)%nat -> (len s <= fe)%nat ->
    (len (json.appendString_loop fe s) < fd)%nat ->
    exists t,
      json.unquote fd (json.appendString_loop fe s ++ String dq rest) = Some (t, rest)
      /\ (forall fv, (len s <= fv)%nat -> utf8.valid_loop fv s = true -> t = s).
Proof.
  induction n as [ | n IH]; intros s fe fd rest Hn Hfe Hfd.
  - destruct s as [ | c r]; [ | unfold len in Hn; simpl in Hn; lia ].
    destruct fd as [ | fd]; [ lia | ].
    exists "". destruct fe; split; reflexivity || (intros; reflexivity).
  - destruct s as [ | c r].
    { destruct fd as [ | fd]; [ lia | ].
      exists "". destruct fe; split; reflexivity || (intros; reflexivity). }
    assert (Lr : len (String c r) = S (len r)) by reflexivity.
    destruct fe as [ | fe]; [ lia | ]. destruct fd as [ | fd]; [ lia | ].
    cbn [json.appendString_loop] in Hfd |- *.
    destruct (byteZ c <? utf8.RuneSelf) eqn:Ea.
    + (* an ASCII byte *)
      assert (Ha : byteZ c < 128) by (unfold utf8.RuneSelf in Ea; lia).
      assert (Hfd' : (len (json.appendString_loop fe r) < fd)%nat).
      { destruct (json.htmlSafe (byteZ c)).
        - change (len (String c (json.appendString_loop fe r)))
            with (S (len (json.appendString_loop fe r))) in Hfd. lia.
        - rewrite len_append in Hfd. pose proof (escapeByte_len c). lia. }
      destruct (IH r fe fd rest ltac:(lia) ltac:(lia) Hfd') as (t & Ht & Hv).
      exists (String c t). split.
      * destruct (json.htmlSafe (byteZ c)) eqn:Es.
        -- cbn [append].
           rewrite (unquote_plain_step c fd _ (htmlSafe_plain c Ha Es)), Ht.
           reflexivity.
        -- rewrite append_assoc, unquote_escape_step, Ht;
             [ reflexivity | unfold utf8.RuneSelf in Ea; exact Ea | exact Es ].
      * intros fv Lv V. destruct fv as [ | fv]; [ lia | ].
        rewrite (valid_loop_ascii fv c r Ha) in V.
        f_equal. apply (Hv fv); [ lia | exact V ].
    + (* a byte above ASCII *)
      assert (Ha : 128 <= byteZ c) by (unfold utf8.RuneSelf in Ea; lia).
      destruct (DecodeRune_nonascii c r Ha) as [E | (cs & rs & rn & Es & Lcs & Dall & Enc & (t0 & Ecs))].
      * (* no rune: the replacement character is written *)
        rewrite E in Hfd |- *.
        change ((utf8.RuneError =? utf8.RuneError) && (1 =? 1)%nat) with true in Hfd |- *.
        cbv iota in Hfd |- *.
        rewrite len_append in Hfd.
        change (len (String bslash "ufffd")) with 6%nat in Hfd.
        destruct (IH r fe fd rest ltac:(lia) ltac:(lia) ltac:(lia)) as (t & Ht & _).
        exists (utf8.EncodeRune utf8.RuneError ++ t)%string. split.
        -- rewrite append_assoc, unquote_fffd_step, Ht. reflexivity.
        -- intros fv Lv V. destruct fv as [ | fv]; [ lia | ].
           cbn [utf8.valid_loop] in V. rewrite E in V.
           change ((utf8.RuneError =? utf8.RuneError) && (1 =? 1)%nat) with true in V.
           discriminate.
      * (* a rune of two to four bytes *)
        rewrite Ecs in Es, Lcs, Dall, Enc. clear cs Ecs.
        rewrite Es in Hfd |- *. rewrite (Dall rs) in Hfd |- *.
        assert (Sz : (len (String c t0) =? 1)%nat = false)
          by (apply Nat.eqb_neq; lia).
        rewrite Sz, andb_false_r in Hfd |- *.
        rewrite take_append, drop_append in Hfd |- *.
        assert (Lrs : len (String c r) = (len (String c t0) + len rs)%nat)
          by (rewrite Es; apply len_append).
        assert (Hfd' : (len (json.appendString_loop fe rs) < fd)%nat).
        { destruct ((rn =? 8232) || (rn =? 8233)).
          - rewrite len_append in Hfd.
            change (len (String (json.hex (Z.land rn 15)) (json.appendString_loop fe rs)))
              with (S (len (json.appendString_loop fe rs))) in Hfd. lia.
          - rewrite len_append in Hfd. lia. }
        destruct (IH rs fe fd rest ltac:(lia) ltac:(lia) Hfd') as (t & Ht & Hv).
        exists (String c t0 ++ t)%string. split.
        -- destruct ((rn =? 8232) || (rn =? 8233)) eqn:Eu.
           ++ rewrite append_assoc. cbn [append].
              rewrite unquote_u202x_step by lia. rewrite Enc, Ht. reflexivity.
           ++ rewrite append_assoc. cbn [append].
              rewrite unquote_rune_step by exact Ha.
              change (String c (t0 ++ json.appendString_loop fe rs ++ String dq rest))%string
                with (String c t0 ++ (json.appendString_loop fe rs ++ String dq rest))%string.
              rewrite (Dall _), drop_append, Enc, Ht. reflexivity.
        -- intros fv Lv V. rewrite len_append in Lv.
           destruct fv as [ | fv]; [ lia | ].
           cbn [utf8.valid_loop append] in V.
           change (String c (t0 ++ rs))%string with (String c t0 ++ rs)%string in V.
           rewrite (Dall rs), Sz, andb_false_r, drop_append in V.
           f_equal. apply (Hv fv); [ lia | exact V ].
Qed.

(** What [json.Marshal] writes for a string is a string literal, which
    [json.Unmarshal] reads back, for a string in UTF-8 as it was. *)
Lemma scan_appendString :
  forall s,
    exists t,
      json.scan (json.appendString s) = Some (json.ItemString t)
      /\ isStringLiteral (json.appendString s) = true
      /\ (utf8.ValidString s = true -> t = s).
Proof.
  intros s.
  destruct (unquote_appendString_loop (len s) s (len s)
              (S (len (json.appendString_loop (len s) s ++ String dq ""))) ""
              (le_n _) (le_n _)) as (t & Ht & Hv).
  { rewrite len_append. lia. }
  exists t. unfold json.scan, isStringLiteral, json.appendString, string_of_bytes.
  cbn [json.skipSpace]. change (json.isSpace dq) with false. cbv iota.
  change (Ascii.eqb dq dq) with true. cbv iota. rewrite Ht.
  repeat split. intros V. apply (Hv (len s)); [ lia | exact V ].
Qed.

(** String: the round trip through MarshalJSON and UnmarshalJSON. *)
Lemma String_round_trip :
  forall (x y : params_String) (v : string),
    utf8.ValidString v = true ->
    String_UnmarshalJSON y (fst (String_MarshalJSON (String_Set x v)))
    = (mkString v true, None).
Proof.
  intros x y v V. unfold String_MarshalJSON, String_Set, String_Value, json.Marshal_string.
  cbn [String_present String_value negb fst].
  destruct (scan_appendString v) as (t & Hs & _ & Ht).
  unfold String_UnmarshalJSON, json.Unmarshal_string. rewrite Hs, (Ht V).
  reflexivity.
Qed.

(** ** Time: fields of fixed width *)

Lemma ndigits_le :
  forall (w : nat) u,
    (1 <= w)%nat -> 0 <= u < 10 ^ Z.of_nat w -> (strconv.ndigits u <= w)%nat.
Proof.
  intros w u Hw Hu. destruct (Z.eq_dec u 0) as [-> | Nz]; [ exact Hw | ].
  pose proof (ndigits_loop_lower 19 u ltac:(lia)) as L.
  fold (strconv.ndigits u) in L.
  destruct (le_lt_dec (strconv.ndigits u) w) as [ | G]; [ assumption | exfalso ].
  assert (P : 10 ^ Z.of_nat w <= 10 ^ (Z.of_nat (strconv.ndigits u) - 1))
    by (apply Z.pow_le_mono_r; lia).
  lia.
Qed.

Lemma appendInt_decimal :
  forall (w : nat) x,
    (1 <= w)%nat -> 0 <= x < 10 ^ Z.of_nat w ->
    time.appendInt x w = strconv.decimal w x.
Proof.
  intros w x Hw Hx. unfold time.appendInt.
  replace (x <? 0) with false by lia. rewrite Z.abs_eq by lia.
  rewrite Nat.max_l by (apply ndigits_le; assumption). reflexivity.
Qed.

Lemma decimal2 :
  forall x, 0 <= x < 100 ->
            strconv.decimal 2 x
            = String (digitChar (x / 10)) (String (digitChar (x mod 10)) "").
Proof.
  intros x H. cbn [strconv.decimal append].
  rewrite (Z.mod_small (x / 10)); [ reflexivity | ].
  split; [ apply Z.div_pos; lia | apply Z.div_lt_upper_bound; lia ].
Qed.

Lemma appendInt2 :
  forall x, 0 <= x < 100 ->
            time.appendInt x 2
            = String (digitChar (x / 10)) (String (digitChar (x mod 10)) "").
Proof.
  intros x H. rewrite appendInt_decimal; [ now apply decimal2 | lia | ].
  change (10 ^ Z.of_nat 2) with 100. exact H.
Qed.

Lemma getnum_appendInt2 :
  forall x rest fixed,
    0 <= x < 100 ->
    time.getnum (time.appendInt x 2 ++ rest) fixed = Some (x, rest).
Proof.
  intros x rest fixed H. rewrite (appendInt2 x H). cbn [append time.getnum].
  assert (Hq : 0 <= x / 10 < 10)
    by (split; [ apply Z.div_pos; lia | apply Z.div_lt_upper_bound; lia ]).
  destruct (digitChar_spec _ Hq) as (A1 & A2 & _).
  destruct (digitChar_spec _ (mod10_bound x)) as (B1 & B2 & _).
  rewrite A1, A2, B1, B2. cbn [negb].
  do 2 f_equal. pose proof (Z.div_mod x 10 ltac:(lia)). lia.
Qed.

Lemma leadingInt_decimal :
  forall k m rest a,
    0 <= a -> 0 <= m < 10 ^ Z.of_nat k ->
    a * 10 ^ Z.of_nat k + m <= 2 ^ 63 ->
    time.leadingInt_loop (strconv.decimal k m ++ rest) a
    = time.leadingInt_loop rest (a * 10 ^ Z.of_nat k + m).
Proof.
  induction k as [ | k IH]; intros m rest a Ha Hm Hmax.
  - change (10 ^ Z.of_nat 0) with 1 in *. cbn [strconv.decimal append].
    f_equal. lia.
  - rewrite pow10_succ in *. pose proof (pow10_pos k) as Pk.
    pose proof (Z.div_mod m 10 ltac:(lia)) as Dm. pose proof (mod10_bound m) as Bm.
    cbn [strconv.decimal]. rewrite append_assoc. cbn [append].
    assert (Hq : 0 <= m / 10 < 10 ^ Z.of_nat k).
    { split; [ apply Z.div_pos; lia | apply Z.div_lt_upper_bound; lia ]. }
    rewrite (IH (m / 10) _ a Ha Hq) by nia.
    cbn [time.leadingInt_loop].
    destruct (digitChar_spec _ Bm) as (D1 & D2 & _). rewrite D1, D2. cbn [negb].
    set (n := a * 10 ^ Z.of_nat k + m / 10).
    assert (Hn : n * 10 + m mod 10 = a * (10 * 10 ^ Z.of_nat k) + m) by (unfold n; lia).
    change (2 ^ 63) with 9223372036854775808 in *.
    change (9223372036854775808 / 10) with 922337203685477580.
    assert (Hn0 : 0 <= n) by (unfold n; nia).
    replace (922337203685477580 <? n) with false by lia.
    replace (9223372036854775808 <? n * 10 + m mod 10) with false by lia.
    now rewrite Hn.
Qed.

Lemma atoi_decimal :
  forall k m,
    0 <= m < 10 ^ Z.of_nat (S k) -> 10 ^ Z.of_nat (S k) <= 2 ^ 63 ->
    time.atoi (strconv.decimal (S k) m) = Some m.
Proof.
  intros k m Hm Hmax. unfold time.atoi, time.leadingInt.
  destruct (decimal_head k m) as (r & E & _).
  assert (Hd : isDigit (digitChar ((m / 10 ^ Z.of_nat k) mod 10)) = true)
    by apply (digitChar_spec _ (mod10_bound _)).
  set (c := digitChar ((m / 10 ^ Z.of_nat k) mod 10)) in *. clearbody c.
  assert (Q : Ascii.eqb c "-" = false /\ Ascii.eqb c "+" = false)
    by (revert Hd; clear; by_all_bytes c).
  destruct Q as [Q1 Q2]. rewrite E, Q1, Q2. cbn [orb]. rewrite <- E.
  rewrite <- (append_nil_r (strconv.decimal (S k) m)).
  rewrite leadingInt_decimal by lia.
  cbn [time.leadingInt_loop]. f_equal; lia.
Qed.

Lemma isDigit_not_quote : forall c, isDigit c = true -> Ascii.eqb c dq = false.
Proof. intros c; by_all_bytes c. Qed.

(** ** Time: the fraction of a second *)

Lemma TrimRight_snoc :
  forall cut x d,
    strings.TrimRight (x ++ String d "") cut
    = if strings.inCutset cut d then strings.TrimRight x cut
      else (x ++ String d "")%string.
Proof.
  intros cut. induction x as [ | c x IH]; intros d.
  - cbn [append strings.TrimRight]. destruct (strings.inCutset cut d); reflexivity.
  - cbn [append strings.TrimRight]. rewrite IH.
    destruct (strings.inCutset cut d); [ reflexivity | ].
    destruct x; reflexivity.
Qed.

Lemma TrimRight_cons_nonempty :
  forall cut c r a t,
    strings.TrimRight r cut = String a t ->
    strings.TrimRight (String c r) cut = String c (String a t).
Proof. intros cut c r a t H. cbn [strings.TrimRight]. now rewrite H. Qed.

Lemma cutLastSeparator_digit :
  forall x d,
    isDigit d = true ->
    time.cutLastSeparator (x ++ String d "") = (x ++ String d "")%string.
Proof.
  induction x as [ | c x IH]; intros d H.
  - cbn [append time.cutLastSeparator].
    replace (Ascii.eqb d "." || Ascii.eqb d ",") with false
      by (revert H; clear; by_all_bytes d).
    reflexivity.
  - cbn [append]. specialize (IH d H).
    destruct x as [ | c' x]; cbn [append time.cutLastSeparator] in *; now rewrite ?IH.
Qed.

Lemma digitChar_zero :
  forall d, 0 <= d < 10 -> Ascii.eqb "0" (digitChar d) = (d =? 0).
Proof.
  intros d H.
  destruct (digit_cases d H) as [-> | [-> | [-> | [-> | [-> | [-> | [-> | [-> | [-> | ->]]]]]]]]];
    reflexivity.
Qed.

(** Cutting the trailing zeros of a decimal leaves the decimal of the
    number without its factors of ten. *)
Lemma trim_decimal :
  forall w u,
    0 < u < 10 ^ Z.of_nat w ->
    exists k m,
      (k <= w)%nat
      /\ strings.TrimRight (strconv.decimal w u) "0" = strconv.decimal (S k) m
      /\ (S k <= w)%nat
      /\ 0 <= m < 10 ^ Z.of_nat (S k)
      /\ u = m * 10 ^ Z.of_nat (w - S k).
Proof.
  induction w as [ | w IH]; intros u Hu.
  - change (10 ^ Z.of_nat 0) with 1 in Hu. lia.
  - rewrite pow10_succ in Hu. pose proof (pow10_pos w) as Pw.
    pose proof (Z.div_mod u 10 ltac:(lia)) as Du. pose proof (mod10_bound u) as Bu.
    cbn [strconv.decimal]. rewrite TrimRight_snoc.
    cbn [strings.inCutset]. rewrite orb_false_r, (digitChar_zero _ Bu).
    destruct (u mod 10 =? 0) eqn:E0.
    + assert (Hq : 0 < u / 10 < 10 ^ Z.of_nat w).
      { split; [ apply Z.div_str_pos; lia | apply Z.div_lt_upper_bound; lia ]. }
      destruct (IH (u / 10) Hq) as (k & m & Hk & Ht & Hk' & Hm & Hum).
      exists k, m. repeat split; try lia; [ exact Ht | ].
      replace (S w - S k)%nat with (S (w - S k)) by lia.
      rewrite pow10_succ. lia.
    + exists w, u. repeat split; try lia.
      * rewrite pow10_succ. lia.
      * replace (S w - S w)%nat with 0%nat by lia.
        change (10 ^ Z.of_nat 0) with 1. lia.
Qed.

Lemma appendNano_shape :
  forall ns,
    0 < ns < 1000000000 ->
    exists k m,
      (S k <= 9)%nat
      /\ time.appendNano ns = String "." (strconv.decimal (S k) m)
      /\ 0 <= m < 10 ^ Z.of_nat (S k)
      /\ ns = m * 10 ^ Z.of_nat (9 - S k).
Proof.
  intros ns H. unfold time.appendNano.
  replace (ns =? 0) with false by lia.
  rewrite appendInt_decimal by (change (10 ^ Z.of_nat 9) with 1000000000; lia).
  destruct (trim_decimal 9 ns) as (k & m & _ & Ht & Hk & Hm & Hns).
  { change (10 ^ Z.of_nat 9) with 1000000000. lia. }
  exists k, m. repeat split; try assumption; try lia.
  cbn [append].
  destruct (decimal_head k m) as (r & E & _).
  rewrite (TrimRight_cons_nonempty "0" "." _ _ _ (eq_trans Ht E)), <- E.
  change (String "." (strconv.decimal (S k) m))
    with (String "." (strconv.decimal k (m / 10) ++ String (digitChar (m mod 10)) ""))%string.
  change (String "." (strconv.decimal k (m / 10) ++ String (digitChar (m mod 10)) ""))%string
    with (String "." (strconv.decimal k (m / 10)) ++ String (digitChar (m mod 10)) "")%string.
  apply cutLastSeparator_digit, (digitChar_spec _ (mod10_bound m)).
Qed.

Lemma countDigits_digits :
  forall s z zr,
    allChars isDigit s = true -> isDigit z = false ->
    time.countDigits (s ++ String z zr) = len s.
Proof.
  induction s as [ | c s IH]; intros z zr Hs Hz.
  - cbn [append time.countDigits]. now rewrite Hz.
  - cbn [allChars] in Hs. apply andb_prop in Hs as [Hc Hs].
    cbn [append time.countDigits]. rewrite Hc, (IH z zr Hs Hz). reflexivity.
Qed.

(** [parseNanoseconds] reads back what [appendNano] wrote. *)
Lemma parseNanoseconds_appendNano :
  forall ns z zr,
    0 < ns < 1000000000 -> isDigit z = false ->
    exists d r n,
      (time.appendNano ns ++ String z zr)%string = String "." (String d r)
      /\ isDigit d = true
      /\ n = S (time.countDigits (utf8.drop 1 (time.appendNano ns ++ String z zr)))
      /\ time.parseNanoseconds (time.appendNano ns ++ String z zr) n = Some ns
      /\ utf8.drop n (time.appendNano ns ++ String z zr) = String z zr.
Proof.
  intros ns z zr H Hz.
  destruct (appendNano_shape ns H) as (k & m & Hk & -> & Hm & Hns).
  destruct (decimal_head k m) as (r & E & _).
  exists (digitChar ((m / 10 ^ Z.of_nat k) mod 10)), (r ++ String z zr)%string.
  eexists. split; [ cbn [append]; rewrite E; reflexivity | ].
  split; [ apply (digitChar_spec _ (mod10_bound _)) | ].
  split; [ reflexivity | ].
  cbn [append utf8.drop].
  rewrite (countDigits_digits _ z zr (decimal_digits (S k) m) Hz), len_decimal.
  split.
  - unfold time.parseNanoseconds. change (time.commaOrPeriod ".") with true.
    cbn [negb]. rewrite Nat.min_l by lia.
    change (utf8.take (S (S k)) (String "." (strconv.decimal (S k) m ++ String z zr)))
      with (String "." (utf8.take (S k) (strconv.decimal (S k) m ++ String z zr))).
    cbn [utf8.drop].
    rewrite <- (len_decimal (S k) m) at 1. rewrite take_append.
    rewrite atoi_decimal.
    + replace (m <? 0) with false by lia. f_equal.
      replace (10 - S (S k))%nat with (9 - S k)%nat by lia. lia.
    + exact Hm.
    + apply Z.le_trans with (10 ^ Z.of_nat 9).
      * apply Z.pow_le_mono_r; lia.
      * now vm_compute.
  - change (utf8.drop (S (S k)) (String "." (strconv.decimal (S k) m ++ String z zr)))
      with (utf8.drop (S k) (strconv.decimal (S k) m ++ String z zr)).
    rewrite <- (len_decimal (S k) m) at 1. apply drop_append.
Qed.

(** ** Time: reading the RFC 3339 form chunk by chunk *)

Lemma parse_lit :
  forall c rest st,
    Ascii.eqb c " " = false ->
    time.parseStd (time.lit (String c "")) (String c rest) st = Some (st, rest).
Proof.
  intros c rest st H. unfold time.parseStd, time.skip.
  cbn [len String.length time.skip_loop]. rewrite H, Ascii.eqb_refl. reflexivity.
Qed.

Lemma parse_year :
  forall y rest st,
    0 <= y <= 9999 ->
    time.parseStd time.stdLongYear (time.appendInt y 4 ++ rest) st
    = Some (time.mkFields y (time.f_month st) (time.f_day st) (time.f_hour st)
              (time.f_min st) (time.f_sec st) (time.f_nsec st) (time.f_utc st)
              (time.f_zoneOffset st) (time.f_zoneName st), rest).
Proof.
  intros y rest st H.
  assert (Hy : 0 <= y < 10 ^ Z.of_nat 4)
    by (change (10 ^ Z.of_nat 4) with 10000; lia).
  rewrite appendInt_decimal by (lia || exact Hy).
  destruct (decimal_head 3 y) as (r & E & _).
  assert (Hd : isDigit (digitChar ((y / 10 ^ Z.of_nat 3) mod 10)) = true)
    by apply (digitChar_spec _ (mod10_bound _)).
  unfold time.parseStd.
  assert (L : (len (strconv.decimal 4 y ++ rest) <? 4)%nat = false).
  { rewrite len_append, len_decimal. apply Nat.ltb_ge. lia. }
  assert (T : utf8.take 4 (strconv.decimal 4 y ++ rest) = strconv.decimal 4 y).
  { rewrite <- (len_decimal 4 y) at 1. apply take_append. }
  assert (D : utf8.drop 4 (strconv.decimal 4 y ++ rest) = rest).
  { rewrite <- (len_decimal 4 y) at 1. apply drop_append. }
  rewrite L, T, D. rewrite E at 1. cbn [append]. rewrite Hd. cbn [negb orb].
  rewrite atoi_decimal; [ reflexivity | exact Hy | now vm_compute ].
Qed.

Lemma parse_month :
  forall m rest st,
    1 <= m <= 12 ->
    time.parseStd time.stdZeroMonth (time.appendInt m 2 ++ rest) st
    = Some (time.mkFields (time.f_year st) m (time.f_day st) (time.f_hour st)
              (time.f_min st) (time.f_sec st) (time.f_nsec st) (time.f_utc st)
              (time.f_zoneOffset st) (time.f_zoneName st), rest).
Proof.
  intros m rest st H. unfold time.parseStd.
  rewrite getnum_appendInt2 by lia.
  replace ((m <=? 0) || (12 <? m)) with false by lia. reflexivity.
Qed.

Lemma parse_day :
  forall d rest st,
    0 <= d < 100 ->
    time.parseStd time.stdZeroDay (time.appendInt d 2 ++ rest) st
    = Some (time.mkFields (time.f_year st) (time.f_month st) d (time.f_hour st)
              (time.f_min st) (time.f_sec st) (time.f_nsec st) (time.f_utc st)
              (time.f_zoneOffset st) (time.f_zoneName st), rest).
Proof.
  intros d rest st H. unfold time.parseStd.
  now rewrite getnum_appendInt2 by lia.
Qed.

Lemma parse_hour :
  forall h rest st,
    0 <= h < 24 ->
    time.parseStd time.stdHour (time.appendInt h 2 ++ rest) st
    = Some (time.mkFields (time.f_year st) (time.f_month st) (time.f_day st) h
              (time.f_min st) (time.f_sec st) (time.f_nsec st) (time.f_utc st)
              (time.f_zoneOffset st) (time.f_zoneName st), rest).
Proof.
  intros h rest st H. unfold time.parseStd.
  rewrite getnum_appendInt2 by lia.
  replace ((h <? 0) || (24 <=? h)) with false by lia. reflexivity.
Qed.

Lemma parse_minute :
  forall m rest st,
    0 <= m < 60 ->
    time.parseStd time.stdZeroMinute (time.appendInt m 2 ++ rest) st
    = Some (time.mkFields (time.f_year st) (time.f_month st) (time.f_day st)
              (time.f_hour st) m (time.f_sec st) (time.f_nsec st) (time.f_utc st)
              (time.f_zoneOffset st) (time.f_zoneName st), rest).
Proof.
  intros m rest st H. unfold time.parseStd.
  rewrite getnum_appendInt2 by lia.
  replace ((m <? 0) || (60 <=? m)) with false by lia. reflexivity.
Qed.

Lemma parse_second :
  forall s ns z zr st,
    0 <= s < 60 -> 0 <= ns < 1000000000 ->
    isDigit z = false -> time.commaOrPeriod z = false ->
    time.parseStd time.stdZeroSecond
      (time.appendInt s 2 ++ time.appendNano ns ++ String z zr) st
    = Some (time.mkFields (time.f_year st) (time.f_month st) (time.f_day st)
              (time.f_hour st) (time.f_min st) s
              (if ns =? 0 then time.f_nsec st else ns) (time.f_utc st)
              (time.f_zoneOffset st) (time.f_zoneName st), String z zr).
Proof.
  intros s ns z zr st Hs Hns Hz Hz'. unfold time.parseStd.
  rewrite getnum_appendInt2 by lia.
  replace ((s <? 0) || (60 <=? s)) with false by lia.
  destruct (Z.eq_dec ns 0) as [-> | Nz].
  - change (time.appendNano 0) with "". cbn [append Z.eqb].
    rewrite Hz'. cbn [andb]. destruct zr; reflexivity.
  - replace (ns =? 0) with false by lia.
    destruct (parseNanoseconds_appendNano ns z zr ltac:(lia) Hz)
      as (d & r & n & E & Hd & En & P & D).
    rewrite <- En, P, D. rewrite E. rewrite Hd.
    change (time.commaOrPeriod ".") with true. reflexivity.
Qed.

Lemma appendZone_head :
  forall offset,
    exists z zr, time.appendZone offset = String z zr
                 /\ isDigit z = false /\ time.commaOrPeriod z = false.
Proof.
  intros offset. unfold time.appendZone.
  destruct (offset =? 0); [ exists "Z"%char, ""; repeat split | ].
  destruct (Z.quot offset 60 <? 0); cbn [append];
    eexists; eexists; repeat split.
Qed.

Lemma parse_zone :
  forall offset st,
    Z.abs (Z.quot offset 60) / 60 < 24 ->
    time.parseStd time.stdISO8601ColonTZ (time.appendZone offset) st
    = Some (time.mkFields (time.f_year st) (time.f_month st) (time.f_day st)
              (time.f_hour st) (time.f_min st) (time.f_sec st) (time.f_nsec st)
              (if offset =? 0 then true else time.f_utc st)
              (if offset =? 0 then time.f_zoneOffset st else 60 * Z.quot offset 60)
              (time.f_zoneName st), "").
Proof.
  intros offset st H. unfold time.appendZone.
  destruct (offset =? 0); [ reflexivity | ].
  set (zone := Z.quot offset 60) in *.
  set (a := Z.abs zone) in *.
  assert (Ha : 0 <= a) by (unfold a; lia).
  assert (Hh : 0 <= a / 60 < 100)
    by (split; [ apply Z.div_pos; lia | lia ]).
  assert (Hm : 0 <= a mod 60 < 60) by (apply Z.mod_pos_bound; lia).
  pose proof (Z.div_mod a 60 ltac:(lia)) as Da.
  assert (G : forall sign : ascii,
             Ascii.eqb sign "Z" = false ->
             time.parseStd time.stdISO8601ColonTZ
               (String sign (time.appendInt (a / 60) 2 ++ ":" ++ time.appendInt (a mod 60) 2)) st
             = (if Ascii.eqb sign "+" then
                  Some (time.mkFields (time.f_year st) (time.f_month st) (time.f_day st)
                          (time.f_hour st) (time.f_min st) (time.f_sec st) (time.f_nsec st)
                          (time.f_utc st) (a * 60) (time.f_zoneName st), "")
                else if Ascii.eqb sign "-" then
                  Some (time.mkFields (time.f_year st) (time.f_month st) (time.f_day st)
                          (time.f_hour st) (time.f_min st) (time.f_sec st) (time.f_nsec st)
                          (time.f_utc st) (- (a * 60)) (time.f_zoneName st), "")
                else None)).
  { intros sign Hsign. unfold time.parseStd. rewrite Hsign.
    rewrite (appendInt2 (a / 60)) by lia. rewrite (appendInt2 (a mod 60)) by lia.
    cbn [append len String.length Nat.ltb Nat.leb utf8.take utf8.drop
           String.eqb Ascii.eqb Bool.eqb negb].
    rewrite <- (appendInt2 (a / 60)) by lia. rewrite <- (appendInt2 (a mod 60)) by lia.
    rewrite <- (append_nil_r (time.appendInt (a / 60) 2)).
    rewrite <- (append_nil_r (time.appendInt (a mod 60) 2)).
    rewrite !getnum_appendInt2 by lia.
    replace ((24 <? a / 60) || (60 <? a mod 60)) with false by lia.
    replace ((a / 60 * 60 + a mod 60) * 60) with (a * 60) by lia.
    reflexivity. }
  destruct (zone <? 0) eqn:Ez; cbn [append]; rewrite G by reflexivity.
  - change (Ascii.eqb "-" "+") with false. change (Ascii.eqb "-" "-") with true.
    cbv iota. do 3 f_equal. unfold a. lia.
  - change (Ascii.eqb "+" "+") with true. cbv iota. do 3 f_equal. unfold a. lia.
Qed.

Lemma wf_fields :
  forall t,
    time.wf t = true ->
    1 <= time.month t <= 12
    /\ 1 <= time.day t <= time.daysIn (time.month t) (time.year t)
    /\ 0 <= time.hour t < 24 /\ 0 <= time.minute t < 60
    /\ 0 <= time.second t < 60 /\ 0 <= time.nsec t < 1000000000.
Proof.
  intros t H. unfold time.wf in H.
  repeat match type of H with
         | (_ && _)%bool = true => apply andb_prop in H; destruct H as [H ?]
         end.
  lia.
Qed.

Lemma daysIn_le_31 : forall m y, time.daysIn m y <= 31.
Proof.
  intros m y. unfold time.daysIn. repeat split_if; lia.
Qed.

Lemma representable_fields :
  forall t,
    representable t = true ->
    0 <= time.year t <= 9999
    /\ (time.offset t = 0 \/ Z.abs (Z.quot (time.offset t) 60) / 60 < 24).
Proof.
  intros t H. unfold representable in H.
  apply andb_prop in H as [H1 H2]. apply andb_prop in H1 as [H0 H1].
  apply orb_prop in H2. lia.
Qed.

Ltac flat_fields :=
  cbn [time.f_year time.f_month time.f_day time.f_hour time.f_min time.f_sec
         time.f_nsec time.f_utc time.f_zoneOffset time.f_zoneName time.noFields
         append].

(** [time.Parse] with the layout RFC3339 reads back what
    [appendFormatRFC3339] wrote. *)
Lemma Parse_appendFormatRFC3339 :
  forall (zoneTime : string -> time.Time -> time.Time) (t : time.Time),
    time.wf t = true -> representable t = true ->
    time.Parse zoneTime time.RFC3339 (time.appendFormatRFC3339 t)
    = Some (wholeMinutes t).
Proof.
  intros zoneTime t W R.
  destruct (wf_fields t W) as (Hmo & Hd & Hh & Hmi & Hs & Hns).
  destruct (representable_fields t R) as (Hy & Hz).
  pose proof (daysIn_le_31 (time.month t) (time.year t)) as D31.
  assert (Hq : Z.abs (Z.quot (time.offset t) 60) / 60 < 24).
  { destruct Hz as [-> | Hz]; [ now vm_compute | exact Hz ]. }
  unfold time.Parse, time.appendFormatRFC3339.
  destruct (appendZone_head (time.offset t)) as (z & zr & Ez & Hz1 & Hz2).
  unfold time.RFC3339, time.dateTimeT. cbn [app time.parseChunks].
  rewrite parse_year by lia. flat_fields.
  rewrite parse_lit by reflexivity. flat_fields.
  rewrite parse_month by lia. flat_fields.
  rewrite parse_lit by reflexivity. flat_fields.
  rewrite parse_day by lia. flat_fields.
  rewrite parse_lit by reflexivity. flat_fields.
  rewrite parse_hour by lia. flat_fields.
  rewrite parse_lit by reflexivity. flat_fields.
  rewrite parse_minute by lia. flat_fields.
  rewrite parse_lit by reflexivity. flat_fields.
  rewrite Ez, parse_second by assumption. flat_fields. rewrite <- Ez.
  rewrite parse_zone by exact Hq. flat_fields.
  replace (time.month t <? 0) with false by lia.
  replace (time.day t <? 0) with false by lia.
  replace ((time.day t <? 1) || (time.daysIn (time.month t) (time.year t) <? time.day t))
    with false by lia.
  assert (N : (if time.nsec t =? 0 then 0 else time.nsec t) = time.nsec t)
    by (destruct (time.nsec t =? 0) eqn:E; lia).
  rewrite N. unfold wholeMinutes.
  destruct (time.offset t =? 0) eqn:E0.
  - apply Z.eqb_eq in E0. rewrite E0. reflexivity.
  - replace (60 * Z.quot (time.offset t) 60 =? -1) with false by lia.
    reflexivity.
Qed.

Lemma isDigit_timeChar : forall c, isDigit c = true -> timeChar c = true.
Proof. intros c H. unfold timeChar. now rewrite H. Qed.

Lemma appendInt_timeChars :
  forall x w, allChars timeChar (time.appendInt x w) = true.
Proof.
  intros x w. unfold time.appendInt. rewrite allChars_append.
  apply andb_true_intro. split.
  - destruct (x <? 0); reflexivity.
  - apply allChars_impl with (p := isDigit);
      [ exact isDigit_timeChar | apply decimal_digits ].
Qed.

Lemma appendNano_timeChars :
  forall ns, 0 <= ns < 1000000000 -> allChars timeChar (time.appendNano ns) = true.
Proof.
  intros ns H. destruct (Z.eq_dec ns 0) as [-> | Nz]; [ reflexivity | ].
  destruct (appendNano_shape ns ltac:(lia)) as (k & m & _ & -> & _).
  cbn [allChars]. change (timeChar ".") with true. cbn [andb].
  apply allChars_impl with (p := isDigit);
    [ exact isDigit_timeChar | apply decimal_digits ].
Qed.

Lemma appendFormatRFC3339_shape :
  forall t,
    time.wf t = true -> representable t = true ->
    allChars timeChar (time.appendFormatRFC3339 t) = true
    /\ exists c r, time.appendFormatRFC3339 t = String c r.
Proof.
  intros t W R.
  destruct (wf_fields t W) as (_ & _ & _ & _ & _ & Hns).
  destruct (representable_fields t R) as (Hy & _).
  split.
  - unfold time.appendFormatRFC3339.
    repeat (rewrite allChars_append; apply andb_true_intro; split);
      try apply appendInt_timeChars; try reflexivity.
    + now apply appendNano_timeChars.
    + unfold time.appendZone. destruct (time.offset t =? 0); [ reflexivity | ].
      repeat (rewrite allChars_append; apply andb_true_intro; split);
        try apply appendInt_timeChars; try reflexivity.
      destruct (Z.quot (time.offset t) 60 <? 0); reflexivity.
  - unfold time.appendFormatRFC3339.
    rewrite (appendInt_decimal 4 (time.year t))
      by (try lia; change (10 ^ Z.of_nat 4) with 10000; lia).
    destruct (decimal_head 3 (time.year t)) as (r & E & _). rewrite E.
    cbn [append]. eexists; eexists; reflexivity.
Qed.

Lemma timeChar_not_quote : forall c, timeChar c = true -> Ascii.eqb c dq = false.
Proof. intros c; by_all_bytes c. Qed.

(** [strings.Trim] takes the quotes off a quoted text that has none of its
    own. *)
Lemma TrimRight_no_quote :
  forall s,
    allChars (fun c => negb (Ascii.eqb c dq)) s = true ->
    strings.TrimRight (s ++ String dq "") (String dq "") = s.
Proof.
  intros s H. rewrite TrimRight_snoc. cbn [strings.inCutset].
  change (Ascii.eqb dq dq) with true. cbn [orb].
  induction s as [ | c s IH]; [ reflexivity | ].
  cbn [allChars] in H. apply andb_prop in H as [Hc Hs].
  cbn [strings.TrimRight strings.inCutset]. rewrite (IH Hs).
  rewrite Ascii.eqb_sym. apply negb_true_iff in Hc. rewrite Hc.
  destruct s; reflexivity.
Qed.

Lemma Trim_quoted :
  forall c r,
    allChars (fun x => negb (Ascii.eqb x dq)) (String c r) = true ->
    strings.Trim (quoted (String c r)) (String dq "") = String c r.
Proof.
  intros c r H. unfold strings.Trim, quoted.
  assert (T : strings.TrimRight (String dq (String c r ++ String dq "")) (String dq "")
              = String dq (String c r)).
  { pose proof (TrimRight_no_quote (String c r) H) as T.
    cbn [strings.TrimRight]. rewrite T. reflexivity. }
  rewrite T. cbn [strings.TrimLeft strings.inCutset].
  change (Ascii.eqb dq dq) with true. cbn [orb].
  cbn [allChars] in H. apply andb_prop in H as [Hc _].
  apply negb_true_iff in Hc. rewrite Ascii.eqb_sym, Hc. reflexivity.
Qed.

(** ** Time: the syntax of what appendFormatRFC3339 writes *)

Lemma nDigits_snoc :
  forall k a s,
    rfc3339.nDigits (S k) a s
    = match rfc3339.nDigits k a s with
      | Some (a', String c r) =>
          if isDigit c then Some (10 * a' + digitVal c, r) else None
      | _ => None
      end.
Proof.
  induction k as [ | k IH]; intros a s.
  - destruct s as [ | c r]; [ reflexivity | ].
    cbn [rfc3339.nDigits]. destruct (isDigit c); reflexivity.
  - change (rfc3339.nDigits (S (S k)) a s)
      with (match s with
            | String c r =>
                if isDigit c then rfc3339.nDigits (S k) (10 * a + digitVal c) r else None
            | EmptyString => None
            end).
    destruct s as [ | c r]; [ reflexivity | ].
    cbn [rfc3339.nDigits] in IH |- *. destruct (isDigit c); [ | reflexivity ].
    apply IH.
Qed.

Lemma nDigits_decimal :
  forall k m a rest,
    0 <= m < 10 ^ Z.of_nat k ->
    rfc3339.nDigits k a (strconv.decimal k m ++ rest) = Some (a * 10 ^ Z.of_nat k + m, rest).
Proof.
  induction k as [ | k IH]; intros m a rest Hm.
  - change (10 ^ Z.of_nat 0) with 1 in *. cbn [strconv.decimal append rfc3339.nDigits].
    do 2 f_equal. lia.
  - rewrite pow10_succ in *. pose proof (pow10_pos k) as Pk.
    pose proof (Z.div_mod m 10 ltac:(lia)) as Dm. pose proof (mod10_bound m) as Bm.
    assert (Hq : 0 <= m / 10 < 10 ^ Z.of_nat k).
    { split; [ apply Z.div_pos; lia | apply Z.div_lt_upper_bound; lia ]. }
    rewrite nDigits_snoc. cbn [strconv.decimal]. rewrite append_assoc. cbn [append].
    rewrite (IH (m / 10) a _ Hq).
    destruct (digitChar_spec _ Bm) as (D1 & D2 & _). rewrite D1, D2.
    do 2 f_equal. lia.
Qed.

Lemma nDigits_appendInt :
  forall (w : nat) x rest,
    (1 <= w)%nat -> 0 <= x < 10 ^ Z.of_nat w ->
    rfc3339.nDigits w 0 (time.appendInt x w ++ rest) = Some (x, rest).
Proof.
  intros w x rest Hw Hx. rewrite appendInt_decimal by assumption.
  rewrite nDigits_decimal by assumption. reflexivity.
Qed.

Lemma skipDigits_app :
  forall s z zr,
    allChars isDigit s = true -> isDigit z = false ->
    json.skipDigits (s ++ String z zr) = String z zr.
Proof.
  induction s as [ | c s IH]; intros z zr Hs Hz.
  - cbn [append json.skipDigits]. now rewrite Hz.
  - cbn [allChars] in Hs. apply andb_prop in Hs as [Hc Hs].
    cbn [append json.skipDigits]. rewrite Hc. now apply IH.
Qed.

(** The fraction [appendNano] writes is a period and one digit or more. *)
Lemma fraction_appendNano :
  forall ns z zr,
    0 <= ns < 1000000000 -> isDigit z = false -> time.commaOrPeriod z = false ->
    match rfc3339.expect "." (time.appendNano ns ++ String z zr) with
    | Some s => rfc3339.someDigits s
    | None => Some (time.appendNano ns ++ String z zr)%string
    end = Some (String z zr).
Proof.
  intros ns z zr H Hz Hp. destruct (Z.eq_dec ns 0) as [-> | Nz].
  - change (time.appendNano 0) with "". cbn [append rfc3339.expect].
    unfold time.commaOrPeriod in Hp. apply orb_false_elim in Hp as [Hp _].
    now rewrite Hp.
  - destruct (appendNano_shape ns ltac:(lia)) as (k & m & _ & -> & _ & _).
    cbn [append rfc3339.expect]. change (Ascii.eqb "." ".") with true. cbv iota.
    pose proof (decimal_digits (S k) m) as Dg.
    destruct (decimal_head k m) as (r & E & _). rewrite E in Dg |- *.
    cbn [allChars] in Dg. apply andb_prop in Dg as [Dc Dr].
    cbn [append rfc3339.someDigits]. rewrite Dc. now rewrite skipDigits_app.
Qed.

Lemma timeOffset_appendZone :
  forall offset,
    Z.abs (Z.quot offset 60) / 60 < 24 ->
    rfc3339.timeOffset (time.appendZone offset) = true.
Proof.
  intros offset H. unfold time.appendZone.
  destruct (offset =? 0); [ reflexivity | ].
  set (a := Z.abs (Z.quot offset 60)) in *.
  assert (Ha : 0 <= a) by (unfold a; lia).
  assert (Hh : 0 <= a / 60 < 24) by (split; [ apply Z.div_pos; lia | lia ]).
  assert (Hm : 0 <= a mod 60 < 60) by (apply Z.mod_pos_bound; lia).
  assert (G : forall sign : ascii,
             Ascii.eqb sign "Z" = false ->
             (Ascii.eqb sign "+" || Ascii.eqb sign "-") = true ->
             rfc3339.timeOffset
               (String sign (time.appendInt (a / 60) 2 ++ ":" ++ time.appendInt (a mod 60) 2))
             = true).
  { intros sign S1 S2. unfold rfc3339.timeOffset. rewrite S1, S2.
    rewrite nDigits_appendInt by (change (10 ^ Z.of_nat 2) with 100; lia).
    cbn [append rfc3339.expect]. change (Ascii.eqb ":" ":") with true. cbv iota.
    rewrite <- (append_nil_r (time.appendInt (a mod 60) 2)).
    rewrite nDigits_appendInt by (change (10 ^ Z.of_nat 2) with 100; lia).
    apply andb_true_intro. split; [ apply andb_true_intro; split; lia | reflexivity ]. }
  destruct (Z.quot offset 60 <? 0); cbn [append]; apply G; reflexivity.
Qed.

(** What [appendFormatRFC3339] writes for a reading of the calendar with a
    year of four digits and a zone offset under 24 hours is a date-time of
    RFC 3339. *)
Lemma dateTime_appendFormatRFC3339 :
  forall t,
    time.wf t = true -> representable t = true ->
    rfc3339.dateTime (time.appendFormatRFC3339 t) = true.
Proof.
  intros t W R.
  destruct (wf_fields t W) as (Hmo & Hd & Hh & Hmi & Hs & Hns).
  destruct (representable_fields t R) as (Hy & Hz).
  pose proof (daysIn_le_31 (time.month t) (time.year t)) as D31.
  assert (Hq : Z.abs (Z.quot (time.offset t) 60) / 60 < 24).
  { destruct Hz as [-> | Hz]; [ now vm_compute | exact Hz ]. }
  destruct (appendZone_head (time.offset t)) as (z & zr & Ez & Hz1 & Hz2).
  assert (P2 : forall x, 0 <= x < 100 -> 0 <= x < 10 ^ Z.of_nat 2)
    by (change (10 ^ Z.of_nat 2) with 100; trivial).
  assert (P4 : 0 <= time.year t < 10 ^ Z.of_nat 4)
    by (change (10 ^ Z.of_nat 4) with 10000; lia).
  unfold rfc3339.dateTime, time.appendFormatRFC3339.
  unfold rfc3339.fullDate.
  rewrite nDigits_appendInt by (lia || exact P4).
  cbn [append rfc3339.expect]. change (Ascii.eqb "-" "-") with true. cbv iota.
  rewrite nDigits_appendInt by (try apply P2; lia).
  cbn [append rfc3339.expect]. change (Ascii.eqb "-" "-") with true. cbv iota.
  rewrite nDigits_appendInt by (try apply P2; lia).
  replace ((1 <=? time.month t) && (time.month t <=? 12) && (1 <=? time.day t)
           && (time.day t <=? time.daysIn (time.month t) (time.year t)))
    with true by (symmetry; repeat (apply andb_true_intro; split); lia).
  cbn [append rfc3339.expect]. change (Ascii.eqb "T" "T") with true. cbv iota.
  unfold rfc3339.partialTime.
  rewrite nDigits_appendInt by (try apply P2; lia).
  cbn [append rfc3339.expect]. change (Ascii.eqb ":" ":") with true. cbv iota.
  rewrite nDigits_appendInt by (try apply P2; lia).
  cbn [append rfc3339.expect]. change (Ascii.eqb ":" ":") with true. cbv iota.
  rewrite nDigits_appendInt by (try apply P2; lia).
  replace ((time.hour t <=? 23) && (time.minute t <=? 59) && (time.second t <=? 59))
    with true by (symmetry; repeat (apply andb_true_intro; split); lia).
  rewrite Ez, fraction_appendNano by (assumption || lia).
  rewrite <- Ez. now apply timeOffset_appendZone.
Qed.

Lemma beforeLastQuote_app :
  forall b, beforeLastQuote (b ++ String dq "") = Some b.
Proof.
  induction b as [ | c b IH]; [ reflexivity | ].
  cbn [append]. change (beforeLastQuote (String c (b ++ String dq "")))
    with (match (b ++ String dq "")%string with
          | EmptyString => if Ascii.eqb c dq then Some EmptyString else None
          | String _ _ =>
              match beforeLastQuote (b ++ String dq "") with
              | Some b' => Some (String c b')
              | None => None
              end
          end).
  rewrite IH. destruct b; reflexivity.
Qed.

Lemma isTimestampLiteral_quoted :
  forall s, rfc3339.dateTime s = true -> isTimestampLiteral (quoted s) = true.
Proof.
  intros s H. unfold isTimestampLiteral, quoted.
  change (Ascii.eqb dq dq) with true. now rewrite beforeLastQuote_app, H.
Qed.

(** Time: decoding what MarshalJSON wrote. *)
Lemma Time_decode_encoded :
  forall (zoneTime : string -> time.Time -> time.Time)
         (y : params_Time) (t : time.Time),
    time.wf t = true -> representable t = true ->
    time.MarshalJSON t = (quoted (time.appendFormatRFC3339 t), None)
    /\ isTimestampLiteral (quoted (time.appendFormatRFC3339 t)) = true
    /\ Time_UnmarshalJSON zoneTime y (quoted (time.appendFormatRFC3339 t))
       = (mkTimeParam (wholeMinutes t) true, None).
Proof.
  intros zoneTime y t W R.
  destruct (appendFormatRFC3339_shape t W R) as (Hall & c & r & E).
  assert (NQ : allChars (fun x => negb (Ascii.eqb x dq)) (time.appendFormatRFC3339 t) = true).
  { apply allChars_impl with (p := timeChar); [ | exact Hall ].
    intros x Hx. now rewrite (timeChar_not_quote x Hx). }
  assert (Tr : strings.Trim (quoted (time.appendFormatRFC3339 t)) (String dq "")
               = time.appendFormatRFC3339 t).
  { rewrite E in NQ |- *. now apply Trim_quoted. }
  assert (Hc : Ascii.eqb c dq = false).
  { rewrite E in NQ. cbn [allChars] in NQ. apply andb_prop in NQ as [Hc _].
    now apply negb_true_iff in Hc. }
  split; [ | split ].
  - unfold time.MarshalJSON. destruct (representable_fields t R) as (Hy & Hz).
    replace ((time.year t <? 0) || (9999 <? time.year t)) with false by lia.
    replace (negb (time.offset t =? 0)
             && (24 <=? Z.abs (Z.quot (time.offset t) 60) / 60)) with false.
    + reflexivity.
    + destruct Hz as [-> | Hz]; [ reflexivity | ].
      replace (24 <=? Z.abs (Z.quot (time.offset t) 60) / 60) with false by lia.
      now rewrite andb_false_r.
  - now apply isTimestampLiteral_quoted, dateTime_appendFormatRFC3339.
  - assert (G1 : ((len (quoted (time.appendFormatRFC3339 t)) =? 0)%nat
                  || (quoted (time.appendFormatRFC3339 t) =? "null")%string) = false)
      by reflexivity.
    assert (G2 : (quoted (time.appendFormatRFC3339 t) =? String dq (String dq ""))%string
                 = false).
    { unfold quoted. rewrite E. cbn [append String.eqb].
      change (Ascii.eqb dq dq) with true. now rewrite Hc. }
    unfold Time_UnmarshalJSON, string_of_bytes. rewrite Tr, G1, G2.
    cbn [Time_value Time_present].
    unfold parseFirst, timeLayouts.
    rewrite Parse_appendFormatRFC3339 by assumption. reflexivity.
Qed.

(** ** Round trip *)

Lemma Bool_round_trip :
  forall (x y : params_Bool) (v : bool),
    Bool_UnmarshalJSON y (fst (Bool_MarshalJSON (Bool_Set x v))) = (mkBool v true, None).
Proof. intros x y [ | ]; reflexivity. Qed.

Lemma wholeMinutes_id :
  forall t, Z.rem (time.offset t) 60 = 0 -> wholeMinutes t = t.
Proof.
  intros [y mo d h mi s ns off] H. unfold wholeMinutes. cbn [time.year time.month
    time.day time.hour time.minute time.second time.nsec time.offset] in *.
  f_equal. pose proof (Z.quot_rem' off 60). lia.
Qed.

Lemma Time_round_trip :
  forall (zoneTime : string -> time.Time -> time.Time)
         (x y : params_Time) (t : time.Time),
    time.wf t = true -> representable t = true -> Z.rem (time.offset t) 60 = 0 ->
    exists tok,
      Time_MarshalJSON (Time_Set x t) = (tok, None)
      /\ Time_UnmarshalJSON zoneTime y tok = (mkTimeParam t true, None).
Proof.
  intros zoneTime x y t W R M.
  destruct (Time_decode_encoded zoneTime y t W R) as (E & _ & D).
  exists (quoted (time.appendFormatRFC3339 t)). split.
  - unfold Time_MarshalJSON, Time_Set. cbn [Time_present Time_value negb]. exact E.
  - rewrite D. now rewrite wholeMinutes_id.
Qed.

(** C5: for every kind and every valid value v (any Bool, any 64-bit Int,
    a String in UTF-8, a Timestamp that RFC 3339 can write with its zone
    offset in whole minutes), Set(v) followed by MarshalJSON gives bytes
    without error, and UnmarshalJSON of these bytes, into any instance,
    gives value v with present == true and no error. *)
Theorem C5_round_trip :
  forall (zoneTime : string -> time.Time -> time.Time)
         (K : Kind) (x y : instance K) (v : payload K),
    validValue K v = true ->
    exists tok : bytes,
      Encode K (SetValue K x v) = (tok, None)
      /\ Decode zoneTime K y tok = (mkInstance K v true, None).
Proof.
  intros zoneTime K x y v V. destruct K; cbn [validValue] in V.
  - exists (fst (String_MarshalJSON (String_Set x v))). split.
    + reflexivity.
    + now apply String_round_trip.
  - exists (fst (Bool_MarshalJSON (Bool_Set x v))). split.
    + cbn [Encode SetValue]. destruct v; reflexivity.
    + apply Bool_round_trip.
  - exists (fst (Int_MarshalJSON (Int_Set x v))). split.
    + reflexivity.
    + apply Int_round_trip. lia.
  - apply andb_prop in V as [V M]. apply andb_prop in V as [W R].
    apply (Time_round_trip zoneTime x y v W R). lia.
Qed.

Lemma C5_round_trip_witness :
  exists tok : bytes,
    Encode KTimestamp
      (SetValue KTimestamp (absent KTimestamp)
         (time.mkTime 2023 10 5 14 48 0 123456789 7200))
    = (tok, None)
    /\ Decode zoneZero KTimestamp (absent KTimestamp) tok
       = (mkInstance KTimestamp (time.mkTime 2023 10 5 14 48 0 123456789 7200) true,
          None).
Proof.
  apply (C5_round_trip zoneZero KTimestamp). reflexivity.
Defined.

(** ** UTF-8: what EncodeRune writes is valid *)

Lemma byteZ_byte_of_Z : forall z, 0 <= z < 256 -> byteZ (byte_of_Z z) = z.
Proof.
  intros z H. unfold byteZ, byte_of_Z.
  rewrite N_ascii_embedding by lia. lia.
Qed.

Lemma first_exact :
  forall p0,
    (194 <= p0 <= 223 -> utf8.first p0 = Some (2, 128, 191))
    /\ (224 <= p0 <= 239 ->
        utf8.first p0
        = Some (3, if p0 =? 224 then 160 else 128, if p0 =? 237 then 159 else 191))
    /\ (240 <= p0 <= 244 ->
        utf8.first p0
        = Some (4, if p0 =? 240 then 144 else 128, if p0 =? 244 then 143 else 191)).
Proof.
  intros p0. unfold utf8.first.
  repeat split; intros H; repeat split_if; try lia; reflexivity.
Qed.

Lemma DecodeRune2 :
  forall p0 b1 rest,
    194 <= p0 <= 223 -> 128 <= b1 <= 191 ->
    exists r, utf8.DecodeRune (String (byte_of_Z p0) (String (byte_of_Z b1) rest))
              = (r, 2%nat).
Proof.
  intros p0 b1 rest H0 H1. unfold utf8.DecodeRune, utf8.RuneSelf.
  rewrite !byteZ_byte_of_Z by lia.
  rewrite (proj1 (first_exact p0) H0).
  replace (p0 <? 128) with false by lia.
  replace ((b1 <? 128) || (191 <? b1)) with false by lia.
  cbn [Z.leb Z.compare Pos.compare Pos.compare_cont]. eexists. reflexivity.
Qed.

Lemma DecodeRune3 :
  forall p0 b1 b2 rest,
    224 <= p0 <= 239 -> 128 <= b1 <= 191 -> 128 <= b2 <= 191 ->
    (p0 = 224 -> 160 <= b1) -> (p0 = 237 -> b1 <= 159) ->
    exists r,
      utf8.DecodeRune
        (String (byte_of_Z p0) (String (byte_of_Z b1) (String (byte_of_Z b2) rest)))
      = (r, 3%nat).
Proof.
  intros p0 b1 b2 rest H0 H1 H2 Hlo Hhi. unfold utf8.DecodeRune, utf8.RuneSelf, utf8.cont.
  rewrite !byteZ_byte_of_Z by lia.
  rewrite (proj1 (proj2 (first_exact p0)) H0).
  replace (p0 <? 128) with false by lia.
  replace ((b1 <? (if p0 =? 224 then 160 else 128))
           || ((if p0 =? 237 then 159 else 191) <? b1)) with false
    by (repeat split_if; lia).
  replace ((128 <=? b2) && (b2 <=? 191)) with true by lia.
  cbn [Z.leb Z.compare Pos.compare Pos.compare_cont negb]. eexists. reflexivity.
Qed.

Lemma DecodeRune4 :
  forall p0 b1 b2 b3 rest,
    240 <= p0 <= 244 -> 128 <= b1 <= 191 -> 128 <= b2 <= 191 -> 128 <= b3 <= 191 ->
    (p0 = 240 -> 144 <= b1) -> (p0 = 244 -> b1 <= 143) ->
    exists r,
      utf8.DecodeRune
        (String (byte_of_Z p0)
           (String (byte_of_Z b1) (String (byte_of_Z b2) (String (byte_of_Z b3) rest))))
      = (r, 4%nat).
Proof.
  intros p0 b1 b2 b3 rest H0 H1 H2 H3 Hlo Hhi.
  unfold utf8.DecodeRune, utf8.RuneSelf, utf8.cont.
  rewrite !byteZ_byte_of_Z by lia.
  rewrite (proj2 (proj2 (first_exact p0)) H0).
  replace (p0 <? 128) with false by lia.
  replace ((b1 <? (if p0 =? 240 then 144 else 128))
           || ((if p0 =? 244 then 143 else 191) <? b1)) with false
    by (repeat split_if; lia).
  replace ((128 <=? b2) && (b2 <=? 191)) with true by lia.
  replace ((128 <=? b3) && (b3 <=? 191)) with true by lia.
  cbn [Z.leb Z.compare Pos.compare Pos.compare_cont negb]. eexists. reflexivity.
Qed.

(** Whatever [r] is, [EncodeRune r] is one whole rune for [DecodeRune],
    with any text after it. *)
Lemma EncodeRune_one_rune :
  forall r rest,
    exists r' n,
      utf8.DecodeRune (utf8.EncodeRune r ++ rest) = (r', n)
      /\ n = len (utf8.EncodeRune r) /\ (1 <= n)%nat
      /\ ((r' =? utf8.RuneError) && (n =? 1)%nat = false).
Proof.
  intros r rest. unfold utf8.EncodeRune, utf8.MaxRune.
  destruct ((0 <=? r) && (r <=? 127)) eqn:C1.
  { exists r, 1%nat. cbn [append]. rewrite ascii_DecodeRune
      by (rewrite byteZ_byte_of_Z; lia).
    rewrite byteZ_byte_of_Z by lia.
    repeat split; try reflexivity; try lia.
    unfold utf8.RuneError. replace (r =? 65533) with false by lia. reflexivity. }
  destruct ((0 <=? r) && (r <=? 2047)) eqn:C2.
  { assert (Hr : 128 <= r <= 2047) by lia.
    rewrite (lead_byte 192 3 6 r 6) by (pow2_consts; try reflexivity; lia).
    rewrite cont_byte0 by lia. cbn [append].
    destruct (DecodeRune2 (192 + r / 2 ^ 6) (128 + r mod 64) rest) as [r' E];
      [ divmod | divmod | ].
    exists r', 2%nat. rewrite E. repeat split; try reflexivity; try lia.
    apply andb_false_r. }
  destruct ((r <? 0) || (1114111 <? r) || ((55296 <=? r) && (r <=? 57343))) eqn:C3.
  { exists utf8.RuneError, 3%nat. repeat split; try reflexivity. lia. }
  destruct (r <=? 65535) eqn:C4.
  { assert (Hr : 2048 <= r <= 65535 /\ (r < 55296 \/ 57343 < r)) by lia.
    unfold utf8.enc3.
    rewrite (lead_byte 224 14 4 r 12) by (pow2_consts; try reflexivity; lia).
    rewrite cont_byte, cont_byte0 by lia. cbn [append].
    destruct (DecodeRune3 (224 + r / 2 ^ 12) (128 + (r / 2 ^ 6) mod 64)
                (128 + r mod 64) rest) as [r' E]; try divmod.
    exists r', 3%nat. rewrite E. repeat split; try reflexivity; try lia.
    apply andb_false_r. }
  assert (Hr : 65536 <= r <= 1114111) by lia.
  rewrite (lead_byte 240 30 3 r 18)
    by (pow2_consts; try reflexivity; change (2 ^ (3 + 18)) with 2097152; lia).
  rewrite !cont_byte, cont_byte0 by lia. cbn [append].
  destruct (DecodeRune4 (240 + r / 2 ^ 18) (128 + (r / 2 ^ 12) mod 64)
              (128 + (r / 2 ^ 6) mod 64) (128 + r mod 64) rest) as [r' E];
    try divmod.
  exists r', 4%nat. rewrite E. repeat split; try reflexivity; try lia.
  apply andb_false_r.
Qed.

Lemma valid_cons_ascii :
  forall c t,
    (byteZ c <? 128) = true ->
    (forall f, (len t <= f)%nat -> utf8.valid_loop f t = true) ->
    forall f, (len (String c t) <= f)%nat -> utf8.valid_loop f (String c t) = true.
Proof.
  intros c t Hc Ht f Hf. destruct f as [ | f]; [ unfold len in Hf; simpl in Hf; lia | ].
  rewrite valid_loop_ascii by lia. apply Ht. unfold len in *. simpl in Hf. lia.
Qed.

Lemma valid_app_rune :
  forall r t,
    (forall f, (len t <= f)%nat -> utf8.valid_loop f t = true) ->
    forall f, (len (utf8.EncodeRune r ++ t) <= f)%nat ->
              utf8.valid_loop f (utf8.EncodeRune r ++ t) = true.
Proof.
  intros r t Ht f Hf.
  destruct (EncodeRune_one_rune r t) as (r' & n & D & En & Hn & Hok).
  rewrite len_append in Hf.
  destruct f as [ | f]; [ lia | ].
  cbn [utf8.valid_loop].
  destruct (utf8.EncodeRune r ++ t)%string as [ | c s] eqn:E; [ reflexivity | ].
  rewrite D, Hok. rewrite <- E, En, drop_append. apply Ht. lia.
Qed.

Lemma valid_app_ascii :
  forall a t,
    allChars (fun c => byteZ c <? 128) a = true ->
    (forall f, (len t <= f)%nat -> utf8.valid_loop f t = true) ->
    forall f, (len (a ++ t) <= f)%nat -> utf8.valid_loop f (a ++ t) = true.
Proof.
  induction a as [ | c a IH]; intros t Ha Ht; [ exact Ht | ].
  cbn [allChars] in Ha. apply andb_prop in Ha as [Hc Ha].
  cbn [append]. apply valid_cons_ascii; [ exact Hc | now apply IH ].
Qed.

Lemma escapeByte_ascii :
  forall c, allChars (fun c => byteZ c <? 128) (json.escapeByte c) = true.
Proof. intros c; by_all_bytes c. Qed.

(** What [appendString] writes between the quotes is UTF-8, whatever the
    bytes of the string: a byte that belongs to no rune is written as an
    escape. *)
Lemma appendString_loop_valid :
  forall n s fe tail,
    (len s <= n)%nat ->
    (forall f, (len tail <= f)%nat -> utf8.valid_loop f tail = true) ->
    forall f, (len (json.appendString_loop fe s ++ tail) <= f)%nat ->
              utf8.valid_loop f (json.appendString_loop fe s ++ tail) = true.
Proof.
  induction n as [ | n IH]; intros s fe tail Hn Ht.
  - destruct s as [ | c r]; [ | unfold len in Hn; simpl in Hn; lia ].
    destruct fe; exact Ht.
  - destruct s as [ | c r]; [ destruct fe; exact Ht | ].
    change (len (String c r)) with (S (len r)) in Hn.
    destruct fe as [ | fe]; [ exact Ht | ].
    cbn [json.appendString_loop].
    destruct (byteZ c <? utf8.RuneSelf) eqn:Ea.
    + destruct (json.htmlSafe (byteZ c)).
      * cbn [append]. apply valid_cons_ascii; [ exact Ea | ].
        apply IH; [ lia | exact Ht ].
      * rewrite append_assoc. apply valid_app_ascii; [ apply escapeByte_ascii | ].
        apply IH; [ lia | exact Ht ].
    + assert (Ha : 128 <= byteZ c) by (unfold utf8.RuneSelf in Ea; lia).
      destruct (DecodeRune_nonascii c r Ha)
        as [E | (cs & rs & rn & Es & Lcs & Dall & Enc & _)].
      * rewrite E.
        change ((utf8.RuneError =? utf8.RuneError) && (1 =? 1)%nat) with true.
        cbv iota. rewrite append_assoc. apply valid_app_ascii; [ reflexivity | ].
        apply IH; [ lia | exact Ht ].
      * assert (Lrs : len (String c r) = (len cs + len rs)%nat)
          by (rewrite Es; apply len_append).
        change (len (String c r)) with (S (len r)) in Lrs.
        assert (Sz : (len cs =? 1)%nat = false) by (apply Nat.eqb_neq; lia).
        rewrite Es, (Dall rs), Sz, andb_false_r, take_append, drop_append.
        assert (Rec : forall f, (len (json.appendString_loop fe rs ++ tail) <= f)%nat ->
                                utf8.valid_loop f (json.appendString_loop fe rs ++ tail) = true)
          by (apply IH; [ lia | exact Ht ]).
        destruct ((rn =? 8232) || (rn =? 8233)) eqn:Eu.
        -- rewrite append_assoc. cbn [append].
           apply (valid_app_ascii
                    (String bslash (String "u" (String "2" (String "0" (String "2"
                       (String (json.hex (Z.land rn 15)) ""))))))); [ | exact Rec ].
           apply orb_prop in Eu as [Eu | Eu]; apply Z.eqb_eq in Eu; subst rn; reflexivity.
        -- rewrite append_assoc, <- Enc. now apply valid_app_rune.
Qed.

Lemma appendString_valid :
  forall s, utf8.ValidString (json.appendString s) = true.
Proof.
  intros s. unfold utf8.ValidString, json.appendString.
  apply valid_cons_ascii; [ reflexivity | | apply le_n ].
  apply (appendString_loop_valid (len s) s (len s) (String dq "") (le_n _)).
  apply valid_cons_ascii; [ reflexivity | ].
  intros f _. destruct f; reflexivity.
Qed.

(** ** What MarshalJSON writes *)

(** C2, as the code has it: an instance that is not present is encoded as
    null for Bool and Timestamp, as 0 for Int and as the empty string
    literal for String; a present instance is encoded as a syntactically
    valid token of its kind (true or false, an integer literal of JSON, a
    string literal of JSON in UTF-8, a date-time of RFC 3339 between double
    quotes),
    except for a Timestamp outside RFC 3339, for which MarshalJSON returns
    an error and no bytes. *)
Theorem C2_encode_tokens :
  forall (K : Kind) (x : instance K),
    (PresentFlag K x = false -> Encode K x = (absentToken K, None))
    /\ (PresentFlag K x = true ->
        inRange K (Stored K x) = true ->
        if encodable K (Stored K x)
        then exists tok, Encode K x = (tok, None) /\ validToken K tok = true
        else exists e, Encode K x = ("", Some e)).
Proof.
  intros K x. split.
  - intros P. destruct K; cbn in P |- *.
    + unfold String_MarshalJSON, String_Value. unfold String_Present in P.
      rewrite P. reflexivity.
    + unfold Bool_MarshalJSON. unfold Bool_Present in P. rewrite P. reflexivity.
    + unfold Int_MarshalJSON, Int_Get. rewrite P. reflexivity.
    + unfold Time_MarshalJSON. unfold Time_Present in P. rewrite P. reflexivity.
  - intros P R. destruct K; cbn [PresentFlag inRange Stored encodable Encode validToken] in *.
    + unfold String_MarshalJSON, String_Value, json.Marshal_string.
      unfold String_Present in P. rewrite P. cbn [negb].
      destruct (scan_appendString (String_value x)) as (t & _ & L & _).
      eexists. split; [ reflexivity | ].
      apply andb_true_intro. split; [ exact L | apply appendString_valid ].
    + unfold Bool_MarshalJSON. unfold Bool_Present in P. rewrite P. cbn [negb].
      destruct (Bool_value x); eexists; split; reflexivity.
    + unfold Int_MarshalJSON, Int_Get. rewrite P. cbn [negb].
      eexists. split; [ reflexivity | ].
      apply FormatInt_integer_literal. lia.
    + unfold Time_MarshalJSON. unfold Time_Present in P. rewrite P. cbn [negb].
      destruct (representable (Time_value x)) eqn:E.
      * destruct (Time_decode_encoded zoneZero x (Time_value x) R E) as (M & L & _).
        eexists. split; [ exact M | exact L ].
      * destruct (time.MarshalJSON (Time_value x)) as [tok [e | ]] eqn:M.
        -- exists e. unfold time.MarshalJSON in M.
           repeat match type of M with
                  | (if ?c then _ else _) = _ => destruct c
                  end; inversion M; reflexivity.
        -- pose proof (proj1 (time_MarshalJSON_ok (Time_value x))) as Q.
           rewrite M in Q. specialize (Q eq_refl). congruence.
Qed.

Lemma C2_encode_tokens_witness :
  Encode KBool (mkBool true false) = ("null", None)
  /\ exists tok,
       Encode KTimestamp
         (mkTimeParam (time.mkTime 2023 10 5 14 48 0 500000000 (-3600)) true)
       = (tok, None)
       /\ validToken KTimestamp tok = true.
Proof.
  split.
  - apply (proj1 (C2_encode_tokens KBool (mkBool true false))). reflexivity.
  - apply (proj2 (C2_encode_tokens KTimestamp
                    (mkTimeParam (time.mkTime 2023 10 5 14 48 0 500000000 (-3600)) true)));
      reflexivity.
Defined.

(** C2 as stated fails for Int and String: an instance that is not present
    is encoded as 0, respectively as the empty string literal, not as
    null. *)
Lemma C2_counterexample_absent_int_string :
  PresentFlag KInt (absent KInt) = false
  /\ Encode KInt (absent KInt) = ("0", None)
  /\ PresentFlag KString (absent KString) = false
  /\ Encode KString (absent KString) = (quoted "", None)
  /\ "0" <> "null" /\ quoted "" <> "null".
Proof. repeat split; discriminate. Qed.

(** ** Further properties *)

(** X1: What MarshalJSON writes for a String is decoded without error into a
    present instance, whatever the bytes of the value. *)
Theorem String_decode_of_encoded :
  forall (x y : params_String) (v : string),
    exists t : string,
      String_UnmarshalJSON y (fst (String_MarshalJSON (String_Set x v)))
      = (mkString t true, None).
Proof.
  intros x y v. unfold String_MarshalJSON, String_Set, String_Value, json.Marshal_string.
  cbn [String_present String_value negb fst].
  destruct (scan_appendString v) as (t & Hs & _ & _).
  exists t. unfold String_UnmarshalJSON, json.Unmarshal_string. rewrite Hs.
  reflexivity.
Qed.

(** X2: A Timestamp that RFC 3339 can write is decoded from what MarshalJSON
    wrote to the same reading, with the seconds of its zone offset
    dropped. *)
Theorem Time_reads_back_whole_minutes :
  forall (zoneTime : string -> time.Time -> time.Time)
         (x y : params_Time) (t : time.Time),
    time.wf t = true -> representable t = true ->
    Time_UnmarshalJSON zoneTime y (fst (Time_MarshalJSON (Time_Set x t)))
    = (mkTimeParam (wholeMinutes t) true, None).
Proof.
  intros zoneTime x y t W R.
  destruct (Time_decode_encoded zoneTime y t W R) as (E & _ & D).
  unfold Time_MarshalJSON, Time_Set. cbn [Time_present Time_value negb].
  rewrite E. exact D.
Qed.

Lemma Time_reads_back_whole_minutes_witness :
  Time_UnmarshalJSON zoneZero (absent KTimestamp)
    (fst (Time_MarshalJSON
            (Time_Set (absent KTimestamp) (time.mkTime 2023 10 5 14 48 0 0 3630))))
  = (mkTimeParam (time.mkTime 2023 10 5 14 48 0 0 3600) true, None).
Proof.
  apply (Time_reads_back_whole_minutes zoneZero (absent KTimestamp)
           (absent KTimestamp) (time.mkTime 2023 10 5 14 48 0 0 3630));
    reflexivity.
Defined.


(** ** Quotes and letter case *)

Lemma TrimRight_all :
  forall cut r, allChars (strings.inCutset cut) r = true -> strings.TrimRight r cut = "".
Proof.
  intros cut. induction r as [ | c r IH]; intros H; [ reflexivity | ].
  cbn [allChars] in H. apply andb_prop in H as [Hc Hr].
  cbn [strings.TrimRight]. now rewrite (IH Hr), Hc.
Qed.

Lemma TrimRight_app_cut :
  forall cut s r,
    allChars (strings.inCutset cut) r = true ->
    strings.TrimRight (s ++ r) cut = strings.TrimRight s cut.
Proof.
  intros cut s r H. induction s as [ | c s IH].
  - simpl. now apply TrimRight_all.
  - cbn [append strings.TrimRight]. now rewrite IH.
Qed.

Lemma TrimLeft_app_cut :
  forall cut l s,
    allChars (strings.inCutset cut) l = true ->
    strings.TrimLeft (l ++ s) cut = strings.TrimLeft s cut.
Proof.
  intros cut. induction l as [ | c l IH]; intros s H; [ reflexivity | ].
  cbn [allChars] in H. apply andb_prop in H as [Hc Hl].
  cbn [append strings.TrimLeft]. rewrite Hc. now apply IH.
Qed.

Lemma TrimRight_app_nonempty :
  forall cut l s a t,
    strings.TrimRight s cut = String a t ->
    strings.TrimRight (l ++ s) cut = (l ++ String a t)%string.
Proof.
  intros cut. induction l as [ | c l IH]; intros s a t H; [ exact H | ].
  cbn [append]. destruct l as [ | c' l'].
  - cbn [append] in *. now apply TrimRight_cons_nonempty.
  - specialize (IH s a t H). cbn [append] in IH.
    cbn [append]. now apply TrimRight_cons_nonempty.
Qed.

(** Bytes of the cutset around a text do not change what [strings.Trim]
    returns for it. *)
Lemma Trim_app :
  forall cut l s r,
    allChars (strings.inCutset cut) l = true ->
    allChars (strings.inCutset cut) r = true ->
    strings.Trim (l ++ s ++ r) cut = strings.Trim s cut.
Proof.
  intros cut l s r Hl Hr. unfold strings.Trim.
  rewrite <- append_assoc, (TrimRight_app_cut cut (l ++ s) r Hr).
  destruct (strings.TrimRight s cut) as [ | a t] eqn:E.
  - assert (A : allChars (strings.inCutset cut) s = true).
    { clear - E. induction s as [ | c s IH]; [ reflexivity | ].
      cbn [strings.TrimRight] in E. cbn [allChars].
      destruct (strings.TrimRight s cut) eqn:E'; [ | discriminate ].
      destruct (strings.inCutset cut c); [ | discriminate ].
      now rewrite IH. }
    rewrite TrimRight_all; [ reflexivity | ].
    now rewrite allChars_append, Hl, A.
  - rewrite (TrimRight_app_nonempty cut l s a t E).
    now apply TrimLeft_app_cut.
Qed.

Lemma Trim_all :
  forall cut s, allChars (strings.inCutset cut) s = true -> strings.Trim s cut = "".
Proof. intros cut s H. unfold strings.Trim. now rewrite TrimRight_all. Qed.

Lemma guard_false :
  forall data : bytes,
    data <> "" -> data <> "null" ->
    ((len data =? 0)%nat || (string_of_bytes data =? "null")%string) = false.
Proof.
  intros data H0 Hn. unfold string_of_bytes. rewrite (len_zero_false data H0).
  now rewrite (eqb_false_of_neq _ _ Hn).
Qed.

Lemma allChars_both :
  forall (p : ascii -> bool) s,
    allChars p s = true -> allChars (fun c => negb (p c)) s = true -> s = "".
Proof.
  intros p [ | c s] A B; [ reflexivity | ].
  cbn [allChars] in A, B.
  apply andb_prop in A as [A _]. apply andb_prop in B as [B _].
  rewrite A in B. discriminate.
Qed.

(** A text without quotes that is cut into three parts, the outer ones made
    of quotes, is the middle part. *)
Lemma quotes_around :
  forall l s r t,
    quotes l = true -> quotes r = true ->
    allChars (fun c => negb (strings.inCutset (String dq "") c)) t = true ->
    (l ++ s ++ r)%string = t -> s = t.
Proof.
  intros l s r t Hl Hr Ht E. rewrite <- E in Ht.
  rewrite !allChars_append in Ht.
  apply andb_prop in Ht as [Al Ht]. apply andb_prop in Ht as [_ Ar].
  rewrite (allChars_both _ l Hl Al), (allChars_both _ r Hr Ar) in E.
  now rewrite append_nil_r in E.
Qed.

Lemma quotes_around_not :
  forall l s r,
    quotes l = true -> quotes r = true ->
    strings.Trim s (String dq "") <> "" ->
    quotes (l ++ s ++ r) = false.
Proof.
  intros l s r Hl Hr Hs. unfold quotes in *.
  rewrite !allChars_append, Hl, Hr, andb_true_r. cbn [andb].
  destruct (allChars (strings.inCutset (String dq "")) s) eqn:E; [ | reflexivity ].
  elim Hs. now apply Trim_all.
Qed.

(** X3: Bool and Timestamp strip every double quote from both ends of the text
    before they read it: quotes need not be balanced, and text without
    quotes is read the same way. *)
Theorem quotes_are_stripped :
  forall (zoneTime : string -> time.Time -> time.Time)
         (K : Kind) (x : instance K) (l s r : string),
    K = KBool \/ K = KTimestamp ->
    quotes l = true -> quotes r = true ->
    strings.Trim s (String dq "") <> "" -> s <> "null" ->
    observe K (Decode zoneTime K x (l ++ s ++ r)) = observe K (Decode zoneTime K x s).
Proof.
  intros zoneTime K x l s r HK Hl Hr Hs Hn.
  assert (Q : quotes (l ++ s ++ r) = false) by now apply quotes_around_not.
  assert (Qs : quotes s = false).
  { generalize (quotes_around_not "" s "" eq_refl eq_refl Hs).
    cbn [append]. now rewrite append_nil_r. }
  assert (D0 : (l ++ s ++ r)%string <> "") by (intros E; rewrite E in Q; discriminate).
  assert (S0 : s <> "") by (intros E; rewrite E in Qs; discriminate).
  assert (Dn : (l ++ s ++ r)%string <> "null").
  { intros E. apply Hn. now apply (quotes_around l s r "null" Hl Hr eq_refl). }
  assert (Dq : (l ++ s ++ r)%string <> quoted "")
    by (intros E; rewrite E in Q; discriminate).
  assert (Sq : s <> quoted "") by (intros E; rewrite E in Qs; discriminate).
  assert (T : strings.Trim (l ++ s ++ r) (String dq "") = strings.Trim s (String dq ""))
    by now apply Trim_app.
  destruct HK as [-> | ->]; unfold observe; cbn [Decode Accessor PresentFlag].
  - unfold Bool_UnmarshalJSON.
    rewrite (guard_false _ D0 Dn), (guard_false _ S0 Hn).
    unfold string_of_bytes. rewrite T.
    repeat split_if; reflexivity.
  - unfold Time_UnmarshalJSON.
    rewrite (guard_false _ D0 Dn), (guard_false _ S0 Hn).
    unfold string_of_bytes. rewrite T.
    change (quoted "") with (String dq (String dq "")) in Dq, Sq.
    rewrite (eqb_false_of_neq _ _ Dq), (eqb_false_of_neq _ _ Sq).
    destruct (parseFirst zoneTime timeLayouts (strings.Trim s (String dq "")));
      reflexivity.
Qed.

Lemma quotes_are_stripped_witness :
  observe KBool
    (Decode zoneZero KBool (absent KBool)
       (String dq (String dq "") ++ "True" ++ String dq ""))
  = observe KBool (Decode zoneZero KBool (absent KBool) "True").
Proof.
  apply (quotes_are_stripped zoneZero KBool (absent KBool)
           (String dq (String dq "")) "True" (String dq ""));
    [ now left | reflexivity | reflexivity | discriminate | discriminate ].
Defined.

Lemma TrimRight_decompose :
  forall cut s,
    exists r, s = (strings.TrimRight s cut ++ r)%string
              /\ allChars (strings.inCutset cut) r = true.
Proof.
  intros cut. induction s as [ | c s (r0 & E & A)].
  - exists "". split; reflexivity.
  - cbn [strings.TrimRight]. destruct (strings.TrimRight s cut) as [ | a t] eqn:T.
    + cbn [append] in E. subst r0.
      destruct (strings.inCutset cut c) eqn:C.
      * exists (String c s). split; [ reflexivity | ]. cbn [allChars]. now rewrite C, A.
      * exists s. split; [ reflexivity | exact A ].
    + exists r0. split; [ | exact A ]. cbn [append] in E |- *. now f_equal.
Qed.

Lemma TrimLeft_decompose :
  forall cut s,
    exists l, s = (l ++ strings.TrimLeft s cut)%string
              /\ allChars (strings.inCutset cut) l = true.
Proof.
  intros cut. induction s as [ | c s (l0 & E & A)].
  - exists "". split; reflexivity.
  - cbn [strings.TrimLeft]. destruct (strings.inCutset cut c) eqn:C.
    + exists (String c l0). split; [ cbn [append]; now rewrite <- E | ].
      cbn [allChars]. now rewrite C, A.
    + exists "". split; reflexivity.
Qed.

(** What [strings.Trim] removes is a run of the cutset at each end. *)
Lemma Trim_decompose :
  forall cut s,
    exists l r, s = (l ++ strings.Trim s cut ++ r)%string
                /\ allChars (strings.inCutset cut) l = true
                /\ allChars (strings.inCutset cut) r = true.
Proof.
  intros cut s. unfold strings.Trim.
  destruct (TrimRight_decompose cut s) as (r & Er & Ar).
  destruct (TrimLeft_decompose cut (strings.TrimRight s cut)) as (l & El & Al).
  exists l, r. split; [ | now split ].
  rewrite <- append_assoc, <- El. exact Er.
Qed.

Lemma lower_quote :
  forall c, strings.inCutset (String dq "") (strings.lower c)
            = strings.inCutset (String dq "") c.
Proof. intros c; by_all_bytes c. Qed.

(** A text that reads true or false in lower case has no quote at either
    end. *)
Lemma Trim_bool_word :
  forall (s : string) (v : bool),
    strings.ToLower s = (if v then "true" else "false") ->
    strings.Trim s (String dq "") = s.
Proof.
  intros s v H.
  assert (Q : forall c x, strings.lower c = x ->
                          strings.inCutset (String dq "") x = false ->
                          strings.inCutset (String dq "") c = false).
  { intros c x <- Hx. now rewrite <- lower_quote. }
  destruct v.
  - destruct s as [ | c1 [ | c2 [ | c3 [ | c4 [ | c5 s]]]]]; try discriminate H.
    cbn [strings.ToLower] in H. injection H as H1 H2 H3 H4.
    unfold strings.Trim. cbn [strings.TrimRight].
    rewrite (Q c4 _ H4 eq_refl). cbn [strings.TrimLeft].
    now rewrite (Q c1 _ H1 eq_refl).
  - destruct s as [ | c1 [ | c2 [ | c3 [ | c4 [ | c5 [ | c6 s]]]]]]; try discriminate H.
    cbn [strings.ToLower] in H. injection H as H1 H2 H3 H4 H5.
    unfold strings.Trim. cbn [strings.TrimRight].
    rewrite (Q c5 _ H5 eq_refl). cbn [strings.TrimLeft].
    now rewrite (Q c1 _ H1 eq_refl).
Qed.

(** X4: The texts Bool accepts as a value: true or false in any letter case,
    between any number of double quotes on either side, and no other. *)
Theorem Bool_accepted_texts :
  forall (b : params_Bool) (data : bytes) (v : bool),
    Bool_UnmarshalJSON b data = (mkBool v true, None)
    <-> exists l s r : string,
          data = (l ++ s ++ r)%string /\ quotes l = true /\ quotes r = true
          /\ strings.ToLower s = (if v then "true" else "false").
Proof.
  intros b data v. split.
  - intros H. unfold Bool_UnmarshalJSON in H.
    destruct ((len data =? 0)%nat || (string_of_bytes data =? "null")%string);
      [ discriminate H | ].
    unfold string_of_bytes in H.
    destruct (Trim_decompose (String dq "") data) as (l & r & E & Al & Ar).
    exists l, (strings.Trim data (String dq "")), r.
    split; [ exact E | ]. split; [ exact Al | ]. split; [ exact Ar | ].
    destruct (strings.ToLower (strings.Trim data (String dq "")) =? "true")%string eqn:Et.
    + apply String.eqb_eq in Et. injection H as <-. exact Et.
    + destruct (strings.ToLower (strings.Trim data (String dq "")) =? "false")%string
        eqn:Ef; [ | discriminate H ].
      apply String.eqb_eq in Ef. injection H as <-. exact Ef.
  - intros (l & s & r & -> & Hl & Hr & Hs).
    pose proof (Trim_bool_word s v Hs) as T.
    assert (Ts : strings.Trim s (String dq "") <> "").
    { rewrite T. intros ->. destruct v; discriminate Hs. }
    assert (Q : quotes (l ++ s ++ r) = false) by now apply quotes_around_not.
    assert (D0 : (l ++ s ++ r)%string <> "") by (intros E; rewrite E in Q; discriminate).
    assert (Dn : (l ++ s ++ r)%string <> "null").
    { intros E. rewrite (quotes_around l s r "null" Hl Hr eq_refl E) in Hs.
      destruct v; discriminate Hs. }
    unfold Bool_UnmarshalJSON. rewrite (guard_false _ D0 Dn).
    unfold string_of_bytes. rewrite (Trim_app _ l s r Hl Hr), T, Hs.
    destruct v; reflexivity.
Qed.

(** ** White space around a token *)

Lemma skipSpace_app :
  forall w s, spaces w = true -> json.skipSpace (w ++ s) = json.skipSpace s.
Proof.
  unfold spaces. induction w as [ | c w IH]; intros s H; [ reflexivity | ].
  cbn [allChars] in H. apply andb_prop in H as [Hc Hw].
  cbn [append json.skipSpace]. rewrite Hc. now apply IH.
Qed.

Lemma trimRightSpace_spaces :
  forall w, spaces w = true -> json.trimRightSpace w = "".
Proof.
  unfold spaces. induction w as [ | c w IH]; intros H; [ reflexivity | ].
  cbn [allChars] in H. apply andb_prop in H as [Hc Hw].
  cbn [json.trimRightSpace]. now rewrite (IH Hw), Hc.
Qed.

Lemma trimRightSpace_app :
  forall s w, spaces w = true -> json.trimRightSpace (s ++ w) = json.trimRightSpace s.
Proof.
  intros s w H. induction s as [ | c s IH].
  - simpl. now apply trimRightSpace_spaces.
  - cbn [append json.trimRightSpace]. now rewrite IH.
Qed.

Lemma skipSpace_decompose :
  forall s, exists w, s = (w ++ json.skipSpace s)%string /\ spaces w = true.
Proof.
  unfold spaces. induction s as [ | c s (w & E & A)].
  - exists "". split; reflexivity.
  - cbn [json.skipSpace]. destruct (json.isSpace c) eqn:C.
    + exists (String c w). split; [ cbn [append]; now rewrite <- E | ].
      cbn [allChars]. now rewrite C, A.
    + exists "". split; reflexivity.
Qed.

Lemma trimRightSpace_decompose :
  forall s, exists w, s = (json.trimRightSpace s ++ w)%string /\ spaces w = true.
Proof.
  unfold spaces. induction s as [ | c s (w & E & A)].
  - exists "". split; reflexivity.
  - cbn [json.trimRightSpace]. destruct (json.trimRightSpace s) as [ | a t] eqn:T.
    + cbn [append] in E. subst w.
      destruct (json.isSpace c) eqn:C.
      * exists (String c s). split; [ reflexivity | ]. cbn [allChars]. now rewrite C, A.
      * exists s. split; [ reflexivity | exact A ].
    + exists w. split; [ | exact A ]. cbn [append] in E |- *. now f_equal.
Qed.

(** The texts the scanner reads as null: null with white space around. *)
Lemma scan_null :
  forall data,
    json.scan data = Some json.ItemNull
    <-> exists w1 w2, data = (w1 ++ "null" ++ w2)%string
                      /\ spaces w1 = true /\ spaces w2 = true.
Proof.
  intros data. split.
  - intros H. unfold json.scan, string_of_bytes in H.
    destruct (skipSpace_decompose data) as (w1 & E1 & A1).
    destruct (json.skipSpace data) as [ | c r] eqn:Sk; [ discriminate H | ].
    destruct (Ascii.eqb c dq).
    { destruct (json.unquote (S (len r)) r) as [[t rest] | ]; [ | discriminate H ].
      destruct (json.skipSpace rest); discriminate H. }
    destruct (Ascii.eqb c "{" || Ascii.eqb c "[").
    { destruct (json.checkValid data); [ | discriminate H ].
      destruct (Ascii.eqb c "{"); discriminate H. }
    destruct (trimRightSpace_decompose (String c r)) as (w2 & E2 & A2).
    destruct (json.trimRightSpace (String c r) =? "null")%string eqn:N.
    + apply String.eqb_eq in N. rewrite N in E2.
      exists w1, w2. split; [ | now split ]. now rewrite <- E2.
    + destruct (json.trimRightSpace (String c r) =? "true")%string; [ discriminate H | ].
      destruct (json.trimRightSpace (String c r) =? "false")%string; [ discriminate H | ].
      destruct (json.isValidNumber (json.trimRightSpace (String c r))); discriminate H.
  - intros (w1 & w2 & -> & A1 & A2).
    unfold json.scan, string_of_bytes. rewrite (skipSpace_app w1 _ A1).
    cbn [append json.skipSpace]. change (json.isSpace "n") with false. cbv iota.
    change (Ascii.eqb "n" dq) with false. cbv iota.
    change (Ascii.eqb "n" "{" || Ascii.eqb "n" "[") with false. cbv iota.
    change (String "n" (String "u" (String "l" (String "l" w2))))
      with ("null" ++ w2)%string.
    now rewrite (trimRightSpace_app "null" w2 A2).
Qed.

(** ** What a decode keeps of the receiver *)

(** X5: What the accessors return after UnmarshalJSON, and whether it returned
    an error, do not depend on what the instance held before the call.  The
    one exception is a String that reads null with white space around it:
    [json.Unmarshal] leaves its target alone then. *)
Theorem decode_forgets_receiver :
  forall (zoneTime : string -> time.Time -> time.Time)
         (K : Kind) (x y : instance K) (data : bytes),
    (K = KString ->
     forall w1 w2 : string,
       spaces w1 = true -> spaces w2 = true -> data <> (w1 ++ "null" ++ w2)%string) ->
    observe K (Decode zoneTime K x data) = observe K (Decode zoneTime K y data).
Proof.
  intros zoneTime K x y data H.
  destruct K; unfold observe; cbn [Decode Accessor PresentFlag].
  - unfold String_UnmarshalJSON.
    destruct ((len data =? 0)%nat || (string_of_bytes data =? "null")%string);
      [ reflexivity | ].
    unfold json.Unmarshal_string.
    destruct (json.scan data) as [[ | b | lit | t | | ] | ] eqn:Sc; try reflexivity.
    exfalso. apply scan_null in Sc as (w1 & w2 & E & A1 & A2).
    exact (H eq_refl w1 w2 A1 A2 E).
  - unfold Bool_UnmarshalJSON. repeat split_if; reflexivity.
  - reflexivity.
  - unfold Time_UnmarshalJSON.
    destruct ((len data =? 0)%nat || (string_of_bytes data =? "null")%string);
      [ reflexivity | ].
    destruct (string_of_bytes data =? String dq (String dq ""))%string;
      [ reflexivity | ].
    destruct (parseFirst zoneTime timeLayouts
                (strings.Trim (string_of_bytes data) (String dq ""))); reflexivity.
Qed.

Lemma decode_forgets_receiver_witness :
  observe KBool (Decode zoneZero KBool (mkBool true true) "yes")
  = observe KBool (Decode zoneZero KBool (mkBool false false) "yes").
Proof.
  apply (decode_forgets_receiver zoneZero KBool (mkBool true true)
           (mkBool false false) "yes").
  intros E. discriminate E.
Defined.

Lemma len_gt_neq :
  forall a b : string, (len a <> len b)%nat -> a <> b.
Proof. intros a b H E. apply H. now rewrite E. Qed.

Lemma ToLower_app :
  forall a b, strings.ToLower (a ++ b) = (strings.ToLower a ++ strings.ToLower b)%string.
Proof.
  induction a as [ | c a IH]; intros b; [ reflexivity | ].
  cbn [append strings.ToLower]. now rewrite IH.
Qed.

Lemma Trim_no_cut :
  forall cut s,
    allChars (fun c => negb (strings.inCutset cut c)) s = true ->
    strings.Trim s cut = s.
Proof.
  intros cut s H. unfold strings.Trim.
  assert (R : strings.TrimRight s cut = s).
  { induction s as [ | c s IH]; [ reflexivity | ].
    cbn [allChars] in H. apply andb_prop in H as [Hc Hs].
    cbn [strings.TrimRight]. rewrite (IH Hs).
    destruct s; [ | reflexivity ].
    apply negb_true_iff in Hc. now rewrite Hc. }
  rewrite R. destruct s as [ | c s]; [ reflexivity | ].
  cbn [allChars] in H. apply andb_prop in H as [Hc _].
  apply negb_true_iff in Hc. cbn [strings.TrimLeft]. now rewrite Hc.
Qed.

Lemma space_not_quote :
  forall c, json.isSpace c = true -> negb (strings.inCutset (String dq "") c) = true.
Proof. intros c; by_all_bytes c. Qed.

Lemma space_not_digit : forall c, json.isSpace c = true -> isDigit c = false.
Proof. intros c; by_all_bytes c. Qed.

(** Every layout of [timeLayouts] starts with the year: a text that does
    not start with a digit fits none. *)
Lemma parseFirst_needs_digit :
  forall (zoneTime : string -> time.Time -> time.Time) (c : ascii) (r : string),
    isDigit c = false -> parseFirst zoneTime timeLayouts (String c r) = None.
Proof.
  intros zoneTime c r H.
  assert (Y : forall st, time.parseStd time.stdLongYear (String c r) st = None).
  { intros st. cbn [time.parseStd]. now rewrite H, orb_true_r. }
  unfold timeLayouts, time.RFC3339, time.dateTimeT.
  cbn [parseFirst app]. unfold time.Parse. cbn [time.parseChunks].
  now rewrite !Y.
Qed.

(** X6: Only the exact text null stands for an absent value.  With white space
    before or after it, String keeps the value it held and reports it
    present, Int fails on the empty number, and Bool and Timestamp reject
    the text. *)
Theorem null_with_white_space :
  forall (zoneTime : string -> time.Time -> time.Time)
         (K : Kind) (x : instance K) (w1 w2 : string),
    spaces w1 = true -> spaces w2 = true -> (w1 ++ w2)%string <> "" ->
    let data := (w1 ++ "null" ++ w2)%string in
    Decode zoneTime K x data
    = match K as k return instance k -> instance k * option error with
      | KString => fun s => (mkString (String_value s) true, None)
      | KBool => fun b =>
          (mkBool (Bool_value b) false,
           Some (Errorf ("invalid boolean format: " ++ data)))
      | KInt => fun _ => (mkInt 0 false, Some (NumError "ParseInt" "" ErrSyntax))
      | KTimestamp => fun _ =>
          (mkTimeParam time.zeroTime true,
           Some (Errorf ("invalid time format: " ++ data)))
      end x.
Proof.
  intros zoneTime K x w1 w2 A1 A2 Hw data.
  assert (L : (4 < len data)%nat).
  { unfold data. rewrite !len_append. change (len "null") with 4%nat.
    destruct w1; [ destruct w2; [ now elim Hw | ] | ]; unfold len; simpl; lia. }
  assert (D0 : data <> "") by (apply len_gt_neq; simpl; lia).
  assert (Dn : data <> "null") by (apply len_gt_neq; simpl; lia).
  assert (Sc : json.scan data = Some json.ItemNull).
  { apply scan_null. now exists w1, w2. }
  assert (NQ : allChars (fun c => negb (strings.inCutset (String dq "") c)) data = true).
  { unfold data. rewrite !allChars_append.
    rewrite (allChars_impl _ _ space_not_quote w1 A1).
    now rewrite (allChars_impl _ _ space_not_quote w2 A2). }
  assert (T : strings.Trim data (String dq "") = data) by now apply Trim_no_cut.
  destruct K; cbn [Decode].
  - unfold String_UnmarshalJSON. rewrite (guard_false _ D0 Dn).
    unfold json.Unmarshal_string. now rewrite Sc.
  - unfold Bool_UnmarshalJSON. rewrite (guard_false _ D0 Dn).
    unfold string_of_bytes. rewrite T.
    assert (N : allChars (fun c => negb (Ascii.eqb c "n")) (strings.ToLower data) = false).
    { unfold data. rewrite !ToLower_app, !allChars_append.
      change (allChars (fun c => negb (Ascii.eqb c "n")) (strings.ToLower "null"))
        with false.
      now rewrite andb_false_r. }
    destruct (strings.ToLower data =? "true")%string eqn:Et.
    { apply String.eqb_eq in Et. rewrite Et in N. discriminate N. }
    destruct (strings.ToLower data =? "false")%string eqn:Ef.
    { apply String.eqb_eq in Ef. rewrite Ef in N. discriminate N. }
    reflexivity.
  - unfold Int_UnmarshalJSON. rewrite (guard_false _ D0 Dn).
    unfold json.Unmarshal_Number. now rewrite Sc.
  - unfold Time_UnmarshalJSON. rewrite (guard_false _ D0 Dn).
    unfold string_of_bytes. rewrite T.
    assert (Dq : data <> String dq (String dq "")) by (apply len_gt_neq; simpl; lia).
    rewrite (eqb_false_of_neq _ _ Dq).
    assert (P : parseFirst zoneTime timeLayouts data = None).
    { unfold data. destruct w1 as [ | c w1].
      - cbn [append]. now apply parseFirst_needs_digit.
      - cbn [append]. apply parseFirst_needs_digit.
        unfold spaces in A1. cbn [allChars] in A1. apply andb_prop in A1 as [Hc _].
        now apply space_not_digit. }
    now rewrite P.
Qed.

Lemma null_with_white_space_witness :
  Decode zoneZero KString (mkString "old" false) (" " ++ "null" ++ "")
  = (mkString "old" true, None).
Proof.
  apply (null_with_white_space zoneZero KString (mkString "old" false) " " "");
    [ reflexivity | reflexivity | discriminate ].
Defined.

(** ** Integers out of range *)

Lemma parseUintLoop_overflow :
  forall k m s0 rest a,
    0 <= a <= strconv.maxUint64 -> 0 <= m < 10 ^ Z.of_nat k ->
    strconv.maxUint64 < a * 10 ^ Z.of_nat k + m ->
    strconv.parseUintLoop s0 (strconv.decimal k m ++ rest) a
    = (strconv.maxUint64, Some (strconv.rangeError "ParseUint" s0)).
Proof.
  induction k as [ | k IH]; intros m s0 rest a Ha Hm Hmax.
  - change (10 ^ Z.of_nat 0) with 1 in *. lia.
  - rewrite pow10_succ in *. pose proof (pow10_pos k) as Pk.
    pose proof (Z.div_mod m 10 ltac:(lia)) as Dm. pose proof (mod10_bound m) as Bm.
    cbn [strconv.decimal]. rewrite append_assoc. cbn [append].
    assert (Hq : 0 <= m / 10 < 10 ^ Z.of_nat k).
    { split; [ apply Z.div_pos; lia | apply Z.div_lt_upper_bound; lia ]. }
    destruct (Z_le_gt_dec (a * 10 ^ Z.of_nat k + m / 10) strconv.maxUint64) as [Le | Gt].
    + rewrite (parseUintLoop_decimal k (m / 10) s0 _ a (proj1 Ha) Hq Le).
      cbn [strconv.parseUintLoop].
      destruct (digitChar_spec _ Bm) as (D1 & D2 & _). rewrite D1, D2. cbn [negb].
      set (n := a * 10 ^ Z.of_nat k + m / 10) in *.
      assert (Hn : n * 10 + m mod 10 = a * (10 * 10 ^ Z.of_nat k) + m) by (unfold n; lia).
      assert (Hn0 : 0 <= n) by (unfold n; nia).
      unfold strconv.maxUint64 in *.
      change (2 ^ 64 - 1) with 18446744073709551615 in *.
      change (2 ^ 64) with 18446744073709551616.
      change (18446744073709551615 / 10 + 1) with 1844674407370955162.
      destruct (1844674407370955162 <=? n) eqn:E1; [ reflexivity | ].
      assert (W : (n * 10 + m mod 10) mod 18446744073709551616
                  = n * 10 + m mod 10 - 18446744073709551616).
      { symmetry. apply Z.mod_unique_pos with (q := 1); lia. }
      rewrite W.
      assert (E2 : (n * 10 + m mod 10 - 18446744073709551616 <? n * 10) = true) by lia.
      now rewrite E2.
    + apply IH; [ exact Ha | exact Hq | lia ].
Qed.

(** A decimal numeral of [S k] digits without a leading zero is a JSON
    number, with a minus sign before it as well. *)
Lemma decimal_literal_valid :
  forall k m,
    10 ^ Z.of_nat k <= m < 10 ^ Z.of_nat (S k) ->
    exists c r,
      strconv.decimal (S k) m = String c r
      /\ Ascii.eqb c "-" = false /\ Ascii.eqb c "+" = false
      /\ json.isValidNumber (String c r) = true
      /\ json.isValidNumber (String "-" (String c r)) = true.
Proof.
  intros k m H. rewrite pow10_succ in H. pose proof (pow10_pos k) as Pk.
  destruct (decimal_head k m) as (r & E & Hr). rewrite E.
  set (h := m / 10 ^ Z.of_nat k).
  assert (Hh : 1 <= h < 10).
  { unfold h. split.
    - apply Z.div_le_lower_bound; lia.
    - apply Z.div_lt_upper_bound; lia. }
  rewrite (Z.mod_small h 10) by lia.
  destruct (digitChar_spec h ltac:(lia)) as (D1 & _ & D3).
  set (c := digitChar h) in *. clearbody c.
  assert (Q1 : Ascii.eqb c "-" = false /\ Ascii.eqb c "+" = false).
  { revert D1. clear. by_all_bytes c. }
  assert (Q2 : Ascii.eqb c "0" = false).
  { apply Ascii.eqb_neq. intros Ec. rewrite Ec in D3.
    change (byteZ "0"%char) with 48 in D3. lia. }
  assert (Q3 : (49 <=? byteZ c) && (byteZ c <=? 57) = true)
    by (apply andb_true_intro; split; lia).
  assert (Sk : json.skipDigits r = "") by now apply digits_skipDigits_empty.
  exists c, r. split; [ reflexivity | ]. split; [ apply Q1 | ]. split; [ apply Q1 | ].
  split.
  - unfold json.isValidNumber. rewrite (proj1 Q1), Q2, Q3, Sk. reflexivity.
  - unfold json.isValidNumber. change (Ascii.eqb "-" "-") with true. cbv iota.
    rewrite Q2, Q3, Sk. reflexivity.
Qed.

Lemma ParseUint_large :
  forall k m,
    10 ^ Z.of_nat k <= m < 10 ^ Z.of_nat (S k) -> 2 ^ 63 <= m ->
    let s := strconv.decimal (S k) m in
    exists un,
      2 ^ 63 <= un /\ (m <> 2 ^ 63 -> 2 ^ 63 < un)
      /\ (strconv.ParseUint s = (un, None)
          \/ strconv.ParseUint s = (un, Some (strconv.rangeError "ParseUint" s))).
Proof.
  intros k m H L s. pose proof (pow10_pos k) as Pk.
  destruct (decimal_literal_valid k m H) as (c & r & E & _).
  assert (PU : strconv.ParseUint s = strconv.parseUintLoop s (s ++ "") 0).
  { rewrite append_nil_r. unfold strconv.ParseUint, s. now rewrite E. }
  change (2 ^ 63) with 9223372036854775808 in *.
  destruct (Z_le_gt_dec m strconv.maxUint64) as [Le | Gt].
  - exists m. split; [ exact L | ]. split; [ lia | ]. left. rewrite PU. unfold s.
    rewrite parseUintLoop_decimal; [ | lia | lia | lia ].
    cbn [strconv.parseUintLoop]. f_equal; lia.
  - exists strconv.maxUint64. unfold strconv.maxUint64 in *.
    change (2 ^ 64 - 1) with 18446744073709551615 in *.
    split; [ lia | ]. split; [ lia | ]. right. rewrite PU. unfold s.
    apply parseUintLoop_overflow.
    + unfold strconv.maxUint64. change (2 ^ 64 - 1) with 18446744073709551615. lia.
    + lia.
    + unfold strconv.maxUint64. change (2 ^ 64 - 1) with 18446744073709551615. lia.
Qed.

(** X7: A decimal numeral of any length whose value does not fit an int64 is an
    error of range: the value is never cut to 64 bits. *)
Theorem Int_overflow_is_an_error :
  forall (i : params_Int) (k : nat) (m : Z),
    10 ^ Z.of_nat k <= m < 10 ^ Z.of_nat (S k) -> 2 ^ 63 <= m ->
    let s := strconv.decimal (S k) m in
    Int_UnmarshalJSON i s = (mkInt 0 false, Some (NumError "ParseInt" s ErrRange))
    /\ (m <> 2 ^ 63 ->
        Int_UnmarshalJSON i ("-" ++ s)
        = (mkInt 0 false, Some (NumError "ParseInt" ("-" ++ s) ErrRange))).
Proof.
  intros i k m H L s.
  destruct (decimal_literal_valid k m H) as (c & r & E & Q1 & Q2 & V & V').
  destruct (ParseUint_large k m H L) as (un & U1 & U2 & PU).
  fold s in E, PU. rewrite E in *.
  split.
  - rewrite (Int_decode_number i _ V). unfold json.Number_Int64, strconv.ParseInt.
    rewrite Q1, Q2. cbn [orb negb andb].
    assert (C : (2 ^ 63 <=? un) = true) by lia.
    destruct PU as [-> | ->]; unfold strconv.rangeError; now rewrite C.
  - intros Hm. specialize (U2 Hm). cbn [append].
    rewrite (Int_decode_number i _ V'). unfold json.Number_Int64, strconv.ParseInt.
    change (Ascii.eqb "-" "-") with true. change (Ascii.eqb "-" "+") with false.
    cbn [orb negb andb].
    assert (C : (2 ^ 63 <? un) = true) by lia.
    destruct PU as [-> | ->]; unfold strconv.rangeError; now rewrite C.
Qed.

Lemma Int_overflow_is_an_error_witness :
  Int_UnmarshalJSON (mkInt 7 true) "100000000000000000000"
  = (mkInt 0 false, Some (NumError "ParseInt" "100000000000000000000" ErrRange))
  /\ (100000000000000000000 <> 2 ^ 63 ->
      Int_UnmarshalJSON (mkInt 7 true) "-100000000000000000000"
      = (mkInt 0 false, Some (NumError "ParseInt" "-100000000000000000000" ErrRange))).
Proof.
  apply (Int_overflow_is_an_error (mkInt 7 true) 20 100000000000000000000);
    [ split; [ apply Z.leb_le | apply Z.ltb_lt ]; reflexivity
    | apply Z.leb_le; reflexivity ].
Defined.

(** ** Instances, encoded and decoded again *)

Lemma String_instance_read_back :
  forall x y : params_String,
    utf8.ValidString (String_Value x) = true ->
    String_UnmarshalJSON y (fst (String_MarshalJSON x))
    = (mkString (String_Value x) true, None).
Proof.
  intros x y V.
  change (String_MarshalJSON x)
    with (String_MarshalJSON (String_Set x (String_Value x))).
  now apply String_round_trip.
Qed.

Lemma Bool_instance_read_back :
  forall x y : params_Bool,
    Bool_UnmarshalJSON y (fst (Bool_MarshalJSON x))
    = (mkBool (Bool_Value x) (Bool_Present x), None).
Proof. intros [[ | ] [ | ]] y; reflexivity. Qed.

Lemma Int_instance_read_back :
  forall x y : params_Int,
    - 2 ^ 63 <= Int_Get x < 2 ^ 63 ->
    Int_UnmarshalJSON y (fst (Int_MarshalJSON x)) = (mkInt (Int_Get x) true, None).
Proof.
  intros x y V.
  change (Int_MarshalJSON x) with (Int_MarshalJSON (Int_Set x (Int_Get x))).
  now apply Int_round_trip.
Qed.

Lemma Time_instance_read_back :
  forall (zoneTime : string -> time.Time -> time.Time) (x y : params_Time),
    time.wf (Time_Value x) = true -> representable (Time_Value x) = true ->
    Z.rem (time.offset (Time_Value x)) 60 = 0 ->
    Time_UnmarshalJSON zoneTime y (fst (Time_MarshalJSON x))
    = (mkTimeParam (Time_Value x) (Time_Present x), None).
Proof.
  intros zoneTime [t [ | ]] y V1 V2 V3; [ | reflexivity ].
  unfold Time_Value, Time_Present in *. cbn [Time_present Time_value negb] in *.
  destruct (Time_round_trip zoneTime (mkTimeParam t true) y t V1 V2 V3)
    as (tok & E & D).
  change (Time_MarshalJSON (mkTimeParam t true))
    with (Time_MarshalJSON (Time_Set (mkTimeParam t true) t)).
  now rewrite E.
Qed.

(** X8: Decoding what MarshalJSON wrote for an instance, present or not, whose
    value has a JSON form of its own.  The value comes back; the presence
    comes back for Bool and Timestamp, whose absent instances are written
    as null, and is lost for Int and String, whose absent instances are
    written as 0 and as the empty string literal and read back present. *)
Theorem decode_of_encoded_instance :
  forall (zoneTime : string -> time.Time -> time.Time)
         (K : Kind) (x y : instance K),
    validValue K (Accessor K x) = true ->
    Decode zoneTime K y (fst (Encode K x))
    = (mkInstance K (Accessor K x)
         match K with
         | KInt | KString => true
         | KBool | KTimestamp => PresentFlag K x
         end, None).
Proof.
  intros zoneTime K x y V.
  destruct K; cbn [Decode Encode Accessor PresentFlag mkInstance validValue] in *.
  - now apply String_instance_read_back.
  - apply Bool_instance_read_back.
  - apply Int_instance_read_back. apply andb_prop in V as [V1 V2]. lia.
  - apply andb_prop in V as [V V3]. apply andb_prop in V as [V1 V2].
    apply Z.eqb_eq in V3. now apply Time_instance_read_back.
Qed.

Lemma decode_of_encoded_instance_witness :
  Decode zoneZero KInt (mkInt 7 true) (fst (Encode KInt (absent KInt)))
  = (mkInt 0 true, None).
Proof.
  apply (decode_of_encoded_instance zoneZero KInt (absent KInt) (mkInt 7 true)).
  reflexivity.
Defined.

(** ** Instances built by the methods *)

Lemma step_absent_zero :
  forall (zoneTime : string -> time.Time -> time.Time)
         (K : Kind) (x : instance K) (o : op K),
    K <> KBool ->
    PresentFlag K (step zoneTime K x o) = false ->
    Stored K (step zoneTime K x o) = zeroValue K.
Proof.
  intros zoneTime K x [data | v] HK; cbn [step].
  - destruct K; cbn [Decode PresentFlag Stored zeroValue].
    + unfold String_UnmarshalJSON, String_Present.
      destruct ((len data =? 0)%nat || (string_of_bytes data =? "null")%string);
        [ reflexivity | ].
      destruct (json.Unmarshal_string (String_value x) data) as [v [e | ]];
        [ reflexivity | discriminate ].
    + now elim HK.
    + unfold Int_UnmarshalJSON.
      destruct ((len data =? 0)%nat || (string_of_bytes data =? "null")%string);
        [ reflexivity | ].
      destruct (json.Unmarshal_Number "" data) as [v [e | ]]; [ reflexivity | ].
      destruct (json.Number_Int64 v) as [vv [e | ]]; [ reflexivity | discriminate ].
    + unfold Time_UnmarshalJSON, Time_Present.
      destruct ((len data =? 0)%nat || (string_of_bytes data =? "null")%string);
        [ reflexivity | ].
      destruct (string_of_bytes data =? String dq (String dq ""))%string;
        [ discriminate | ].
      destruct (parseFirst zoneTime timeLayouts
                  (strings.Trim (string_of_bytes data) (String dq "")));
        discriminate.
  - destruct K; discriminate.
Qed.

Lemma run_absent_zero :
  forall (zoneTime : string -> time.Time -> time.Time)
         (K : Kind) (ops : list (op K)),
    K <> KBool ->
    PresentFlag K (run zoneTime K ops (absent K)) = false ->
    Stored K (run zoneTime K ops (absent K)) = zeroValue K.
Proof.
  intros zoneTime K ops HK. unfold run.
  destruct ops as [ | o ops] using rev_ind.
  - intros _. destruct K; reflexivity.
  - rewrite fold_left_app. cbn [fold_left]. now apply step_absent_zero.
Qed.

(** X9: An invariant of String, Int and Timestamp: in every instance built from
    the zero value by calls of UnmarshalJSON and Set, in any order and
    whatever their outcome, an instance that is not present holds the zero
    value in its field.  Bool does not keep it: a failed decode leaves the
    old value in the field. *)
Theorem absent_instance_holds_zero :
  forall (zoneTime : string -> time.Time -> time.Time)
         (K : Kind) (ops : list (op K)),
    K <> KBool ->
    PresentFlag K (run zoneTime K ops (absent K)) = false ->
    run zoneTime K ops (absent K) = absent K.
Proof.
  intros zoneTime K ops HK HP.
  pose proof (run_absent_zero zoneTime K ops HK HP) as HS.
  destruct K; cbn [PresentFlag Stored zeroValue absent mkInstance] in *;
    destruct (run zoneTime _ ops _) as [v p];
    cbn [String_Present String_present String_value Int_Present Int_Value
           Time_Present Time_present Time_value] in *;
    try (now elim HK); now subst.
Qed.

Lemma absent_instance_holds_zero_witness :
  run zoneZero KInt [OpSet KInt 5; OpDecode KInt "1.5"] (absent KInt) = absent KInt.
Proof.
  apply (absent_instance_holds_zero zoneZero KInt [OpSet KInt 5; OpDecode KInt "1.5"]);
    [ discriminate | reflexivity ].
Defined.

(** X10: GetJSON marshals the field and MarshalJSON what Value returns.  On every
    String built by the methods the two agree. *)
Theorem GetJSON_is_MarshalJSON :
  forall (zoneTime : string -> time.Time -> time.Time) (ops : list (op KString)),
    let s := run zoneTime KString ops (absent KString) in
    String_MarshalJSON s = (bytes_of_string (String_GetJSON s), None).
Proof.
  intros zoneTime ops s.
  assert (H : String_Value s = String_value s).
  { unfold String_Value. destruct (String_present s) eqn:P; [ reflexivity | ].
    symmetry. apply (run_absent_zero zoneTime KString ops); [ discriminate | exact P ]. }
  unfold String_MarshalJSON, String_GetJSON. rewrite H. reflexivity.
Qed.

(** ** String literals: what unquote returns is valid UTF-8 *)

Lemma esc_ascii :
  forall e,
    Ascii.eqb e dq || Ascii.eqb e bslash || Ascii.eqb e "/" = true ->
    (byteZ e <? 128) = true.
Proof. intros e; by_all_bytes e. Qed.

(** The text of a string literal is valid UTF-8, whatever bytes the literal
    holds: [unquote] writes a rune for every escape and U+FFFD for every
    byte that belongs to no rune. *)
Lemma unquote_valid :
  forall fuel s t rest,
    json.unquote fuel s = Some (t, rest) ->
    forall f, (len t <= f)%nat -> utf8.valid_loop f t = true.
Proof.
  induction fuel as [ | fu IH]; intros s t rest H; [ discriminate H | ].
  assert (Cons : forall c o,
             (byteZ c <? 128) = true ->
             json.cons_fst c o = Some (t, rest) ->
             (forall t', o = Some (t', rest) ->
                         forall f, (len t' <= f)%nat -> utf8.valid_loop f t' = true) ->
             forall f, (len t <= f)%nat -> utf8.valid_loop f t = true).
  { intros c [[t' rest'] | ] Hc Ho Hi; [ | discriminate Ho ].
    cbn [json.cons_fst] in Ho. injection Ho as <- <-.
    apply valid_cons_ascii; [ exact Hc | now apply Hi ]. }
  assert (App : forall r o,
             json.app_fst (utf8.EncodeRune r) o = Some (t, rest) ->
             (forall t', o = Some (t', rest) ->
                         forall f, (len t' <= f)%nat -> utf8.valid_loop f t' = true) ->
             forall f, (len t <= f)%nat -> utf8.valid_loop f t = true).
  { intros r [[t' rest'] | ] Ho Hi; [ | discriminate Ho ].
    cbn [json.app_fst] in Ho. injection Ho as <- <-.
    apply valid_app_rune. now apply Hi. }
  cbn [json.unquote] in H.
  destruct s as [ | c r]; [ discriminate H | ].
  destruct (Ascii.eqb c dq).
  { injection H as <- _. intros f _. destruct f; reflexivity. }
  destruct (Ascii.eqb c bslash).
  { destruct r as [ | e r']; [ discriminate H | ].
    destruct (Ascii.eqb e dq || Ascii.eqb e bslash || Ascii.eqb e "/") eqn:E0.
    { apply (Cons _ _ (esc_ascii e E0) H). intros t'. apply IH. }
    destruct (Ascii.eqb e "b").
    { apply (Cons "008"%char _ eq_refl H). intros t'. apply IH. }
    destruct (Ascii.eqb e "f").
    { apply (Cons "012"%char _ eq_refl H). intros t'. apply IH. }
    destruct (Ascii.eqb e "n").
    { apply (Cons "010"%char _ eq_refl H). intros t'. apply IH. }
    destruct (Ascii.eqb e "r").
    { apply (Cons "013"%char _ eq_refl H). intros t'. apply IH. }
    destruct (Ascii.eqb e "t").
    { apply (Cons "009"%char _ eq_refl H). intros t'. apply IH. }
    destruct (Ascii.eqb e "u"); [ | discriminate H ].
    destruct (json.getu4 (String c (String e r'))) as [rr | ]; [ | discriminate H ].
    destruct (json.IsSurrogate rr).
    - destruct (json.getu4 (utf8.drop 6 (String c (String e r')))) as [rr1 | ].
      + destruct (negb (json.utf16_DecodeRune rr rr1 =? utf8.RuneError));
          apply (App _ _ H); intros t'; apply IH.
      + apply (App _ _ H). intros t'. apply IH.
    - apply (App _ _ H). intros t'. apply IH. }
  destruct (byteZ c <? 32); [ discriminate H | ].
  destruct (byteZ c <? utf8.RuneSelf) eqn:E1.
  { apply (Cons _ _ E1 H). intros t'. apply IH. }
  destruct (utf8.DecodeRune (String c r)) as [rr size].
  apply (App _ _ H). intros t'. apply IH.
Qed.

(** Scanning never yields a string that is not UTF-8. *)
Lemma scan_string_valid :
  forall data t, json.scan data = Some (json.ItemString t) -> utf8.ValidString t = true.
Proof.
  intros data t H. unfold json.scan in H.
  destruct (json.skipSpace (string_of_bytes data)) as [ | c r]; [ discriminate H | ].
  destruct (Ascii.eqb c dq).
  - destruct (json.unquote (S (len r)) r) as [[t' rest] | ] eqn:U; [ | discriminate H ].
    destruct (json.skipSpace rest); [ | discriminate H ].
    injection H as <-. unfold utf8.ValidString.
    apply (unquote_valid _ _ _ _ U). lia.
  - destruct (Ascii.eqb c "{" || Ascii.eqb c "[").
    { destruct (json.checkValid (string_of_bytes data)); [ | discriminate H ].
      destruct (Ascii.eqb c "{"); discriminate H. }
    cbv zeta in H.
    repeat match type of H with
           | context [if ?g then _ else _] => destruct g
           end; discriminate H.
Qed.

(** X11: A String that holds UTF-8 holds UTF-8 after UnmarshalJSON, whatever the
    bytes of the text decoded: bytes of the literal that belong to no rune
    are replaced by U+FFFD. *)
Theorem String_decoded_is_utf8 :
  forall (s s' : params_String) (data : bytes) (e : option error),
    utf8.ValidString (String_value s) = true ->
    String_UnmarshalJSON s data = (s', e) ->
    utf8.ValidString (String_value s') = true.
Proof.
  intros s s' data e V H. unfold String_UnmarshalJSON in H.
  destruct ((len data =? 0)%nat || (string_of_bytes data =? "null")%string).
  { injection H as <- _. reflexivity. }
  unfold json.Unmarshal_string in H.
  destruct (json.scan data) as [[ | b | lit | t | | ] | ] eqn:Sc;
    injection H as <- _; try reflexivity; try exact V.
  now apply (scan_string_valid data).
Qed.

Lemma String_decoded_is_utf8_witness :
  utf8.ValidString
    (String_value
       (fst (String_UnmarshalJSON (absent KString)
               (quoted (String "a" (String "255"%char "b"))))))
  = true.
Proof.
  apply (String_decoded_is_utf8 (absent KString) _
           (quoted (String "a" (String "255"%char "b")))
           (snd (String_UnmarshalJSON (absent KString)
                   (quoted (String "a" (String "255"%char "b"))))));
    [ reflexivity | ].
  now destruct (String_UnmarshalJSON (absent KString)
                  (quoted (String "a" (String "255"%char "b")))).
Defined.

(** ** The two versions of Time *)

Lemma earlier_same_fields :
  forall (zoneTime : string -> time.Time -> time.Time)
         (d0 : earlier.params_Time) (d1 : params_Time) (data : bytes),
    let a := earlier.Time_UnmarshalJSON zoneTime d0 data in
    let b := Time_UnmarshalJSON zoneTime d1 data in
    earlier.Time_Value (fst a) = Time_value (fst b)
    /\ earlier.Time_Present (fst a) = Time_present (fst b)
    /\ if (string_of_bytes data =? quoted "")%string
       then snd a = Some (Errorf ("invalid time format: " ++ quoted ""))
            /\ snd b = None
       else snd a = snd b.
Proof.
  intros zoneTime d0 d1 data a b. subst a b.
  unfold earlier.Time_UnmarshalJSON, Time_UnmarshalJSON.
  change (quoted "") with (String dq (String dq "")).
  destruct (string_of_bytes data =? String dq (String dq ""))%string eqn:Q.
  - apply String.eqb_eq in Q. unfold string_of_bytes in Q. subst data.
    repeat split.
  - destruct ((len data =? 0)%nat || (string_of_bytes data =? "null")%string).
    + repeat split.
    + destruct (parseFirst zoneTime timeLayouts
                  (strings.Trim (string_of_bytes data) (String dq "")));
        repeat split.
Qed.

(** X12: The two versions of Time in time.go.  Their UnmarshalJSON leave the
    same value and the same presence for every text, so that MarshalJSON
    and IsZero give the same afterwards, and return the same error, but for
    the empty string literal: the earlier version tries the layouts on it
    and fails, the later one accepts it as a present zero time. *)
Theorem earlier_version_differs_on_empty_quotes :
  forall (zoneTime : string -> time.Time -> time.Time)
         (d0 : earlier.params_Time) (d1 : params_Time) (data : bytes),
    let a := earlier.Time_UnmarshalJSON zoneTime d0 data in
    let b := Time_UnmarshalJSON zoneTime d1 data in
    earlier.Time_Value (fst a) = Time_value (fst b)
    /\ earlier.Time_Present (fst a) = Time_present (fst b)
    /\ earlier.Time_MarshalJSON (fst a) = Time_MarshalJSON (fst b)
    /\ earlier.Time_IsZero (fst a) = Time_IsZero (fst b)
    /\ if (string_of_bytes data =? quoted "")%string
       then snd a = Some (Errorf ("invalid time format: " ++ quoted ""))
            /\ snd b = None
       else snd a = snd b.
Proof.
  intros zoneTime d0 d1 data a b.
  destruct (earlier_same_fields zoneTime d0 d1 data) as (V & P & E).
  fold a b in V, P, E.
  split; [ exact V | ]. split; [ exact P | ].
  split; [ | split; [ | exact E ] ].
  - unfold earlier.Time_MarshalJSON, Time_MarshalJSON. now rewrite V, P.
  - unfold earlier.Time_IsZero, Time_IsZero. now rewrite V, P.
Qed.

(** ** Time.IsZero *)

(** IsZero looks at the field and Value at what the presence allows; the
    two agree: IsZero is [Value().IsZero()]. *)
Lemma Time_IsZero_of_Value :
  forall dst : params_Time, Time_IsZero dst = time.IsZero (Time_Value dst).
Proof.
  intros [t [ | ]]; reflexivity.
Qed.

Lemma daysSinceEpoch_sign :
  forall y,
    (2 <= y -> 365 <= time.daysSinceEpoch y)
    /\ (y <= 0 -> time.daysSinceEpoch y <= -366)
    /\ time.daysSinceEpoch 1 = 0.
Proof.
  intros y. unfold time.daysSinceEpoch. cbv zeta.
  repeat split; try reflexivity; intros H; Z.div_mod_to_equations; lia.
Qed.

Lemma yearDay_range :
  forall m d y,
    1 <= m <= 12 -> 1 <= d <= time.daysIn m y ->
    let yd := time.daysBefore m
              + (if time.isLeap y && (3 <=? m) then 1 else 0) + (d - 1) in
    0 <= yd <= 365 /\ (yd = 0 -> m = 1 /\ d = 1).
Proof.
  intros m d y Hm Hd.
  assert (C : m = 1 \/ m = 2 \/ m = 3 \/ m = 4 \/ m = 5 \/ m = 6 \/ m = 7
              \/ m = 8 \/ m = 9 \/ m = 10 \/ m = 11 \/ m = 12) by lia.
  unfold time.daysIn in Hd.
  destruct C as [-> | [-> | [-> | [-> | [-> | [-> | [-> | [-> | [-> | [-> | [-> | ->]]]]]]]]]]];
    cbn [time.daysBefore Z.eqb Z.leb Z.compare Pos.compare Pos.compare_cont
           Pos.eqb andb orb] in *;
    destruct (time.isLeap y); cbn [andb] in *; lia.
Qed.

(** X13: For a reading in UTC, IsZero is true exactly when Value returns the
    zero time: for every instance that is not present, and for a present
    one that holds January 1 of year 1, 00:00:00. *)
Theorem Time_IsZero_utc :
  forall dst : params_Time,
    time.wf (Time_value dst) = true -> time.offset (Time_value dst) = 0 ->
    (Time_IsZero dst = true <-> Time_Value dst = time.zeroTime).
Proof.
  intros [t [ | ]] W O; cbn [Time_value] in *;
    [ | split; reflexivity ].
  unfold Time_IsZero, Time_Value. cbn [Time_present Time_value negb orb].
  destruct (wf_fields t W) as (Hmo & Hd & Hh & Hmi & Hs & Hns).
  pose proof (yearDay_range _ _ (time.year t) Hmo Hd) as [Yr Y0]. cbv zeta in Yr, Y0.
  destruct (daysSinceEpoch_sign (time.year t)) as (P & N & _).
  split.
  - intros H. unfold time.IsZero, time.sec in H. cbv zeta in H. rewrite O in H.
    apply andb_prop in H as [H1 H2].
    assert (Y1 : time.year t = 1) by lia.
    rewrite Y1 in H1, Y0, Yr. change (time.daysSinceEpoch 1) with 0 in H1.
    destruct Y0 as [M D]; [ lia | ].
    destruct t as [y mo d h mi s ns off]. cbn in *. unfold time.zeroTime.
    f_equal; lia.
  - intros ->. reflexivity.
Qed.

Lemma Time_IsZero_utc_witness :
  Time_IsZero (mkTimeParam (time.mkTime 1 1 1 0 0 0 0 0) true) = true
  <-> Time_Value (mkTimeParam (time.mkTime 1 1 1 0 0 0 0 0) true) = time.zeroTime.
Proof.
  apply (Time_IsZero_utc (mkTimeParam (time.mkTime 1 1 1 0 0 0 0 0) true));
    reflexivity.
Defined.

(** X14: After a decode that returned an error, and after the empty string
    literal, a Timestamp is present and IsZero is true: IsZero does not
    tell an absent instance from these. *)
Theorem Time_IsZero_after_decode :
  forall (zoneTime : string -> time.Time -> time.Time)
         (dst dst' : params_Time) (data : bytes) (e : option error),
    Time_UnmarshalJSON zoneTime dst data = (dst', e) ->
    e <> None \/ data = quoted "" ->
    Time_IsZero dst' = true /\ Time_Present dst' = true.
Proof.
  intros zoneTime dst dst' data e H [He | ->].
  - destruct e as [e | ]; [ | now elim He ].
    destruct (Time_failed_decode zoneTime dst dst' data e H) as [-> _].
    split; reflexivity.
  - injection H as <- _. split; reflexivity.
Qed.

Lemma Time_IsZero_after_decode_witness :
  Time_IsZero (mkTimeParam time.zeroTime true) = true
  /\ Time_Present (mkTimeParam time.zeroTime true) = true.
Proof.
  apply (Time_IsZero_after_decode zoneZero (absent KTimestamp)
           (mkTimeParam time.zeroTime true) (quoted "x")
           (Some (Errorf ("invalid time format: " ++ quoted "x"))));
    [ reflexivity | left; discriminate ].
Defined.

(** ** Time: reading a date and a clock reading, whatever follows *)

Lemma countDigits_app :
  forall s tl,
    allChars isDigit s = true ->
    (forall p r, tl = String p r -> isDigit p = false) ->
    time.countDigits (s ++ tl) = len s.
Proof.
  induction s as [ | c s IH]; intros tl Hs Ht.
  - cbn [append]. destruct tl as [ | p r]; [ reflexivity | ].
    cbn [time.countDigits]. now rewrite (Ht p r eq_refl).
  - cbn [allChars] in Hs. apply andb_prop in Hs as [Hc Hs].
    cbn [append time.countDigits]. rewrite Hc, (IH tl Hs Ht). reflexivity.
Qed.

Lemma parseNanoseconds_tail :
  forall ns tl,
    0 < ns < 1000000000 ->
    (forall p r, tl = String p r -> isDigit p = false) ->
    exists d r n,
      (time.appendNano ns ++ tl)%string = String "." (String d r)
      /\ isDigit d = true
      /\ n = S (time.countDigits (utf8.drop 1 (time.appendNano ns ++ tl)))
      /\ time.parseNanoseconds (time.appendNano ns ++ tl) n = Some ns
      /\ utf8.drop n (time.appendNano ns ++ tl) = tl.
Proof.
  intros ns tl H Ht.
  destruct (appendNano_shape ns H) as (k & m & Hk & -> & Hm & Hns).
  destruct (decimal_head k m) as (r & E & _).
  exists (digitChar ((m / 10 ^ Z.of_nat k) mod 10)), (r ++ tl)%string.
  eexists. split; [ cbn [append]; rewrite E; reflexivity | ].
  split; [ apply (digitChar_spec _ (mod10_bound _)) | ].
  split; [ reflexivity | ].
  cbn [append utf8.drop].
  rewrite (countDigits_app _ tl (decimal_digits (S k) m) Ht), len_decimal.
  split.
  - unfold time.parseNanoseconds. change (time.commaOrPeriod ".") with true.
    cbn [negb]. rewrite Nat.min_l by lia.
    change (utf8.take (S (S k)) (String "." (strconv.decimal (S k) m ++ tl)))
      with (String "." (utf8.take (S k) (strconv.decimal (S k) m ++ tl))).
    cbn [utf8.drop].
    rewrite <- (len_decimal (S k) m) at 1. rewrite take_append.
    rewrite atoi_decimal.
    + replace (m <? 0) with false by lia. f_equal.
      replace (10 - S (S k))%nat with (9 - S k)%nat by lia. lia.
    + exact Hm.
    + apply Z.le_trans with (10 ^ Z.of_nat 9).
      * apply Z.pow_le_mono_r; lia.
      * now vm_compute.
  - change (utf8.drop (S (S k)) (String "." (strconv.decimal (S k) m ++ tl)))
      with (utf8.drop (S k) (strconv.decimal (S k) m ++ tl)).
    rewrite <- (len_decimal (S k) m) at 1. apply drop_append.
Qed.

(** The seconds and their fraction, before a text that starts with no
    digit and no separator of a fraction. *)
Lemma parse_second_tail :
  forall s ns tl st,
    0 <= s < 60 -> 0 <= ns < 1000000000 ->
    (forall p r, tl = String p r -> isDigit p = false /\ time.commaOrPeriod p = false) ->
    time.parseStd time.stdZeroSecond
      (time.appendInt s 2 ++ time.appendNano ns ++ tl) st
    = Some (time.mkFields (time.f_year st) (time.f_month st) (time.f_day st)
              (time.f_hour st) (time.f_min st) s
              (if ns =? 0 then time.f_nsec st else ns) (time.f_utc st)
              (time.f_zoneOffset st) (time.f_zoneName st), tl).
Proof.
  intros s ns tl st Hs Hns Ht. unfold time.parseStd.
  rewrite getnum_appendInt2 by lia.
  replace ((s <? 0) || (60 <=? s)) with false by lia.
  destruct (Z.eq_dec ns 0) as [-> | Nz].
  - change (time.appendNano 0) with "". cbn [append Z.eqb].
    destruct tl as [ | p [ | d r]]; try reflexivity.
    destruct (Ht p _ eq_refl) as [_ Hp]. rewrite Hp. reflexivity.
  - replace (ns =? 0) with false by lia.
    destruct (parseNanoseconds_tail ns tl ltac:(lia))
      as (d & r & n & E & Hd & En & P & D).
    { intros p r Hp. now destruct (Ht p r Hp). }
    rewrite <- En, P, D. rewrite E. rewrite Hd.
    change (time.commaOrPeriod ".") with true. reflexivity.
Qed.

Lemma parse_lit_space :
  forall c rest st,
    Ascii.eqb c " " = false ->
    time.parseStd (time.lit " ") (String " " (String c rest)) st
    = Some (st, String c rest).
Proof.
  intros c rest st H. unfold time.parseStd, time.skip.
  cbn [len String.length time.skip_loop time.cutspace Ascii.eqb Bool.eqb negb].
  rewrite H. reflexivity.
Qed.

(** The date: the first five chunks of every layout of [timeLayouts]. *)
Lemma parse_date :
  forall (t : time.Time) (l : time.layout) (rest : string) (st : time.fields),
    time.wf t = true -> 0 <= time.year t <= 9999 ->
    time.parseChunks
      (time.stdLongYear :: time.lit "-" :: time.stdZeroMonth :: time.lit "-"
         :: time.stdZeroDay :: l)
      (time.appendInt (time.year t) 4 ++ "-" ++ time.appendInt (time.month t) 2
         ++ "-" ++ time.appendInt (time.day t) 2 ++ rest) st
    = time.parseChunks l rest
        (time.mkFields (time.year t) (time.month t) (time.day t) (time.f_hour st)
           (time.f_min st) (time.f_sec st) (time.f_nsec st) (time.f_utc st)
           (time.f_zoneOffset st) (time.f_zoneName st)).
Proof.
  intros t l rest st W Hy.
  destruct (wf_fields t W) as (Hmo & Hd & _).
  pose proof (daysIn_le_31 (time.month t) (time.year t)) as D31.
  cbn [time.parseChunks].
  rewrite parse_year by lia. flat_fields.
  rewrite parse_lit by reflexivity. flat_fields.
  rewrite parse_month by lia. flat_fields.
  rewrite parse_lit by reflexivity. flat_fields.
  rewrite parse_day by lia. flat_fields.
  reflexivity.
Qed.

(** The clock reading: hour, minute, second and the fraction. *)
Lemma parse_clock :
  forall (t : time.Time) (l : time.layout) (tl : string) (st : time.fields),
    time.wf t = true ->
    (forall p r, tl = String p r -> isDigit p = false /\ time.commaOrPeriod p = false) ->
    time.parseChunks
      (time.stdHour :: time.lit ":" :: time.stdZeroMinute :: time.lit ":"
         :: time.stdZeroSecond :: l)
      (time.appendInt (time.hour t) 2 ++ ":" ++ time.appendInt (time.minute t) 2
         ++ ":" ++ time.appendInt (time.second t) 2 ++ time.appendNano (time.nsec t)
         ++ tl) st
    = time.parseChunks l tl
        (time.mkFields (time.f_year st) (time.f_month st) (time.f_day st)
           (time.hour t) (time.minute t) (time.second t)
           (if time.nsec t =? 0 then time.f_nsec st else time.nsec t)
           (time.f_utc st) (time.f_zoneOffset st) (time.f_zoneName st)).
Proof.
  intros t l tl st W Ht.
  destruct (wf_fields t W) as (_ & _ & Hh & Hmi & Hs & Hns).
  cbn [time.parseChunks].
  rewrite parse_hour by lia. flat_fields.
  rewrite parse_lit by reflexivity. flat_fields.
  rewrite parse_minute by lia. flat_fields.
  rewrite parse_lit by reflexivity. flat_fields.
  rewrite parse_second_tail by assumption. flat_fields.
  reflexivity.
Qed.

Lemma dateTimeText_split :
  forall sep t tl,
    (dateTimeText sep t ++ tl)%string
    = (time.appendInt (time.year t) 4 ++ "-" ++ time.appendInt (time.month t) 2
       ++ "-" ++ time.appendInt (time.day t) 2
       ++ (sep ++ time.appendInt (time.hour t) 2 ++ ":"
           ++ time.appendInt (time.minute t) 2 ++ ":"
           ++ time.appendInt (time.second t) 2 ++ time.appendNano (time.nsec t)
           ++ tl))%string.
Proof.
  intros sep t tl. unfold dateTimeText. now rewrite !append_assoc.
Qed.

Lemma appendInt2_head :
  forall x, 0 <= x < 100 ->
            exists c r, time.appendInt x 2 = String c r /\ isDigit c = true.
Proof.
  intros x H. rewrite appendInt2 by exact H.
  eexists. eexists. split; [ reflexivity | ].
  apply digitChar_spec. split; [ apply Z.div_pos; lia | apply Z.div_lt_upper_bound; lia ].
Qed.

Lemma digit_not_space : forall c, isDigit c = true -> Ascii.eqb c " " = false.
Proof. intros c; by_all_bytes c. Qed.

(** What the chunks of the date and the clock reading leave in the fields
    that [Parse] starts with. *)
Lemma fields_of_reading :
  forall (zoneTime : string -> time.Time -> time.Time) (t : time.Time)
         (utc : bool) (zoneOffset : Z) (name : string),
    time.wf t = true ->
    let st := time.mkFields (time.year t) (time.month t) (time.day t) (time.hour t)
                (time.minute t) (time.second t)
                (if time.nsec t =? 0 then 0 else time.nsec t) utc zoneOffset name in
    let civil := time.mkTime (time.year t) (time.month t) (time.day t) (time.hour t)
                   (time.minute t) (time.second t) (time.nsec t) 0 in
    forall l v,
      time.parseChunks l v time.noFields = Some st ->
      time.Parse zoneTime l v
      = if utc then Some civil
        else if negb (zoneOffset =? -1) then
          Some (time.mkTime (time.year t) (time.month t) (time.day t) (time.hour t)
                  (time.minute t) (time.second t) (time.nsec t) zoneOffset)
        else if negb (name =? "")%string then Some (zoneTime name civil)
        else Some civil.
Proof.
  intros zoneTime t utc zoneOffset name W st civil l v H.
  destruct (wf_fields t W) as (Hmo & Hd & _).
  unfold time.Parse. rewrite H. unfold st, civil. flat_fields.
  replace (time.month t <? 0) with false by lia.
  replace (time.day t <? 0) with false by lia.
  replace ((time.day t <? 1) || (time.daysIn (time.month t) (time.year t) <? time.day t))
    with false by lia.
  assert (N : (if time.nsec t =? 0 then 0 else time.nsec t) = time.nsec t)
    by (destruct (time.nsec t =? 0) eqn:E; lia).
  now rewrite N.
Qed.

Lemma parseChunks_lit :
  forall c l rest st,
    Ascii.eqb c " " = false ->
    time.parseChunks (time.lit (String c "") :: l) (String c "" ++ rest) st
    = time.parseChunks l rest st.
Proof.
  intros c l rest st H. cbn [time.parseChunks append].
  now rewrite parse_lit by exact H.
Qed.

Lemma parseChunks_lit_space :
  forall l rest st,
    (exists c r, rest = String c r /\ Ascii.eqb c " " = false) ->
    time.parseChunks (time.lit " " :: l) (" " ++ rest) st
    = time.parseChunks l rest st.
Proof.
  intros l rest st (c & r & -> & H). cbn [time.parseChunks append].
  now rewrite parse_lit_space by exact H.
Qed.

(** The layouts with the letter T between date and clock reading. *)
Lemma parse_dateTimeT :
  forall (t : time.Time) (l : time.layout) (tl : string),
    time.wf t = true -> 0 <= time.year t <= 9999 ->
    (forall p r, tl = String p r -> isDigit p = false /\ time.commaOrPeriod p = false) ->
    time.parseChunks (time.dateTimeT ++ l)%list (dateTimeText "T" t ++ tl) time.noFields
    = time.parseChunks l tl
        (time.mkFields (time.year t) (time.month t) (time.day t) (time.hour t)
           (time.minute t) (time.second t)
           (if time.nsec t =? 0 then 0 else time.nsec t) false (-1) "").
Proof.
  intros t l tl W Hy Ht. rewrite dateTimeText_split.
  unfold time.dateTimeT. cbn [app].
  rewrite parse_date by assumption.
  rewrite parseChunks_lit by reflexivity.
  rewrite parse_clock by assumption. flat_fields. reflexivity.
Qed.

(** The layout with a space between date and clock reading. *)
Lemma parse_dateTimeSpace :
  forall (t : time.Time) (tl : string),
    time.wf t = true -> 0 <= time.year t <= 9999 ->
    (forall p r, tl = String p r -> isDigit p = false /\ time.commaOrPeriod p = false) ->
    time.parseChunks (nth 2 timeLayouts []) (dateTimeText " " t ++ tl) time.noFields
    = time.parseChunks [] tl
        (time.mkFields (time.year t) (time.month t) (time.day t) (time.hour t)
           (time.minute t) (time.second t)
           (if time.nsec t =? 0 then 0 else time.nsec t) false (-1) "").
Proof.
  intros t tl W Hy Ht. rewrite dateTimeText_split.
  cbn [nth timeLayouts].
  rewrite parse_date by assumption.
  destruct (wf_fields t W) as (_ & _ & Hh & _).
  destruct (appendInt2_head (time.hour t) ltac:(lia)) as (c & r & E & Hc).
  rewrite parseChunks_lit_space.
  - rewrite parse_clock by assumption. flat_fields. reflexivity.
  - rewrite E. cbn [append]. eexists. eexists. split; [ reflexivity | ].
    now apply digit_not_space.
Qed.

(** A text with a space after the date fits no layout that has the letter T
    there, and a text with the letter T does not fit the layout with the
    space. *)
Lemma parse_separator_mismatch :
  forall (t : time.Time) (l : time.layout) (tl : string),
    time.wf t = true -> 0 <= time.year t <= 9999 ->
    time.parseChunks (time.dateTimeT ++ l)%list (dateTimeText " " t ++ tl) time.noFields
    = None
    /\ time.parseChunks (nth 2 timeLayouts []) (dateTimeText "T" t ++ tl) time.noFields
       = None.
Proof.
  intros t l tl W Hy. rewrite !dateTimeText_split. split.
  - unfold time.dateTimeT. cbn [app].
    rewrite parse_date by assumption. reflexivity.
  - cbn [nth timeLayouts]. rewrite parse_date by assumption. reflexivity.
Qed.

Lemma no_tail :
  forall p r, "" = String p r -> isDigit p = false /\ time.commaOrPeriod p = false.
Proof. intros p r H. discriminate H. Qed.

(** The layouts tried on a date and a clock reading without a zone. *)
Lemma parseFirst_zoneless :
  forall (zoneTime : string -> time.Time -> time.Time) (t : time.Time) (sep : string),
    time.wf t = true -> 0 <= time.year t <= 9999 ->
    sep = " " \/ sep = "T" ->
    parseFirst zoneTime timeLayouts (dateTimeText sep t)
    = Some (time.mkTime (time.year t) (time.month t) (time.day t) (time.hour t)
              (time.minute t) (time.second t) (time.nsec t) 0).
Proof.
  intros zoneTime t sep W Hy Hsep.
  pose proof (fields_of_reading zoneTime t false (-1) "" W) as F. cbv zeta in F.
  change (negb (-1 =? -1)) with false in F. change (negb ("" =? "")%string) with false in F.
  cbv iota in F.
  assert (P1 : forall l, time.parseChunks l (dateTimeText "T" t) time.noFields = None ->
                         time.Parse zoneTime l (dateTimeText "T" t) = None).
  { intros l H. unfold time.Parse. now rewrite H. }
  assert (P2 : forall l, time.parseChunks l (dateTimeText " " t) time.noFields = None ->
                         time.Parse zoneTime l (dateTimeText " " t) = None).
  { intros l H. unfold time.Parse. now rewrite H. }
  unfold parseFirst.
  change timeLayouts with
    [ (time.dateTimeT ++ [time.stdISO8601ColonTZ])%list;
      (time.dateTimeT ++ [time.lit " "; time.stdTZ])%list;
      nth 2 timeLayouts [];
      (time.dateTimeT ++ [])%list ].
  destruct Hsep as [-> | ->].
  - rewrite <- (append_nil_r (dateTimeText " " t)) in *.
    rewrite (P2 _ (proj1 (parse_separator_mismatch t _ "" W Hy))).
    rewrite (P2 _ (proj1 (parse_separator_mismatch t _ "" W Hy))).
    rewrite F; [ reflexivity | ].
    now rewrite (parse_dateTimeSpace t "" W Hy no_tail).
  - rewrite <- (append_nil_r (dateTimeText "T" t)) in *.
    rewrite P1 by now rewrite (parse_dateTimeT t _ "" W Hy no_tail).
    rewrite P1 by now rewrite (parse_dateTimeT t _ "" W Hy no_tail).
    rewrite P1 by exact (proj2 (parse_separator_mismatch t [] "" W Hy)).
    rewrite F; [ reflexivity | ].
    now rewrite (parse_dateTimeT t _ "" W Hy no_tail).
Qed.

Lemma timeChar_no_cut :
  forall c, timeChar c = true -> negb (strings.inCutset (String dq "") c) = true.
Proof. intros c; by_all_bytes c. Qed.

Lemma appendInt_no_cut :
  forall x w,
    allChars (fun c => negb (strings.inCutset (String dq "") c)) (time.appendInt x w)
    = true.
Proof.
  intros x w. apply allChars_impl with (p := timeChar);
    [ exact timeChar_no_cut | apply appendInt_timeChars ].
Qed.

Lemma dateTimeText_chars :
  forall sep t,
    sep = " " \/ sep = "T" -> 0 <= time.year t <= 9999 ->
    0 <= time.nsec t < 1000000000 ->
    allChars (fun c => negb (strings.inCutset (String dq "") c)) (dateTimeText sep t)
    = true
    /\ exists c r, dateTimeText sep t = String c r /\ isDigit c = true.
Proof.
  intros sep t Hsep Hy Hns. split.
  - unfold dateTimeText. rewrite !allChars_append, !appendInt_no_cut.
    rewrite (allChars_impl _ _ timeChar_no_cut _ (appendNano_timeChars _ Hns)).
    destruct Hsep as [-> | ->]; reflexivity.
  - unfold dateTimeText.
    rewrite (appendInt_decimal 4) by (change (10 ^ Z.of_nat 4) with 10000; lia).
    destruct (decimal_head 3 (time.year t)) as (r & E & _). rewrite E.
    cbn [append]. eexists. eexists. split; [ reflexivity | ].
    apply (digitChar_spec _ (mod10_bound _)).
Qed.

(** Decoding a text that starts with a digit and holds no quote, bare and
    between quotes. *)
Lemma Time_decode_text :
  forall (zoneTime : string -> time.Time -> time.Time)
         (x : params_Time) (text : string) (t : time.Time),
    (exists c r, text = String c r /\ isDigit c = true) ->
    allChars (fun c => negb (strings.inCutset (String dq "") c)) text = true ->
    parseFirst zoneTime timeLayouts text = Some t ->
    Time_UnmarshalJSON zoneTime x text = (mkTimeParam t true, None)
    /\ Time_UnmarshalJSON zoneTime x (quoted text) = (mkTimeParam t true, None).
Proof.
  intros zoneTime x text t (c & r & E & Hc) NQ P.
  assert (T : strings.Trim text (String dq "") = text) by now apply Trim_no_cut.
  assert (Tq : strings.Trim (quoted text) (String dq "") = text).
  { change (quoted text) with (String dq "" ++ text ++ String dq "")%string.
    now rewrite Trim_app. }
  assert (G : forall data : string,
             data <> "" -> data <> "null" -> data <> String dq (String dq "") ->
             strings.Trim data (String dq "") = text ->
             Time_UnmarshalJSON zoneTime x data = (mkTimeParam t true, None)).
  { intros data D0 Dn Dq Td. unfold Time_UnmarshalJSON.
    rewrite (guard_false _ D0 Dn). unfold string_of_bytes.
    rewrite (eqb_false_of_neq _ _ Dq), Td, P. reflexivity. }
  split; apply G; try assumption; rewrite E in *.
  - discriminate.
  - intros H. injection H as H _. rewrite H in Hc. discriminate Hc.
  - intros H. injection H as H _. rewrite H in Hc. discriminate Hc.
  - discriminate.
  - discriminate.
  - unfold quoted. cbn [append]. intros H. injection H as H _.
    rewrite H in Hc. discriminate Hc.
Qed.

(** X15: A date and a clock reading without a zone, with a space or the letter T
    between them and with or without a fraction of the second, are read by
    the third or the fourth layout, as a reading in UTC. *)
Theorem Time_reads_zoneless_text :
  forall (zoneTime : string -> time.Time -> time.Time)
         (x : params_Time) (t : time.Time) (sep : string),
    time.wf t = true -> 0 <= time.year t <= 9999 -> time.offset t = 0 ->
    sep = " " \/ sep = "T" ->
    Time_UnmarshalJSON zoneTime x (dateTimeText sep t) = (mkTimeParam t true, None)
    /\ Time_UnmarshalJSON zoneTime x (quoted (dateTimeText sep t))
       = (mkTimeParam t true, None).
Proof.
  intros zoneTime x t sep W Hy Ho Hsep.
  destruct (wf_fields t W) as (_ & _ & _ & _ & _ & Hns).
  destruct (dateTimeText_chars sep t Hsep Hy Hns) as [NQ Hd].
  apply Time_decode_text; [ exact Hd | exact NQ | ].
  rewrite (parseFirst_zoneless zoneTime t sep W Hy Hsep).
  destruct t as [y mo d h mi s ns off]. cbn in Ho. now rewrite Ho.
Qed.

Lemma Time_reads_zoneless_text_witness :
  Time_UnmarshalJSON zoneZero (absent KTimestamp) "2023-10-05 14:48:00.5"
  = (mkTimeParam (time.mkTime 2023 10 5 14 48 0 500000000 0) true, None)
  /\ Time_UnmarshalJSON zoneZero (absent KTimestamp) (quoted "2023-10-05 14:48:00.5")
     = (mkTimeParam (time.mkTime 2023 10 5 14 48 0 500000000 0) true, None).
Proof.
  apply (Time_reads_zoneless_text zoneZero (absent KTimestamp)
           (time.mkTime 2023 10 5 14 48 0 500000000 0) " ");
    [ reflexivity | split; discriminate | reflexivity | now left ].
Defined.

(** X16: The layout RFC 3339 of [Parse] takes a zone offset of 24 hours, which
    MarshalJSON refuses to write: such a text is decoded without error into
    a Timestamp that cannot be encoded. *)
Theorem Time_offset_24_decodes_only :
  forall (zoneTime : string -> time.Time -> time.Time)
         (x : params_Time) (t : time.Time),
    time.wf t = true -> 0 <= time.year t <= 9999 ->
    let data := quoted (dateTimeText "T" t ++ "+24:00") in
    let t' := time.mkTime (time.year t) (time.month t) (time.day t) (time.hour t)
                (time.minute t) (time.second t) (time.nsec t) 86400 in
    Time_UnmarshalJSON zoneTime x data = (mkTimeParam t' true, None)
    /\ Time_MarshalJSON (mkTimeParam t' true)
       = ("", Some (TimeMarshalError
                      "Time.MarshalJSON: timezone hour outside of range [0,23]")).
Proof.
  intros zoneTime x t W Hy data t'.
  destruct (wf_fields t W) as (_ & _ & _ & _ & _ & Hns).
  destruct (dateTimeText_chars "T" t (or_intror eq_refl) Hy Hns) as [NQ (c & r & E & Hc)].
  split.
  - apply Time_decode_text.
    + exists c, (r ++ "+24:00")%string. split; [ now rewrite E | exact Hc ].
    + now rewrite allChars_append, NQ.
    + unfold timeLayouts. cbn [parseFirst].
      pose proof (fields_of_reading zoneTime t false 86400 "" W) as F. cbv zeta in F.
      rewrite (F time.RFC3339); [ reflexivity | ].
      unfold time.RFC3339. rewrite parse_dateTimeT; [ reflexivity | exact W | exact Hy | ].
      intros p r' H. injection H as <- _. split; reflexivity.
  - unfold Time_MarshalJSON, time.MarshalJSON, t'.
    cbn [Time_present Time_value negb time.year time.offset].
    replace ((time.year t <? 0) || (9999 <? time.year t)) with false by lia.
    reflexivity.
Qed.

Lemma Time_offset_24_decodes_only_witness :
  Time_UnmarshalJSON zoneZero (absent KTimestamp) (quoted "2023-10-05T14:48:00+24:00")
  = (mkTimeParam (time.mkTime 2023 10 5 14 48 0 0 86400) true, None)
  /\ Time_MarshalJSON (mkTimeParam (time.mkTime 2023 10 5 14 48 0 0 86400) true)
     = ("", Some (TimeMarshalError
                    "Time.MarshalJSON: timezone hour outside of range [0,23]")).
Proof.
  apply (Time_offset_24_decodes_only zoneZero (absent KTimestamp)
           (time.mkTime 2023 10 5 14 48 0 0 0));
    [ reflexivity | split; discriminate ].
Defined.

(** ** Time: what Parse returns is in range *)

Lemma digitVal_range : forall c, isDigit c = true -> 0 <= digitVal c <= 9.
Proof. intros c H. unfold isDigit, digitVal in *. lia. Qed.

Lemma getnum_range :
  forall s fixed v r, time.getnum s fixed = Some (v, r) -> 0 <= v < 100.
Proof.
  intros s fixed v r H. unfold time.getnum in H.
  destruct s as [ | c0 r0]; [ discriminate H | ].
  destruct (isDigit c0) eqn:D0; [ | discriminate H ]. cbn [negb] in H.
  pose proof (digitVal_range c0 D0) as V0.
  destruct r0 as [ | c1 r1].
  - destruct fixed; [ discriminate H | ]. injection H as <- _. lia.
  - destruct (isDigit c1) eqn:D1.
    + pose proof (digitVal_range c1 D1) as V1. injection H as <- _. lia.
    + destruct fixed; [ discriminate H | ]. injection H as <- _. lia.
Qed.

Lemma leadingInt_bound :
  forall s x v,
    time.leadingInt_loop s x = Some (v, "") -> 0 <= x ->
    0 <= v < (x + 1) * 10 ^ Z.of_nat (len s).
Proof.
  induction s as [ | c s IH]; intros x v H Hx.
  - cbn [time.leadingInt_loop] in H. injection H as <-.
    change (10 ^ Z.of_nat (len "")) with 1. lia.
  - cbn [time.leadingInt_loop] in H.
    destruct (isDigit c) eqn:D; [ | discriminate H ]. cbn [negb] in H.
    destruct (2 ^ 63 / 10 <? x); [ discriminate H | ].
    destruct (2 ^ 63 <? x * 10 + digitVal c); [ discriminate H | ].
    pose proof (digitVal_range c D) as V.
    specialize (IH _ _ H ltac:(lia)).
    change (len (String c s)) with (S (len s)). rewrite pow10_succ.
    pose proof (pow10_pos (len s)). nia.
Qed.

Lemma atoi_bound :
  forall c r v,
    time.atoi (String c r) = Some v -> isDigit c = true ->
    0 <= v < 10 ^ Z.of_nat (len (String c r)).
Proof.
  intros c r v H D. unfold time.atoi in H.
  assert (Q : Ascii.eqb c "-" = false /\ Ascii.eqb c "+" = false).
  { revert D. clear. by_all_bytes c. }
  destruct Q as [Q1 Q2]. rewrite Q1, Q2 in H. cbn [orb] in H.
  unfold time.leadingInt in H.
  destruct (time.leadingInt_loop (String c r) 0) as [[x [ | ? ?]] | ] eqn:L;
    try discriminate H.
  injection H as <-. pose proof (leadingInt_bound _ _ _ L ltac:(lia)). lia.
Qed.

Lemma len_take : forall n s, (len (utf8.take n s) <= n)%nat.
Proof.
  induction n as [ | n IH]; intros s; [ simpl; lia | ].
  destruct s as [ | c s]; [ simpl; lia | ].
  cbn [utf8.take]. change (len (String c (utf8.take n s))) with (S (len (utf8.take n s))).
  specialize (IH s). lia.
Qed.

Lemma pow10_mono :
  forall a b : nat, (a <= b)%nat -> 10 ^ Z.of_nat a <= 10 ^ Z.of_nat b.
Proof. intros a b H. apply Z.pow_le_mono_r; lia. Qed.

Lemma parseNanoseconds_bound :
  forall p d r n ns,
    isDigit d = true -> (2 <= n)%nat ->
    time.parseNanoseconds (String p (String d r)) n = Some ns ->
    0 <= ns < 1000000000.
Proof.
  intros p d r n ns Hd Hn H. unfold time.parseNanoseconds in H.
  destruct (time.commaOrPeriod p); [ | discriminate H ]. cbn [negb] in H.
  set (m := Nat.min n 10) in *.
  assert (Hm : (2 <= m <= 10)%nat) by (unfold m; lia).
  destruct m as [ | [ | m']] eqn:Em; [ lia | lia | ].
  cbn [utf8.take utf8.drop] in H.
  destruct (time.atoi (String d (utf8.take m' r))) as [x | ] eqn:A; [ | discriminate H ].
  destruct (x <? 0) eqn:Neg; [ discriminate H | ].
  injection H as <-.
  pose proof (atoi_bound _ _ _ A Hd) as B.
  change (len (String d (utf8.take m' r))) with (S (len (utf8.take m' r))) in B.
  pose proof (len_take m' r) as Lt.
  pose proof (pow10_mono _ _ (le_n_S _ _ Lt)) as P1.
  set (k := (10 - S (S m'))%nat).
  assert (Ek : (S m' + k = 9)%nat) by (unfold k; lia).
  pose proof (pow10_pos k) as Pk. pose proof (pow10_pos (S m')) as Pm.
  assert (E9 : 10 ^ Z.of_nat (S m') * 10 ^ Z.of_nat k = 1000000000).
  { rewrite <- Z.pow_add_r by lia. rewrite <- Nat2Z.inj_add, Ek. reflexivity. }
  assert (U : x * 10 ^ Z.of_nat k < 10 ^ Z.of_nat (S m') * 10 ^ Z.of_nat k)
    by (apply Z.mul_lt_mono_pos_r; lia).
  assert (L0 : 0 <= x * 10 ^ Z.of_nat k) by (apply Z.mul_nonneg_nonneg; lia).
  change (0 <= x * 10 ^ Z.of_nat k < 1000000000). lia.
Qed.

Lemma countDigits_pos :
  forall d r, isDigit d = true -> (1 <= time.countDigits (String d r))%nat.
Proof. intros d r H. cbn [time.countDigits]. rewrite H. lia. Qed.

Lemma fieldsInRange_spec :
  forall y mo d h mi s ns utc zo name,
    fieldsInRange (time.mkFields y mo d h mi s ns utc zo name) = true
    <-> (0 <= y <= 9999 /\ (mo = -1 \/ 1 <= mo <= 12)
         /\ 0 <= h < 24 /\ 0 <= mi < 60 /\ 0 <= s < 60 /\ 0 <= ns < 1000000000
         /\ (zo = -1 \/ (Z.rem zo 60 = 0 /\ Z.abs zo <= 90000))).
Proof.
  intros. unfold fieldsInRange. flat_fields.
  rewrite !andb_true_iff, !orb_true_iff, !andb_true_iff.
  rewrite !Z.leb_le, !Z.ltb_lt, !Z.eqb_eq. tauto.
Qed.

Lemma zoneOffset_range :
  forall hr mm,
    0 <= hr <= 24 -> 0 <= mm <= 60 ->
    let z := (hr * 60 + mm) * 60 in
    (Z.rem z 60 = 0 /\ Z.abs z <= 90000)
    /\ (Z.rem (- z) 60 = 0 /\ Z.abs (- z) <= 90000).
Proof.
  intros hr mm Hh Hm z. unfold z.
  rewrite Z.rem_opp_l by lia. rewrite Z.rem_mul by lia. lia.
Qed.

(** Every chunk keeps the fields in range. *)
Lemma parseStd_in_range :
  forall c value st st' v,
    time.parseStd c value st = Some (st', v) ->
    fieldsInRange st = true -> fieldsInRange st' = true.
Proof.
  intros c value [y mo d h mi s ns utc zo name] st' v H R.
  pose proof (proj1 (fieldsInRange_spec _ _ _ _ _ _ _ _ _ _) R) as I.
  destruct c; cbn [time.parseStd] in H; flat_fields.
  - (* year *)
    destruct value as [ | c0 r0]; [ discriminate H | ].
    destruct ((len (String c0 r0) <? 4)%nat || negb (isDigit c0)) eqn:G;
      [ discriminate H | ].
    apply orb_false_elim in G as [_ G]. apply negb_false_iff in G.
    change (utf8.take 4 (String c0 r0)) with (String c0 (utf8.take 3 r0)) in H.
    destruct (time.atoi (String c0 (utf8.take 3 r0))) as [yy | ] eqn:A;
      [ | discriminate H ].
    injection H as <- _. apply fieldsInRange_spec.
    pose proof (atoi_bound _ _ _ A G) as B.
    change (len (String c0 (utf8.take 3 r0))) with (S (len (utf8.take 3 r0))) in B.
    pose proof (pow10_mono _ _ (le_n_S _ _ (len_take 3 r0))) as P.
    change (10 ^ Z.of_nat 4) with 10000 in P. lia.
  - (* month *)
    destruct (time.getnum value true) as [[m v'] | ]; [ | discriminate H ].
    destruct ((m <=? 0) || (12 <? m)) eqn:G; [ discriminate H | ].
    injection H as <- _. apply fieldsInRange_spec. lia.
  - (* day *)
    destruct (time.getnum value true) as [[m v'] | ]; [ | discriminate H ].
    injection H as <- _. apply fieldsInRange_spec. lia.
  - (* hour *)
    destruct (time.getnum value false) as [[m v'] | ]; [ | discriminate H ].
    destruct ((m <? 0) || (24 <=? m)) eqn:G; [ discriminate H | ].
    injection H as <- _. apply fieldsInRange_spec. lia.
  - (* minute *)
    destruct (time.getnum value true) as [[m v'] | ]; [ | discriminate H ].
    destruct ((m <? 0) || (60 <=? m)) eqn:G; [ discriminate H | ].
    injection H as <- _. apply fieldsInRange_spec. lia.
  - (* second *)
    destruct (time.getnum value true) as [[m v'] | ]; [ | discriminate H ].
    destruct ((m <? 0) || (60 <=? m)) eqn:G; [ discriminate H | ].
    assert (Plain : fieldsInRange (time.mkFields y mo d h mi m ns utc zo name) = true)
      by (apply fieldsInRange_spec; lia).
    destruct v' as [ | p [ | dd rr]]; try (injection H as <- _; exact Plain).
    destruct (time.commaOrPeriod p && isDigit dd) eqn:F;
      [ | injection H as <- _; exact Plain ].
    apply andb_prop in F as [_ Fd].
    destruct (time.parseNanoseconds (String p (String dd rr))
                (S (time.countDigits (utf8.drop 1 (String p (String dd rr))))))
      as [nn | ] eqn:PN; [ | discriminate H ].
    injection H as <- _. apply fieldsInRange_spec.
    pose proof (parseNanoseconds_bound _ _ _ _ _ Fd
                  (le_n_S _ _ (countDigits_pos dd rr Fd)) PN).
    lia.
  - (* zone offset *)
    destruct value as [ | z r]; [ discriminate H | ].
    destruct (Ascii.eqb z "Z").
    { injection H as <- _. apply fieldsInRange_spec. lia. }
    destruct (len (String z r) <? 6)%nat; [ discriminate H | ].
    destruct (negb (utf8.take 1 (utf8.drop 3 (String z r)) =? ":")%string);
      [ discriminate H | ].
    destruct (time.getnum (utf8.take 2 (utf8.drop 1 (String z r))) true)
      as [[hr v1] | ] eqn:G1; [ | discriminate H ].
    destruct (time.getnum (utf8.take 2 (utf8.drop 4 (String z r))) true)
      as [[mm v2] | ] eqn:G2; [ | discriminate H ].
    destruct ((24 <? hr) || (60 <? mm)) eqn:G; [ discriminate H | ].
    pose proof (getnum_range _ _ _ _ G1) as Rh.
    pose proof (getnum_range _ _ _ _ G2) as Rm.
    destruct (zoneOffset_range hr mm ltac:(lia) ltac:(lia)) as [Zp Zn].
    cbv zeta in Zp, Zn.
    destruct (Ascii.eqb z "+").
    { injection H as <- _. apply fieldsInRange_spec. tauto. }
    destruct (Ascii.eqb z "-"); [ | discriminate H ].
    injection H as <- _. apply fieldsInRange_spec. tauto.
  - (* zone abbreviation *)
    destruct (utf8.take 3 value =? "UTC")%string.
    { injection H as <- _. apply fieldsInRange_spec. lia. }
    destruct (time.parseTimeZone value) as [n | ]; [ | discriminate H ].
    injection H as <- _. apply fieldsInRange_spec. lia.
  - (* literal text *)
    destruct (time.skip value text) as [v' | ]; [ | discriminate H ].
    injection H as <- _. exact R.
Qed.

Lemma parseChunks_in_range :
  forall l value st st',
    time.parseChunks l value st = Some st' ->
    fieldsInRange st = true -> fieldsInRange st' = true.
Proof.
  induction l as [ | c l IH]; intros value st st' H R; cbn [time.parseChunks] in H.
  - destruct value; [ | discriminate H ]. now injection H as <-.
  - destruct (time.parseStd c value st) as [[st1 v] | ] eqn:P; [ | discriminate H ].
    apply (IH _ _ _ H). exact (parseStd_in_range _ _ _ _ _ P R).
Qed.

Lemma timeInRange_spec :
  forall t,
    timeInRange t = true
    <-> (time.wf t = true /\ 0 <= time.year t <= 9999
         /\ Z.rem (time.offset t) 60 = 0 /\ Z.abs (time.offset t) <= 90000).
Proof.
  intros t. unfold timeInRange.
  rewrite !andb_true_iff, !Z.leb_le, !Z.eqb_eq. tauto.
Qed.

Lemma wf_intro :
  forall y mo d h mi s ns off,
    1 <= mo <= 12 -> 1 <= d <= time.daysIn mo y -> 0 <= h < 24 -> 0 <= mi < 60 ->
    0 <= s < 60 -> 0 <= ns < 1000000000 ->
    time.wf (time.mkTime y mo d h mi s ns off) = true.
Proof.
  intros. unfold time.wf.
  cbn [time.year time.month time.day time.hour time.minute time.second time.nsec].
  repeat (apply andb_true_intro; split); lia.
Qed.

(** [Parse] returns a reading in range, or what the host makes of one
    that a zone abbreviation follows, for any layout made of the chunks
    above. *)
Lemma Parse_reading :
  forall (zoneTime : string -> time.Time -> time.Time) l value t,
    time.Parse zoneTime l value = Some t -> decodedReading zoneTime t.
Proof.
  intros zoneTime l value t H. unfold time.Parse in H.
  destruct (time.parseChunks l value time.noFields) as [st | ] eqn:P; [ | discriminate H ].
  pose proof (parseChunks_in_range _ _ _ _ P eq_refl) as R.
  destruct st as [y mo d h mi s ns utc zo name].
  apply fieldsInRange_spec in R.
  cbn [time.f_year time.f_month time.f_day time.f_hour time.f_min time.f_sec
         time.f_nsec time.f_utc time.f_zoneOffset time.f_zoneName] in H.
  set (month := if mo <? 0 then 1 else mo) in *.
  set (day := if d <? 0 then 1 else d) in *.
  assert (Hmo : 1 <= month <= 12) by (unfold month; destruct (mo <? 0) eqn:E; lia).
  destruct ((day <? 1) || (time.daysIn month y <? day)) eqn:D; [ discriminate H | ].
  assert (C : forall off, Z.rem off 60 = 0 -> Z.abs off <= 90000 ->
                          timeInRange (time.mkTime y month day h mi s ns off) = true).
  { intros off O1 O2. apply timeInRange_spec.
    cbn [time.year time.offset]. split; [ apply wf_intro; lia | lia ]. }
  destruct utc.
  { injection H as <-. eexists. split; [ now apply (C 0) | now left ]. }
  destruct (negb (zo =? -1)) eqn:Z1.
  { injection H as <-. eexists. split; [ apply (C zo) | now left ];
      apply negb_true_iff in Z1; lia. }
  destruct (negb (name =? "")%string) eqn:N.
  { injection H as <-. eexists. split; [ now apply (C 0) | right ].
    exists name. repeat split.
    apply negb_true_iff in N. now apply String.eqb_neq. }
  injection H as <-. eexists. split; [ now apply (C 0) | now left ].
Qed.

Lemma parseFirst_reading :
  forall (zoneTime : string -> time.Time -> time.Time) ls value t,
    parseFirst zoneTime ls value = Some t -> decodedReading zoneTime t.
Proof.
  intros zoneTime ls value t. induction ls as [ | l ls IH]; intros H.
  - discriminate H.
  - cbn [parseFirst] in H.
    destruct (time.Parse zoneTime l value) as [t' | ] eqn:P.
    + injection H as <-. exact (Parse_reading _ _ _ _ P).
    + now apply IH.
Qed.



(** ** Decoded values, encoded and decoded again *)

Lemma int64_range : forall z, - 2 ^ 63 <= strconv.int64 z < 2 ^ 63.
Proof.
  intros z. unfold strconv.int64.
  change (2 ^ 63) with 9223372036854775808.
  change (2 ^ 64) with 18446744073709551616.
  pose proof (Z.mod_pos_bound (z + 9223372036854775808) 18446744073709551616 eq_refl).
  lia.
Qed.

Lemma ParseInt_range :
  forall s v, strconv.ParseInt s = (v, None) -> - 2 ^ 63 <= v < 2 ^ 63.
Proof.
  intros s v H. unfold strconv.ParseInt in H.
  destruct s as [ | c r]; [ discriminate H | ]. cbv zeta in H.
  destruct (strconv.ParseUint
              (if Ascii.eqb c "+" || Ascii.eqb c "-" then r else String c r))
    as [un err].
  assert (G : (if negb (Ascii.eqb c "-") && (2 ^ 63 <=? un)
               then (2 ^ 63 - 1, Some (strconv.rangeError "ParseInt" (String c r)))
               else if Ascii.eqb c "-" && (2 ^ 63 <? un)
                    then (- 2 ^ 63, Some (strconv.rangeError "ParseInt" (String c r)))
                    else (if Ascii.eqb c "-"
                          then strconv.int64 (- strconv.int64 un)
                          else strconv.int64 un, None)) = (v, None) ->
              - 2 ^ 63 <= v < 2 ^ 63).
  { intros G. destruct (negb (Ascii.eqb c "-") && (2 ^ 63 <=? un)); [ discriminate G | ].
    destruct (Ascii.eqb c "-" && (2 ^ 63 <? un)); [ discriminate G | ].
    injection G as <-. destruct (Ascii.eqb c "-"); apply int64_range. }
  destruct err as [e | ]; [ | exact (G H) ].
  destruct e as [ | | | | fn num [ | ] | ]; try discriminate H. exact (G H).
Qed.

Lemma Int_decoded_range :
  forall (i i' : params_Int) (data : bytes) (e : option error),
    Int_UnmarshalJSON i data = (i', e) -> - 2 ^ 63 <= Int_Value i' < 2 ^ 63.
Proof.
  intros i i' data e H. unfold Int_UnmarshalJSON in H.
  destruct ((len data =? 0)%nat || (string_of_bytes data =? "null")%string).
  { injection H as <- _. cbn. lia. }
  destruct (json.Unmarshal_Number "" data) as [v [err | ]].
  { injection H as <- _. cbn. lia. }
  unfold json.Number_Int64 in H.
  destruct (strconv.ParseInt v) as [vv [err | ]] eqn:P.
  { injection H as <- _. cbn. lia. }
  injection H as <- _. cbn. exact (ParseInt_range _ _ P).
Qed.

(** Whatever text was decoded, and whatever the outcome, the value the
    accessor returns afterwards has a JSON form, up to the year and the zone
    offset of a Timestamp; on a host whose zone lookup gives readings of
    the calendar. *)
Lemma decoded_value_valid :
  forall (zoneTime : string -> time.Time -> time.Time)
         (K : Kind) (x x1 : instance K) (data : bytes) (e : option error),
    (forall name c, time.wf c = true -> time.wf (zoneTime name c) = true) ->
    validValue K (Stored K x) = true ->
    Decode zoneTime K x data = (x1, e) ->
    match K return payload K -> Prop with
    | KTimestamp => fun t => time.wf t = true
    | k => fun v => validValue k v = true
    end (Accessor K x1).
Proof.
  intros zoneTime K x x1 data e Host V H.
  destruct K; cbn [Decode Accessor Stored validValue] in *.
  - unfold String_Value. destruct (String_present x1); [ | reflexivity ]. cbn [negb].
    unfold String_UnmarshalJSON in H.
    destruct ((len data =? 0)%nat || (string_of_bytes data =? "null")%string).
    { injection H as <- _. reflexivity. }
    unfold json.Unmarshal_string in H.
    destruct (json.scan data) as [[ | b | lit | t | | ] | ] eqn:Sc;
      injection H as <- _; try reflexivity; try exact V.
    now apply (scan_string_valid data).
  - reflexivity.
  - unfold Int_Get. destruct (Int_Present x1); [ | reflexivity ]. cbn [negb].
    pose proof (Int_decoded_range _ _ _ _ H). apply andb_true_intro. split; lia.
  - unfold Time_Value. destruct (Time_present x1); [ | reflexivity ]. cbn [negb].
    unfold Time_UnmarshalJSON in H.
    destruct ((len data =? 0)%nat || (string_of_bytes data =? "null")%string).
    { injection H as <- _. reflexivity. }
    destruct (string_of_bytes data =? String dq (String dq ""))%string.
    { injection H as <- _. reflexivity. }
    destruct (parseFirst zoneTime timeLayouts
                (strings.Trim (string_of_bytes data) (String dq ""))) as [t | ] eqn:P;
      injection H as <- _; [ | reflexivity ].
    cbn [Time_value].
    destruct (parseFirst_reading _ _ _ _ P) as (c & Rc & [-> | (name & _ & _ & ->)]);
      apply timeInRange_spec in Rc as (W & _); [ exact W | now apply Host ].
Qed.

(** Time: decoding what MarshalJSON wrote for an instance, the zone offset
    in whole minutes or not. *)
Lemma Time_instance_read_back_minutes :
  forall (zoneTime : string -> time.Time -> time.Time) (x y : params_Time),
    time.wf (Time_Value x) = true -> representable (Time_Value x) = true ->
    Time_UnmarshalJSON zoneTime y (fst (Time_MarshalJSON x))
    = (mkTimeParam (wholeMinutes (Time_Value x)) (Time_Present x), None).
Proof.
  intros zoneTime [t [ | ]] y V1 V2; [ | reflexivity ].
  unfold Time_Value, Time_Present, Time_MarshalJSON in *.
  cbn [Time_present Time_value negb] in *.
  destruct (Time_decode_encoded zoneTime y t V1 V2) as (E & _ & D).
  rewrite E. exact D.
Qed.

(** X18: Decode, encode, decode: when the value that a decode left can be
    encoded, decoding the token gives that value again, a time with the
    seconds of its zone offset cut (only a zone abbreviation can give an
    offset that has any).  The encoding is the normal form of the text: it
    stands for the value the text stood for.  The host is any whose zone
    lookup gives readings of the calendar, as every Go time is. *)
Theorem reencoding_is_stable :
  forall (zoneTime : string -> time.Time -> time.Time)
         (K : Kind) (x y x1 : instance K) (data tok : bytes) (e : option error),
    (forall name c, time.wf c = true -> time.wf (zoneTime name c) = true) ->
    validValue K (Stored K x) = true ->
    Decode zoneTime K x data = (x1, e) ->
    Encode K x1 = (tok, None) ->
    exists x2 : instance K,
      Decode zoneTime K y tok = (x2, None)
      /\ Accessor K x2 = asWritten K (Accessor K x1).
Proof.
  intros zoneTime K x y x1 data tok e Host V D E.
  pose proof (decoded_value_valid zoneTime K x x1 data e Host V D) as A.
  destruct K; cbn [Decode Encode Accessor validValue asWritten] in *.
  - pose proof (String_instance_read_back x1 y A) as R. rewrite E in R.
    eexists. split; [ exact R | reflexivity ].
  - pose proof (Bool_instance_read_back x1 y) as R. rewrite E in R.
    eexists. split; [ exact R | ]. destruct x1 as [[ | ] [ | ]]; reflexivity.
  - apply andb_prop in A as [A1 A2].
    pose proof (Int_instance_read_back x1 y ltac:(lia)) as R. rewrite E in R.
    eexists. split; [ exact R | reflexivity ].
  - assert (Rp : representable (Time_Value x1) = true).
    { unfold Time_Value in *. destruct (Time_present x1) eqn:P; [ | reflexivity ].
      cbn [negb] in *. unfold Time_MarshalJSON in E. rewrite P in E.
      cbn [negb] in E. apply time_MarshalJSON_ok. now rewrite E. }
    pose proof (Time_instance_read_back_minutes zoneTime x1 y A Rp) as R.
    rewrite E in R.
    eexists. split; [ exact R | ]. destruct x1 as [t [ | ]]; reflexivity.
Qed.

Lemma reencoding_is_stable_witness :
  exists x2 : instance KTimestamp,
    Decode (zoneFixed 1172) KTimestamp (absent KTimestamp)
      (quoted "1930-10-05T14:48:00+00:19")
    = (x2, None)
    /\ Accessor KTimestamp x2 = time.mkTime 1930 10 5 14 48 0 0 1140.
Proof.
  apply (reencoding_is_stable (zoneFixed 1172) KTimestamp
           (absent KTimestamp) (absent KTimestamp)
           (mkTimeParam (time.mkTime 1930 10 5 14 48 0 0 1172) true)
           (quoted "1930-10-05T14:48:00 AMT")
           (quoted "1930-10-05T14:48:00+00:19") None);
    [ intros name [y mo d h mi s ns off] H; exact H
    | reflexivity | reflexivity | reflexivity ].
Defined.

(** ** Time: the layout with a zone abbreviation *)

Lemma upper_facts :
  forall c, time.isUpper c = true ->
            Ascii.eqb c " " = false /\ Ascii.eqb c "+" = false /\ Ascii.eqb c "-" = false
            /\ negb (strings.inCutset (String dq "") c) = true.
Proof. intros c; by_all_bytes c. Qed.

(** [parseTimeZone] takes three capital letters as a zone abbreviation. *)
Lemma parseTimeZone_capitals :
  forall a b c,
    time.isUpper a = true -> time.isUpper b = true -> time.isUpper c = true ->
    time.parseTimeZone (String a (String b (String c ""))) = Some 3%nat.
Proof.
  intros a b c Ha Hb Hc. destruct (upper_facts a Ha) as (_ & Pa & Ma & _).
  unfold time.parseTimeZone, time.parseGMT.
  cbn [len String.length Nat.ltb Nat.leb utf8.take utf8.drop time.countUpper].
  rewrite Ha, Hb, Hc.
  replace (String a (String b (String c "")) =? "ChST")%string with false
    by (symmetry; apply String.eqb_neq; discriminate).
  replace (String a (String b (String c "")) =? "MeST")%string with false
    by (symmetry; apply String.eqb_neq; discriminate).
  cbn [orb]. destruct (String a (String b (String c "")) =? "GMT")%string;
    [ reflexivity | ].
  cbn [String.eqb]. rewrite Pa, Ma. reflexivity.
Qed.

(** X19: The RFC 3339 form followed by a space and three capital letters is read
    by the second layout: as a reading in UTC when the letters are UTC, and
    else as the time the host makes of the reading and the abbreviation. *)
Theorem Time_reads_zone_abbreviation :
  forall (zoneTime : string -> time.Time -> time.Time)
         (x : params_Time) (t : time.Time) (a b c : ascii),
    time.wf t = true -> 0 <= time.year t <= 9999 -> time.offset t = 0 ->
    time.isUpper a = true -> time.isUpper b = true -> time.isUpper c = true ->
    let name := String a (String b (String c "")) in
    Time_UnmarshalJSON zoneTime x (quoted (dateTimeText "T" t ++ " " ++ name))
    = (mkTimeParam (if (name =? "UTC")%string then t else zoneTime name t) true, None).
Proof.
  intros zoneTime x t a b c W Hy Ho Ha Hb Hc name.
  destruct (wf_fields t W) as (_ & _ & _ & _ & _ & Hns).
  destruct (dateTimeText_chars "T" t (or_intror eq_refl) Hy Hns) as [NQ (d & r & E & Hd)].
  destruct (upper_facts a Ha) as (Sa & _ & _ & Qa).
  destruct (upper_facts b Hb) as (_ & _ & _ & Qb).
  destruct (upper_facts c Hc) as (_ & _ & _ & Qc).
  assert (Tl : forall p r', (" " ++ name)%string = String p r' ->
                            isDigit p = false /\ time.commaOrPeriod p = false).
  { intros p r' H. injection H as <- _. split; reflexivity. }
  assert (Civil : time.mkTime (time.year t) (time.month t) (time.day t) (time.hour t)
                    (time.minute t) (time.second t) (time.nsec t) 0 = t).
  { destruct t as [y mo dd h mi s ns off]. cbn in Ho. now rewrite Ho. }
  apply Time_decode_text.
  - exists d, (r ++ " " ++ name)%string. split; [ now rewrite E | exact Hd ].
  - rewrite allChars_append, NQ. unfold name. cbn [append allChars].
    now rewrite Qa, Qb, Qc.
  - unfold timeLayouts. cbn [parseFirst].
    assert (P1 : time.Parse zoneTime time.RFC3339 (dateTimeText "T" t ++ " " ++ name)
                 = None).
    { unfold time.Parse, time.RFC3339.
      rewrite (parse_dateTimeT t _ _ W Hy Tl). reflexivity. }
    rewrite P1.
    assert (P2 : time.parseChunks (time.dateTimeT ++ [time.lit " "; time.stdTZ])%list
                   (dateTimeText "T" t ++ " " ++ name) time.noFields
                 = Some (time.mkFields (time.year t) (time.month t) (time.day t)
                           (time.hour t) (time.minute t) (time.second t)
                           (if time.nsec t =? 0 then 0 else time.nsec t)
                           (name =? "UTC")%string (-1)
                           (if (name =? "UTC")%string then "" else name))).
    { rewrite (parse_dateTimeT t _ _ W Hy Tl).
      rewrite parseChunks_lit_space
        by (exists a, (String b (String c "")); split; [ reflexivity | exact Sa ]).
      cbn [time.parseChunks time.parseStd]. flat_fields.
      change (utf8.take 3 name) with name. change (utf8.drop 3 name) with "".
      destruct (name =? "UTC")%string; [ reflexivity | ].
      unfold name. now rewrite parseTimeZone_capitals. }
    rewrite (fields_of_reading zoneTime t _ _ _ W _ _ P2). rewrite Civil.
    destruct (name =? "UTC")%string eqn:U; [ reflexivity | ].
    change (negb (-1 =? -1)) with false. cbv iota.
    assert (N : (name =? "")%string = false) by reflexivity.
    now rewrite N.
Qed.

Lemma Time_reads_zone_abbreviation_witness :
  Time_UnmarshalJSON zoneZero (absent KTimestamp) (quoted "2023-10-05T14:48:00 UTC")
  = (mkTimeParam (time.mkTime 2023 10 5 14 48 0 0 0) true, None).
Proof.
  apply (Time_reads_zone_abbreviation zoneZero (absent KTimestamp)
           (time.mkTime 2023 10 5 14 48 0 0 0) "U" "T" "C");
    [ reflexivity | split; discriminate | reflexivity | reflexivity | reflexivity
    | reflexivity ].
Defined.

(** ** JSON: white space around the text *)

Lemma space_cases :
  forall c,
    json.isSpace c = true ->
    c = " "%char \/ c = "009"%char \/ c = "013"%char \/ c = "010"%char.
Proof.
  intros c. destruct c as [[ | ] [ | ] [ | ] [ | ] [ | ] [ | ] [ | ] [ | ]];
    vm_compute; intros H; try discriminate H; auto 6.
Qed.

Lemma space_facts :
  forall c,
    json.isSpace c = true ->
    Ascii.eqb c dq = false /\ Ascii.eqb c bslash = false
    /\ (byteZ c <? 128) = true /\ json.hexVal c = None
    /\ (Ascii.eqb c dq || Ascii.eqb c bslash || Ascii.eqb c "/") = false
    /\ Ascii.eqb c "b" = false /\ Ascii.eqb c "f" = false /\ Ascii.eqb c "n" = false
    /\ Ascii.eqb c "r" = false /\ Ascii.eqb c "t" = false /\ Ascii.eqb c "u" = false.
Proof.
  intros c H.
  destruct (space_cases c H) as [-> | [-> | [-> | ->]]]; repeat split; reflexivity.
Qed.

(** White space holds no string literal. *)
Lemma unquote_spaces :
  forall f w, spaces w = true -> json.unquote f w = None.
Proof.
  unfold spaces. induction f as [ | f IH]; intros w H; [ reflexivity | ].
  destruct w as [ | c w]; [ reflexivity | ].
  cbn [allChars] in H. apply andb_prop in H as [Hc Hw].
  destruct (space_facts c Hc) as (Q & B & A & _).
  cbn [json.unquote]. rewrite Q, B.
  destruct (byteZ c <? 32); [ reflexivity | ].
  unfold utf8.RuneSelf. rewrite A, (IH w Hw). reflexivity.
Qed.

Lemma getu4_app :
  forall s w, spaces w = true -> json.getu4 (s ++ w) = json.getu4 s.
Proof.
  unfold spaces. intros s w H.
  destruct w as [ | c w]; [ now rewrite append_nil_r | ].
  cbn [allChars] in H. apply andb_prop in H as [Hc _].
  destruct (space_facts c Hc) as (_ & Hb & _ & Hx & _ & _ & _ & _ & _ & _ & Hu).
  destruct s as [ | c0 [ | c1 [ | c2 [ | c3 [ | c4 [ | c5 s]]]]]];
    cbn [append json.getu4]; try reflexivity;
    rewrite ?Hb, ?Hu, ?Hx; cbn [andb]; rewrite ?andb_false_r;
    repeat match goal with
           | |- context [match ?x with EmptyString => _ | String _ _ => _ end] =>
               is_var x; destruct x
           end;
    repeat match goal with
           | |- context [match json.hexVal ?a with _ => _ end] =>
               destruct (json.hexVal a)
           end;
    try reflexivity;
    match goal with
    | |- context [if ?g then _ else _] => destruct g; reflexivity
    end.
Qed.

Lemma DecodeRune_app :
  forall c0 r0 w,
    (forall c w', w = String c w' -> byteZ c < 128) ->
    utf8.DecodeRune (String c0 r0 ++ w) = utf8.DecodeRune (String c0 r0).
Proof.
  intros c0 r0 w Hw. unfold utf8.DecodeRune. cbn [append].
  destruct (byteZ c0 <? utf8.RuneSelf); [ reflexivity | ].
  destruct (utf8.first (byteZ c0)) as [[[sz lo] hi] | ] eqn:F; [ | reflexivity ].
  assert (Lo : 128 <= lo) by (destruct (first_spec _ _ _ _ F) as [S | [S | S]]; lia).
  assert (Tail : forall (A : Type) (x y : A) (k : ascii -> string -> A),
             (forall c w', byteZ c < 128 -> k c w' = x) ->
             match w with EmptyString => x | String c w' => k c w' end = x).
  { intros A x y k Hk. destruct w as [ | c w']; [ reflexivity | ].
    apply Hk. now apply (Hw c w'). }
  destruct r0 as [ | c1 r1]; cbn [append].
  { destruct w as [ | c w']; [ reflexivity | ].
    pose proof (Hw c w' eq_refl).
    replace ((byteZ c <? lo) || (hi <? byteZ c)) with true by lia. reflexivity. }
  destruct ((byteZ c1 <? lo) || (hi <? byteZ c1)); [ reflexivity | ].
  destruct (sz <=? 2); [ reflexivity | ].
  destruct r1 as [ | c2 r2]; cbn [append].
  { destruct w as [ | c w']; [ reflexivity | ].
    pose proof (Hw c w' eq_refl). unfold utf8.cont.
    replace ((128 <=? byteZ c) && (byteZ c <=? 191)) with false by lia. reflexivity. }
  destruct (negb (utf8.cont (byteZ c2))); [ reflexivity | ].
  destruct (sz <=? 3); [ reflexivity | ].
  destruct r2 as [ | c3 r3]; cbn [append]; [ | reflexivity ].
  destruct w as [ | c w']; [ reflexivity | ].
  pose proof (Hw c w' eq_refl). unfold utf8.cont.
  replace ((128 <=? byteZ c) && (byteZ c <=? 191)) with false by lia. reflexivity.
Qed.

Lemma DecodeRune_size :
  forall c0 r0 rr size,
    utf8.DecodeRune (String c0 r0) = (rr, size) ->
    (1 <= size <= len (String c0 r0))%nat.
Proof.
  intros c0 r0 rr size H. unfold utf8.DecodeRune in H.
  assert (One : forall x : Z, (x, 1%nat) = (rr, size) ->
                              (1 <= size <= len (String c0 r0))%nat).
  { intros x E. injection E as _ <-. unfold len. simpl. lia. }
  destruct (byteZ c0 <? utf8.RuneSelf); [ exact (One _ H) | ].
  destruct (utf8.first (byteZ c0)) as [[[sz lo] hi] | ]; [ | exact (One _ H) ].
  destruct r0 as [ | c1 r1]; [ exact (One _ H) | ].
  destruct ((byteZ c1 <? lo) || (hi <? byteZ c1)); [ exact (One _ H) | ].
  destruct (sz <=? 2).
  { injection H as _ <-. unfold len. simpl. lia. }
  destruct r1 as [ | c2 r2]; [ exact (One _ H) | ].
  destruct (negb (utf8.cont (byteZ c2))); [ exact (One _ H) | ].
  destruct (sz <=? 3).
  { injection H as _ <-. unfold len. simpl. lia. }
  destruct r2 as [ | c3 r3]; [ exact (One _ H) | ].
  destruct (negb (utf8.cont (byteZ c3))); [ exact (One _ H) | ].
  injection H as _ <-. unfold len. simpl. lia.
Qed.

Lemma drop_app :
  forall n s w, (n <= len s)%nat -> utf8.drop n (s ++ w) = (utf8.drop n s ++ w)%string.
Proof.
  induction n as [ | n IH]; intros s w H.
  - destruct s; destruct w; reflexivity.
  - destruct s as [ | c s]; [ unfold len in H; simpl in H; lia | ].
    cbn [append utf8.drop]. apply IH. unfold len in *. simpl in H. lia.
Qed.

Lemma len_drop : forall n s, len (utf8.drop n s) = (len s - n)%nat.
Proof.
  induction n as [ | n IH]; intros s.
  - destruct s; unfold len; simpl; lia.
  - destruct s as [ | c s]; [ reflexivity | ]. cbn [utf8.drop]. rewrite IH.
    unfold len. simpl. lia.
Qed.

Lemma getu4_len : forall s r, json.getu4 s = Some r -> (6 <= len s)%nat.
Proof.
  intros s r H.
  destruct s as [ | c0 [ | c1 [ | c2 [ | c3 [ | c4 [ | c5 s]]]]]]; try discriminate H.
  unfold len. simpl. lia.
Qed.

(** White space after a text changes nothing of the string literal that
    [unquote] reads off its start. *)
Lemma unquote_app :
  forall f s w,
    spaces w = true ->
    json.unquote f (s ++ w)
    = option_map (fun p => (fst p, (snd p ++ w)%string)) (json.unquote f s).
Proof.
  intros f s w Hw. revert s.
  set (g := fun p : string * string => (fst p, (snd p ++ w)%string)).
  assert (Cf : forall c o, json.cons_fst c (option_map g o) = option_map g (json.cons_fst c o)).
  { intros c [[t r] | ]; reflexivity. }
  assert (Af : forall p o, json.app_fst p (option_map g o) = option_map g (json.app_fst p o)).
  { intros p [[t r] | ]; reflexivity. }
  assert (Wasc : forall c w', w = String c w' -> byteZ c < 128).
  { intros c w' ->. unfold spaces in Hw. cbn [allChars] in Hw.
    apply andb_prop in Hw as [Hc _]. destruct (space_facts c Hc) as (_ & _ & A & _). lia. }
  induction f as [ | f IH]; intros s; [ reflexivity | ].
  destruct s as [ | c r].
  { cbn [append]. now rewrite unquote_spaces. }
  cbn [append json.unquote].
  destruct (Ascii.eqb c dq); [ reflexivity | ].
  destruct (Ascii.eqb c bslash).
  { destruct r as [ | e r']; cbn [append].
    - destruct w as [ | e w']; [ reflexivity | ].
      unfold spaces in Hw. cbn [allChars] in Hw. apply andb_prop in Hw as [He _].
      destruct (space_facts e He) as (_ & _ & _ & _ & E0 & E1 & E2 & E3 & E4 & E5 & E6).
      now rewrite E0, E1, E2, E3, E4, E5, E6.
    - destruct (Ascii.eqb e dq || Ascii.eqb e bslash || Ascii.eqb e "/");
        [ now rewrite IH, Cf | ].
      destruct (Ascii.eqb e "b"); [ now rewrite IH, Cf | ].
      destruct (Ascii.eqb e "f"); [ now rewrite IH, Cf | ].
      destruct (Ascii.eqb e "n"); [ now rewrite IH, Cf | ].
      destruct (Ascii.eqb e "r"); [ now rewrite IH, Cf | ].
      destruct (Ascii.eqb e "t"); [ now rewrite IH, Cf | ].
      destruct (Ascii.eqb e "u"); [ | reflexivity ].
      change (String c (String e (r' ++ w))) with (String c (String e r') ++ w)%string.
      rewrite (getu4_app _ w Hw).
      destruct (json.getu4 (String c (String e r'))) as [rr | ] eqn:G; [ | reflexivity ].
      rewrite (drop_app 6 _ w (getu4_len _ _ G)).
      destruct (json.IsSurrogate rr); [ | now rewrite IH, Af ].
      rewrite (getu4_app _ w Hw).
      destruct (json.getu4 (utf8.drop 6 (String c (String e r')))) as [rr1 | ] eqn:G1;
        [ | now rewrite IH, Af ].
      rewrite (drop_app 6 _ w (getu4_len _ _ G1)).
      destruct (negb (json.utf16_DecodeRune rr rr1 =? utf8.RuneError));
        now rewrite IH, Af. }
  destruct (byteZ c <? 32); [ reflexivity | ].
  destruct (byteZ c <? utf8.RuneSelf); [ now rewrite IH, Cf | ].
  change (String c (r ++ w)) with (String c r ++ w)%string.
  rewrite (DecodeRune_app c r w Wasc).
  destruct (utf8.DecodeRune (String c r)) as [rr size] eqn:D.
  rewrite (drop_app size _ w (proj2 (DecodeRune_size _ _ _ _ D))).
  now rewrite IH, Af.
Qed.

(** The fuel [scan] gives [unquote], one more than the length of the text,
    is enough: more fuel gives the same result. *)
Lemma unquote_fuel :
  forall f f' s,
    (len s < f)%nat -> (len s < f')%nat -> json.unquote f s = json.unquote f' s.
Proof.
  induction f as [ | f IH]; intros f' s H H'; [ lia | ].
  destruct f' as [ | f']; [ lia | ].
  destruct s as [ | c r]; [ reflexivity | ].
  change (len (String c r)) with (S (len r)) in H, H'.
  assert (R : forall n x, (x = r \/ exists e, r = String e x) -> 
                          json.unquote f (utf8.drop n x) = json.unquote f' (utf8.drop n x)).
  { intros n x Hx. apply IH; rewrite len_drop.
    - destruct Hx as [-> | [e ->]]; [ lia | ].
      change (len (String e x)) with (S (len x)) in H. lia.
    - destruct Hx as [-> | [e ->]]; [ lia | ].
      change (len (String e x)) with (S (len x)) in H'. lia. }
  cbn [json.unquote].
  destruct (Ascii.eqb c dq); [ reflexivity | ].
  destruct (Ascii.eqb c bslash).
  { destruct r as [ | e r']; [ reflexivity | ].
    assert (R0 : json.unquote f r' = json.unquote f' r').
    { apply (R 0%nat r'). right. now exists e. }
    assert (Rn : forall n, (2 <= n)%nat ->
                 json.unquote f (utf8.drop n (String c (String e r')))
                 = json.unquote f' (utf8.drop n (String c (String e r')))).
    { intros n Hn. destruct n as [ | [ | n]]; [ lia | lia | ].
      cbn [utf8.drop]. apply (R n r'). right. now exists e. }
    rewrite R0.
    destruct (Ascii.eqb e dq || Ascii.eqb e bslash || Ascii.eqb e "/"); [ reflexivity | ].
    repeat match goal with
           | |- context [if Ascii.eqb e ?k then _ else _] =>
               destruct (Ascii.eqb e k); [ reflexivity | ]
           end.
    destruct (json.getu4 (String c (String e r'))) as [rr | ]; [ | reflexivity ].
    rewrite (Rn 6%nat) by lia.
    assert (R12 : json.unquote f (utf8.drop 6 (utf8.drop 6 (String c (String e r'))))
                  = json.unquote f' (utf8.drop 6 (utf8.drop 6 (String c (String e r'))))).
    { apply IH; rewrite !len_drop;
        change (len (String c (String e r'))) with (S (S (len r')));
        change (len (String e r')) with (S (len r')) in H, H'; lia. }
    now rewrite R12. }
  destruct (byteZ c <? 32); [ reflexivity | ].
  assert (Rr : json.unquote f r = json.unquote f' r)
    by exact (R 0%nat r (or_introl eq_refl)).
  rewrite Rr.
  destruct (byteZ c <? utf8.RuneSelf); [ reflexivity | ].
  destruct (utf8.DecodeRune (String c r)) as [rr size] eqn:D.
  pose proof (DecodeRune_size _ _ _ _ D) as Sz.
  destruct size as [ | size]; [ lia | ]. cbn [utf8.drop].
  now rewrite (R size r (or_introl eq_refl)).
Qed.

Lemma skipSpace_spaces : forall w, spaces w = true -> json.skipSpace w = "".
Proof.
  intros w H. rewrite <- (append_nil_r w). now rewrite skipSpace_app.
Qed.

Lemma skipSpace_app_r :
  forall s w,
    spaces w = true ->
    json.skipSpace (s ++ w)
    = match json.skipSpace s with
      | EmptyString => EmptyString
      | x => (x ++ w)%string
      end.
Proof.
  intros s w H. induction s as [ | c s IH].
  - cbn [append json.skipSpace]. now apply skipSpace_spaces.
  - cbn [append json.skipSpace]. destruct (json.isSpace c); [ exact IH | reflexivity ].
Qed.

(** The scanner and white space around an array or an object. *)

Lemma steps_app :
  forall a b s,
    json.steps s (a ++ b)
    = match json.steps s a with
      | Some s' => json.steps s' b
      | None => None
      end.
Proof.
  induction a as [ | c a IH]; intros b s; [ reflexivity | ].
  cbn [append json.steps]. destruct (json.scanStep s c); [ apply IH | reflexivity ].
Qed.

Lemma steps_leading_spaces :
  forall w,
    spaces w = true ->
    json.steps (json.stateBeginValue, []) w = Some (json.stateBeginValue, []).
Proof.
  unfold spaces. induction w as [ | c w IH]; intros H; [ reflexivity | ].
  cbn [allChars] in H. apply andb_prop in H as [Hc Hw].
  cbn [json.steps json.scanStep]. unfold json.beginValue. rewrite Hc. now apply IH.
Qed.

Ltac scanner_cases H :=
  repeat match type of H with
         | context [if ?g then _ else _] => destruct g
         | context [match ?x with json.parseObjectKey => _ | _ => _ end] => destruct x
         | context [match ?x with [] => _ | _ :: _ => _ end] => destruct x
         end.

Lemma step_closedOrNested :
  forall s c s',
    closedOrNested s -> json.scanStep s c = Some s' -> closedOrNested s'.
Proof.
  intros [fn ps] c s' [E | N] H; cbn [fst snd] in *.
  - subst fn. cbn [json.scanStep] in H. destruct (json.isSpace c); [ | discriminate H ].
    injection H as <-. now left.
  - destruct ps as [ | top rest]; [ now elim N | ]. clear N.
    destruct fn; cbn [json.scanStep] in H;
      unfold json.zero, json.eSign, json.letter, json.beginValue, json.beginString,
        json.endValue, json.pushParseState, json.popParseState in H;
      cbv beta iota in H;
      scanner_cases H; try discriminate H; injection H as <-;
      solve [ right; discriminate | left; reflexivity ].
Qed.

Lemma steps_closedOrNested :
  forall data s s',
    closedOrNested s -> json.steps s data = Some s' -> closedOrNested s'.
Proof.
  induction data as [ | c r IH]; intros s s' I H; cbn [json.steps] in H.
  - now injection H as <-.
  - destruct (json.scanStep s c) as [s1 | ] eqn:S1; [ | discriminate H ].
    exact (IH _ _ (step_closedOrNested _ _ _ I S1) H).
Qed.

(** Inside an array or an object, white space closes nothing. *)
Lemma step_space_nested :
  forall fn ps c s',
    ps <> [] -> fn <> json.stateEndTop -> json.isSpace c = true ->
    json.scanStep (fn, ps) c = Some s' ->
    snd s' <> [] /\ fst s' <> json.stateEndTop.
Proof.
  intros fn ps c s' N F Hc H.
  destruct ps as [ | top rest]; [ now elim N | ]. clear N.
  destruct (space_cases c Hc) as [-> | [-> | [-> | ->]]];
    destruct fn; try (now elim F); vm_compute in H; try discriminate H;
    scanner_cases H; try discriminate H; injection H as <-;
    split; discriminate.
Qed.

Lemma stepFn_EndTop_dec :
  forall fn : json.stepFn, fn = json.stateEndTop \/ fn <> json.stateEndTop.
Proof. intros fn. destruct fn; (now left) || (right; discriminate). Qed.

Lemma not_EndTop :
  forall fn : json.stepFn,
    fn <> json.stateEndTop ->
    match fn with json.stateEndTop => true | _ => false end = false.
Proof. intros fn F. destruct fn; try reflexivity. now elim F. Qed.

Lemma eof_closedOrNested :
  forall s,
    closedOrNested s ->
    json.eof s = match fst s with json.stateEndTop => true | _ => false end.
Proof.
  intros [fn ps] I. cbn [fst].
  destruct (stepFn_EndTop_dec fn) as [-> | F]; [ reflexivity | ].
  destruct I as [E | N]; cbn [fst snd] in *; [ now elim F | ].
  assert (X : match json.scanStep (fn, ps) " " with
              | Some (json.stateEndTop, _) => true
              | _ => false
              end = false).
  { destruct (json.scanStep (fn, ps) " ") as [[fn' ps'] | ] eqn:S1; [ | reflexivity ].
    destruct (step_space_nested fn ps " " _ N F eq_refl S1) as [_ F'].
    cbn [fst] in F'. destruct fn'; try reflexivity. now elim F'. }
  unfold json.eof. cbn [fst]. destruct fn; try reflexivity; exact X.
Qed.

Lemma steps_trailing_spaces :
  forall w s,
    closedOrNested s -> spaces w = true ->
    match json.steps s w with
    | Some s' => json.eof s'
    | None => false
    end = json.eof s.
Proof.
  unfold spaces. induction w as [ | c w IH]; intros s I H; [ reflexivity | ].
  cbn [allChars] in H. apply andb_prop in H as [Hc Hw].
  cbn [json.steps]. rewrite (eof_closedOrNested s I).
  destruct s as [fn ps]. cbn [fst].
  destruct (stepFn_EndTop_dec fn) as [-> | F].
  - cbn [json.scanStep]. rewrite Hc.
    rewrite (IH (json.stateEndTop, ps) I Hw). reflexivity.
  - rewrite (not_EndTop fn F).
    destruct I as [E | N]; cbn [fst snd] in *; [ now elim F | ].
    destruct (json.scanStep (fn, ps) c) as [s1 | ] eqn:S1; [ | reflexivity ].
    destruct (step_space_nested fn ps c s1 N F Hc S1) as [N1 F1].
    rewrite (IH s1 (or_intror N1) Hw), (eof_closedOrNested s1 (or_intror N1)).
    now apply not_EndTop.
Qed.

(** [checkValid] of a text that opens an array or an object ignores the
    white space around it. *)
Lemma checkValid_padded :
  forall data w1 w2 c r,
    spaces w1 = true -> spaces w2 = true ->
    json.skipSpace data = String c r ->
    (Ascii.eqb c "{" || Ascii.eqb c "[") = true ->
    json.checkValid (w1 ++ data ++ w2) = json.checkValid data.
Proof.
  intros data w1 w2 c r H1 H2 Sk Hc.
  destruct (skipSpace_decompose data) as (w & E & Hw). rewrite Sk in E.
  assert (First : exists s1, json.scanStep (json.stateBeginValue, []) c = Some s1
                             /\ closedOrNested s1).
  { apply orb_prop in Hc as [Hc | Hc]; apply Ascii.eqb_eq in Hc; subst c;
      eexists; (split; [ reflexivity | right; discriminate ]). }
  destruct First as (s1 & S1 & I1).
  unfold json.checkValid. rewrite E.
  rewrite (steps_app w1), (steps_leading_spaces w1 H1). cbv beta iota.
  rewrite (steps_app (w ++ String c r)).
  rewrite (steps_app w), (steps_leading_spaces w Hw). cbv beta iota.
  cbn [json.steps]. rewrite S1.
  destruct (json.steps s1 r) as [s2 | ] eqn:S2; [ | reflexivity ].
  apply steps_trailing_spaces; [ | exact H2 ].
  exact (steps_closedOrNested _ _ _ I1 S2).
Qed.

(** [json.Unmarshal] ignores white space before and after the value. *)
Lemma scan_app :
  forall data w1 w2,
    spaces w1 = true -> spaces w2 = true ->
    json.scan (w1 ++ data ++ w2) = json.scan data.
Proof.
  intros data w1 w2 H1 H2. unfold json.scan, string_of_bytes.
  rewrite (skipSpace_app w1 _ H1), (skipSpace_app_r data w2 H2).
  destruct (json.skipSpace data) as [ | c r] eqn:Sk; [ reflexivity | ].
  cbn [append].
  destruct (Ascii.eqb c dq).
  - rewrite (unquote_app _ r w2 H2).
    rewrite (unquote_fuel (S (len (r ++ w2))) (S (len r)) r)
      by (rewrite ?len_append; lia).
    destruct (json.unquote (S (len r)) r) as [[t rest] | ]; [ | reflexivity ].
    cbn [option_map fst snd]. rewrite (skipSpace_app_r rest w2 H2).
    destruct (json.skipSpace rest) as [ | c' r']; reflexivity.
  - destruct (Ascii.eqb c "{" || Ascii.eqb c "[") eqn:B.
    + now rewrite (checkValid_padded data w1 w2 c r H1 H2 Sk B).
    + change (String c (r ++ w2)) with (String c r ++ w2)%string.
      now rewrite (trimRightSpace_app _ w2 H2).
Qed.

Lemma spaces_around :
  forall l s r t,
    spaces l = true -> spaces r = true ->
    allChars (fun c => negb (json.isSpace c)) t = true ->
    (l ++ s ++ r)%string = t -> s = t.
Proof.
  intros l s r t Hl Hr Ht E. rewrite <- E in Ht.
  rewrite !allChars_append in Ht.
  apply andb_prop in Ht as [Al Ht]. apply andb_prop in Ht as [_ Ar].
  rewrite (allChars_both _ l Hl Al), (allChars_both _ r Hr Ar) in E.
  now rewrite append_nil_r in E.
Qed.

Lemma padded_guard :
  forall w1 data w2,
    spaces w1 = true -> spaces w2 = true -> data <> "" -> data <> "null" ->
    ((len (w1 ++ data ++ w2) =? 0)%nat
     || (string_of_bytes (w1 ++ data ++ w2) =? "null")%string) = false.
Proof.
  intros w1 data w2 H1 H2 D0 Dn. apply guard_false.
  - intros E. apply D0. destruct w1; [ | discriminate E ].
    destruct data; [ reflexivity | discriminate E ].
  - intros E. apply Dn. now apply (spaces_around w1 data w2 "null" H1 H2 eq_refl).
Qed.

(** X20: Int and String read the text with [json.Unmarshal], which ignores the
    white space of JSON around the value: padding a text that is neither
    empty nor null changes nothing of the outcome. *)
Theorem white_space_is_ignored :
  forall (zoneTime : string -> time.Time -> time.Time)
         (K : Kind) (x : instance K) (data w1 w2 : string),
    K = KInt \/ K = KString ->
    spaces w1 = true -> spaces w2 = true -> data <> "" -> data <> "null" ->
    observe K (Decode zoneTime K x (w1 ++ data ++ w2))
    = observe K (Decode zoneTime K x data).
Proof.
  intros zoneTime K x data w1 w2 HK H1 H2 D0 Dn.
  pose proof (padded_guard w1 data w2 H1 H2 D0 Dn) as G.
  pose proof (guard_false data D0 Dn) as G0.
  pose proof (scan_app data w1 w2 H1 H2) as Sc.
  destruct HK as [-> | ->]; cbn [Decode].
  - unfold Int_UnmarshalJSON, json.Unmarshal_Number. now rewrite G, G0, Sc.
  - unfold String_UnmarshalJSON, json.Unmarshal_string. now rewrite G, G0, Sc.
Qed.

Lemma white_space_is_ignored_witness :
  observe KInt (Decode zoneZero KInt (absent KInt) (" " ++ "42" ++ "  "))
  = observe KInt (Decode zoneZero KInt (absent KInt) "42").
Proof.
  apply (white_space_is_ignored zoneZero KInt (absent KInt) "42" " " "  ");
    [ now left | reflexivity | reflexivity | discriminate | discriminate ].
Defined.

Lemma TrimRight_keeps_head :
  forall cut c r,
    strings.inCutset cut c = false ->
    exists r', strings.TrimRight (String c r) cut = String c r'.
Proof.
  intros cut c r H. cbn [strings.TrimRight]. rewrite H.
  destruct (strings.TrimRight r cut); eexists; reflexivity.
Qed.

(** X21: Bool and Timestamp take the bytes as they are: a text with white space
    before it is refused, whatever the text. *)
Theorem white_space_is_refused :
  forall (zoneTime : string -> time.Time -> time.Time)
         (K : Kind) (x : instance K) (data w1 w2 : string),
    K = KBool \/ K = KTimestamp ->
    spaces w1 = true -> spaces w2 = true -> w1 <> "" ->
    snd (Decode zoneTime K x (w1 ++ data ++ w2))
    = Some (Errorf ((match K with
                     | KBool => "invalid boolean format: "
                     | _ => "invalid time format: "
                     end) ++ (w1 ++ data ++ w2))).
Proof.
  intros zoneTime K x data w1 w2 HK H1 H2 Hw.
  destruct w1 as [ | c w1]; [ now elim Hw | ].
  unfold spaces in H1. cbn [allChars] in H1. apply andb_prop in H1 as [Hc H1].
  destruct (space_cases c Hc) as [Ec | [Ec | [Ec | Ec]]];
    (assert (Q : strings.inCutset (String dq "") c = false) by (rewrite Ec; reflexivity));
    (assert (Dg : isDigit c = false) by (rewrite Ec; reflexivity));
    (assert (Lw : strings.lower c = c) by (rewrite Ec; reflexivity));
    (assert (Nt : Ascii.eqb c "t" = false) by (rewrite Ec; reflexivity));
    (assert (Nf : Ascii.eqb c "f" = false) by (rewrite Ec; reflexivity));
    (assert (Nn : Ascii.eqb c "n" = false) by (rewrite Ec; reflexivity));
    (assert (Nq : Ascii.eqb c dq = false) by (rewrite Ec; reflexivity));
    clear Ec;
    cbn [append];
    set (rest := (w1 ++ data ++ w2)%string);
    destruct (TrimRight_keeps_head (String dq "") c rest Q) as [r' Tr];
    (assert (T : strings.Trim (String c rest) (String dq "") = String c r')
      by (unfold strings.Trim; rewrite Tr; cbn [strings.TrimLeft]; now rewrite Q));
    (assert (G : ((len (String c rest) =? 0)%nat
                  || (string_of_bytes (String c rest) =? "null")%string) = false)
      by (unfold string_of_bytes; cbn [len String.length Nat.eqb orb String.eqb];
          now rewrite Nn));
    destruct HK as [-> | ->]; cbn [Decode].
  all: try (unfold Bool_UnmarshalJSON; rewrite G; unfold string_of_bytes; rewrite T;
            cbn [strings.ToLower String.eqb]; rewrite Lw, Nt, Nf; reflexivity).
  all: unfold Time_UnmarshalJSON; rewrite G; unfold string_of_bytes; rewrite T;
    cbn [String.eqb]; rewrite Nq;
    rewrite (parseFirst_needs_digit zoneTime c r' Dg); reflexivity.
Qed.

Lemma white_space_is_refused_witness :
  snd (Decode zoneZero KBool (absent KBool) (" " ++ "true" ++ ""))
  = Some (Errorf ("invalid boolean format: " ++ (" " ++ "true" ++ ""))).
Proof.
  apply (white_space_is_refused zoneZero KBool (absent KBool) "true" " " "");
    [ now left | reflexivity | reflexivity | discriminate ].
Defined.

(** ** String literals without escapes *)

Lemma unquote_raw :
  forall n s fd fv rest,
    (len s <= n)%nat -> (len s < fd)%nat -> (len s <= fv)%nat ->
    allChars rawChar s = true -> utf8.valid_loop fv s = true ->
    json.unquote fd (s ++ String dq rest) = Some (s, rest).
Proof.
  induction n as [ | n IH]; intros s fd fv rest Hn Hfd Hfv R V.
  - destruct s as [ | c r]; [ | unfold len in Hn; simpl in Hn; lia ].
    destruct fd as [ | fd]; [ lia | ]. reflexivity.
  - destruct s as [ | c r].
    { destruct fd as [ | fd]; [ lia | ]. reflexivity. }
    change (len (String c r)) with (S (len r)) in Hn, Hfd, Hfv.
    destruct fd as [ | fd]; [ lia | ]. destruct fv as [ | fv]; [ lia | ].
    cbn [allChars] in R. apply andb_prop in R as [Rc Rr].
    destruct (byteZ c <? 128) eqn:Ea.
    + assert (P : plainChar c = true).
      { unfold rawChar in Rc. unfold plainChar. now rewrite Rc, Ea. }
      rewrite (valid_loop_ascii fv c r ltac:(lia)) in V.
      cbn [append]. rewrite (unquote_plain_step c fd _ P).
      now rewrite (IH r fd fv rest ltac:(lia) ltac:(lia) ltac:(lia) Rr V).
    + assert (Ha : 128 <= byteZ c) by lia.
      destruct (DecodeRune_nonascii c r Ha)
        as [E | (cs & rs & rn & Es & Lcs & Dall & Enc & (t0 & Ecs))].
      * cbn [utf8.valid_loop] in V. rewrite E in V.
        change ((utf8.RuneError =? utf8.RuneError) && (1 =? 1)%nat) with true in V.
        discriminate V.
      * assert (Lrs : len (String c r) = (len cs + len rs)%nat)
          by (rewrite Es; apply len_append).
        change (len (String c r)) with (S (len r)) in Lrs.
        assert (Sz : (len cs =? 1)%nat = false) by (apply Nat.eqb_neq; lia).
        cbn [utf8.valid_loop] in V. rewrite Es in V.
        rewrite (Dall rs), Sz, andb_false_r, drop_append in V.
        assert (Rs : allChars rawChar rs = true).
        { assert (A : allChars rawChar (String c r) = true)
            by (cbn [allChars]; now rewrite Rc, Rr).
          rewrite Es, allChars_append in A. now apply andb_prop in A as [_ A]. }
        cbn [append]. rewrite (unquote_rune_step c _ fd Ha).
        change (String c (r ++ String dq rest)) with (String c r ++ String dq rest)%string.
        rewrite Es, append_assoc, (Dall _), drop_append, Enc.
        now rewrite (IH rs fd fv rest ltac:(lia) ltac:(lia) ltac:(lia) Rs V).
Qed.

(** X22: A text in UTF-8 without double quote, backslash and control
    character, put between double quotes, is decoded by String to the text
    itself: the bytes of a literal without escapes are taken as they
    are. *)
Theorem String_reads_raw_text :
  forall (x : params_String) (s : string),
    utf8.ValidString s = true -> allChars rawChar s = true ->
    String_UnmarshalJSON x (quoted s) = (mkString s true, None).
Proof.
  intros x s V R. unfold String_UnmarshalJSON.
  assert (G : ((len (quoted s) =? 0)%nat
               || (string_of_bytes (quoted s) =? "null")%string) = false)
    by reflexivity.
  rewrite G. unfold json.Unmarshal_string, json.scan, string_of_bytes, quoted.
  cbn [json.skipSpace]. change (json.isSpace dq) with false. cbv iota.
  change (Ascii.eqb dq dq) with true. cbv iota.
  rewrite (unquote_raw (len s) s _ (len s) "" (le_n _)); try assumption.
  - reflexivity.
  - rewrite len_append. change (len (String dq "")) with 1%nat. lia.
  - lia.
Qed.

Lemma String_reads_raw_text_witness :
  String_UnmarshalJSON (absent KString) (quoted "a<b & c>d")
  = (mkString "a<b & c>d" true, None).
Proof.
  apply (String_reads_raw_text (absent KString) "a<b & c>d"); reflexivity.
Defined.

(** ** Arrays and objects *)

(** Bool and Timestamp refuse a text that starts with white space or that
    opens an array or an object. *)
Lemma first_byte_refused :
  forall (zoneTime : string -> time.Time -> time.Time)
         (K : Kind) (x : instance K) (a : ascii) (rest : string),
    K = KBool \/ K = KTimestamp ->
    json.isSpace a = true \/ a = "{"%char \/ a = "["%char ->
    snd (Decode zoneTime K x (String a rest))
    = Some (Errorf ((match K with
                     | KBool => "invalid boolean format: "
                     | _ => "invalid time format: "
                     end) ++ String a rest)).
Proof.
  intros zoneTime K x a rest HK Ha.
  assert (Ea : a = " "%char \/ a = "009"%char \/ a = "013"%char \/ a = "010"%char
               \/ a = "{"%char \/ a = "["%char).
  { destruct Ha as [Ha | [-> | ->]]; [ | tauto | tauto ].
    destruct (space_cases a Ha) as [-> | [-> | [-> | ->]]]; tauto. }
  clear Ha.
  destruct Ea as [Ea | [Ea | [Ea | [Ea | [Ea | Ea]]]]];
    (assert (Q : strings.inCutset (String dq "") a = false) by (rewrite Ea; reflexivity));
    (assert (Dg : isDigit a = false) by (rewrite Ea; reflexivity));
    (assert (Lw : strings.lower a = a) by (rewrite Ea; reflexivity));
    (assert (Nt : Ascii.eqb a "t" = false) by (rewrite Ea; reflexivity));
    (assert (Nf : Ascii.eqb a "f" = false) by (rewrite Ea; reflexivity));
    (assert (Nn : Ascii.eqb a "n" = false) by (rewrite Ea; reflexivity));
    (assert (Nq : Ascii.eqb a dq = false) by (rewrite Ea; reflexivity));
    clear Ea;
    destruct (TrimRight_keeps_head (String dq "") a rest Q) as [r' Tr];
    (assert (T : strings.Trim (String a rest) (String dq "") = String a r')
      by (unfold strings.Trim; rewrite Tr; cbn [strings.TrimLeft]; now rewrite Q));
    (assert (G : ((len (String a rest) =? 0)%nat
                  || (string_of_bytes (String a rest) =? "null")%string) = false)
      by (unfold string_of_bytes; cbn [len String.length Nat.eqb orb String.eqb];
          now rewrite Nn));
    destruct HK as [-> | ->]; cbn [Decode].
  all: try (unfold Bool_UnmarshalJSON; rewrite G; unfold string_of_bytes; rewrite T;
            cbn [strings.ToLower String.eqb]; rewrite Lw, Nt, Nf; reflexivity).
  all: unfold Time_UnmarshalJSON; rewrite G; unfold string_of_bytes; rewrite T;
    cbn [String.eqb]; rewrite Nq;
    rewrite (parseFirst_needs_digit zoneTime a r' Dg); reflexivity.
Qed.

(** X25: No kind takes an array or an object.  For a text whose first byte,
    after white space of JSON if any, opens an array or an object, every
    UnmarshalJSON returns an error: Bool and Timestamp their own, with the
    whole text; Int and String the error of [json.Unmarshal], which is a
    syntax error when the text is not well-formed JSON and a type error
    that names the array or the object when it is. *)
Theorem arrays_and_objects_are_refused :
  forall (zoneTime : string -> time.Time -> time.Time)
         (K : Kind) (x : instance K) (data : bytes) (c : ascii) (r : string),
    json.skipSpace data = String c r ->
    (Ascii.eqb c "{" || Ascii.eqb c "[") = true ->
    snd (Decode zoneTime K x data)
    = Some match K with
           | KBool => Errorf ("invalid boolean format: " ++ data)
           | KTimestamp => Errorf ("invalid time format: " ++ data)
           | KInt | KString =>
               if json.checkValid data
               then JSONUnmarshalTypeError (if Ascii.eqb c "{" then "object" else "array")
               else JSONSyntaxError
           end.
Proof.
  intros zoneTime K x data c r Sk Hc.
  destruct (skipSpace_decompose data) as (w & E & Hw). rewrite Sk in E.
  assert (Nq : Ascii.eqb c dq = false).
  { apply orb_prop in Hc as [Hc | Hc]; apply Ascii.eqb_eq in Hc; now subst c. }
  assert (First : exists a rest, data = String a rest
                                 /\ (json.isSpace a = true \/ a = "{"%char \/ a = "["%char)).
  { destruct w as [ | a w'].
    - exists c, r. split; [ exact E | right ].
      apply orb_prop in Hc as [Hc | Hc]; apply Ascii.eqb_eq in Hc; tauto.
    - exists a, (w' ++ String c r)%string. split; [ exact E | left ].
      unfold spaces in Hw. cbn [allChars] in Hw. now apply andb_prop in Hw as [Hw _]. }
  assert (G : ((len data =? 0)%nat || (string_of_bytes data =? "null")%string) = false).
  { apply guard_false.
    - intros ->. discriminate Sk.
    - intros ->. cbn in Sk. injection Sk as <- _. discriminate Hc. }
  assert (Sc : json.scan data
               = if json.checkValid data
                 then Some (if Ascii.eqb c "{" then json.ItemObject else json.ItemArray)
                 else None).
  { unfold json.scan, string_of_bytes. now rewrite Sk, Nq, Hc. }
  destruct K; cbn [Decode].
  - unfold String_UnmarshalJSON, json.Unmarshal_string. rewrite G, Sc.
    destruct (json.checkValid data); [ | reflexivity ].
    destruct (Ascii.eqb c "{"); reflexivity.
  - destruct First as (a & rest & -> & Ha).
    exact (first_byte_refused zoneTime KBool x a rest (or_introl eq_refl) Ha).
  - unfold Int_UnmarshalJSON, json.Unmarshal_Number. rewrite G, Sc.
    destruct (json.checkValid data); [ | reflexivity ].
    destruct (Ascii.eqb c "{"); reflexivity.
  - destruct First as (a & rest & -> & Ha).
    exact (first_byte_refused zoneTime KTimestamp x a rest (or_intror eq_refl) Ha).
Qed.

Lemma arrays_and_objects_are_refused_witness :
  snd (Decode zoneZero KInt (mkInt 7 true) " [1, 2]")
  = Some (JSONUnmarshalTypeError "array")
  /\ snd (Decode zoneZero KString (mkString "a" true) "{")
     = Some JSONSyntaxError.
Proof.
  split.
  - apply (arrays_and_objects_are_refused zoneZero KInt (mkInt 7 true) " [1, 2]"
             "[" "1, 2]"); reflexivity.
  - apply (arrays_and_objects_are_refused zoneZero KString (mkString "a" true) "{"
             "{" ""); reflexivity.
Defined.

(** ** The tests of the repository *)

(** The cases of TestTime_UnmarshalJSON pass, on every host. *)
Example TestTime_UnmarshalJSON_passes :
  forall zoneTime : string -> time.Time -> time.Time,
    forallb (TestTime_UnmarshalJSON_run zoneTime) TestTime_UnmarshalJSON_tests = true.
Proof. intros zoneTime. vm_compute. reflexivity. Qed.

(** The cases of TestTime_MarshalJSON pass. *)
Example TestTime_MarshalJSON_passes :
  forallb TestTime_MarshalJSON_run TestTime_MarshalJSON_tests = true.
Proof. vm_compute. reflexivity. Qed.
